(** * Flow Journal backend (backend/app.py): persistence and authentication

    A shallow embedding of the FastAPI handlers of [app.py] over an explicit
    model of the PostgreSQL store they talk to, and the properties of the
    entry repository, the credential check and the settings store.

    Conventions of the embedding.
    - A Python [str] is the sequence of its UTF-8 bytes, a Rocq [string].
      The character U+0000 is the one [str] content that a PostgreSQL
      [text] cannot hold: a statement given such an argument is refused by
      the server.
    - A Python [int] is a [Z].  An argument for an integer column or for a
      row count has to fit the type of the parameter, otherwise the driver
      refuses the statement before it is sent.
    - A [datetime.date] is its proleptic ordinal ([date.toordinal()]), a [Z];
      a timestamp is a [Z] as well.  Both keep the order of the originals.
    - A table is the list of its rows in insertion order.  Unique keys are
      not built into the type: the statements look rows up by key the way
      the SQL text does, and uniqueness is an invariant that is proved.
    - [async with db_pool.acquire() as conn] hands out a connection in
      autocommit mode: the handlers never open [conn.transaction()], so each
      statement takes effect on its own and stays in effect when a later
      statement of the same handler raises.
    - A statement can fail for reasons outside the handler (connection lost,
      server restart).  The [world] carries the schedule of such faults, one
      flag per statement still to be executed; the empty schedule is the
      fault-free run.
    - A request to a protected route carries a user name and a password.
      Turning away a request without an [Authorization] header is done by
      [HTTPBasic] before [get_current_user] is called, and is not part of
      [app.py].  Handlers are run on the identity that [get_current_user]
      returned, the id of a stored user. *)

From Stdlib Require Import ZArith List String Ascii Bool Lia.
From Stdlib Require Import Sorting.Sorted Sorting.Permutation.
Import ListNotations.

Local Open Scope string_scope.
Local Open Scope list_scope.
Local Open Scope Z_scope.

(** ** hashlib.sha256: FIPS 180-4, on 32-bit words held in [Z] *)

Module SHA256.

Definition mask32 (x : Z) : Z := x mod 2 ^ 32.

Definition add32 (a b : Z) : Z := mask32 (a + b).

Definition rotr (n x : Z) : Z :=
  mask32 (Z.lor (Z.shiftr x n) (Z.shiftl x (32 - n))).

Definition shr (n x : Z) : Z := Z.shiftr x n.

Definition not32 (x : Z) : Z := 2 ^ 32 - 1 - x.

Definition Ch (x y z : Z) : Z := Z.lxor (Z.land x y) (Z.land (not32 x) z).

Definition Maj (x y z : Z) : Z :=
  Z.lxor (Z.lxor (Z.land x y) (Z.land x z)) (Z.land y z).

Definition Sigma0 (x : Z) : Z := Z.lxor (Z.lxor (rotr 2 x) (rotr 13 x)) (rotr 22 x).
Definition Sigma1 (x : Z) : Z := Z.lxor (Z.lxor (rotr 6 x) (rotr 11 x)) (rotr 25 x).
Definition sigma0 (x : Z) : Z := Z.lxor (Z.lxor (rotr 7 x) (rotr 18 x)) (shr 3 x).
Definition sigma1 (x : Z) : Z := Z.lxor (Z.lxor (rotr 17 x) (rotr 19 x)) (shr 10 x).

(** The round constants and the initial hash value are the first 32 bits of
    the fractional parts of the cube roots of the first 64 primes, and of
    the square roots of the first 8. *)
Definition is_prime (n : Z) : bool :=
  (1 <? n)
  && forallb (fun d => negb (n mod d =? 0))
       (map Z.of_nat (seq 2 (Z.to_nat n - 2))).

Definition primes (count : nat) : list Z :=
  firstn count (filter is_prime (map Z.of_nat (seq 2 400))).

(** The largest [r + x], [x] below [2 ^ bits], whose [k]-th power is at most
    [n]. *)
Fixpoint root_from (k n : Z) (bits : nat) (r : Z) : Z :=
  match bits with
  | O => r
  | S bits' =>
      let r' := r + 2 ^ Z.of_nat bits' in
      if r' ^ k <=? n then root_from k n bits' r' else root_from k n bits' r
  end.

Definition root_fraction (k p : Z) : Z :=
  mask32 (root_from k (p * 2 ^ (32 * k)) 36 0).

Definition K : list Z := Eval vm_compute in map (root_fraction 3) (primes 64).

Definition H0 : list Z := Eval vm_compute in map (root_fraction 2) (primes 8).

Definition bytes_of_string (s : string) : list Z :=
  map (fun c => Z.of_N (N_of_ascii c)) (list_ascii_of_string s).

(** Big-endian bytes of [x], [n] of them. *)
Fixpoint be_bytes (n : nat) (x : Z) : list Z :=
  match n with
  | O => []
  | S n' => (Z.shiftr x (8 * Z.of_nat n')) mod 256 :: be_bytes n' x
  end.

(** One [1] bit, zero bits up to 448 modulo 512, then the bit length on 64
    bits. *)
Definition pad (msg : list Z) : list Z :=
  let l := Z.of_nat (List.length msg) in
  msg ++ 128 :: repeat 0 (Z.to_nat ((55 - l) mod 64)) ++ be_bytes 8 (8 * l).

Fixpoint words (bs : list Z) : list Z :=
  match bs with
  | a :: b :: c :: d :: rest =>
      (Z.shiftl a 24 + Z.shiftl b 16 + Z.shiftl c 8 + d) :: words rest
  | _ => []
  end.

Fixpoint blocks (n : nat) (ws : list Z) : list (list Z) :=
  match n with
  | O => []
  | S n' => firstn 16 ws :: blocks n' (skipn 16 ws)
  end.

(** The message schedule: [n] more words after those of [w]. *)
Fixpoint schedule (n : nat) (w : list Z) : list Z :=
  match n with
  | O => w
  | S n' =>
      let t := List.length w in
      let at_ (i : nat) := nth (t - i) w 0 in
      schedule n'
        (w ++ [add32 (add32 (sigma1 (at_ 2%nat)) (at_ 7%nat))
                     (add32 (sigma0 (at_ 15%nat)) (at_ 16%nat))])
  end.

Record regs := Regs { ra : Z; rb : Z; rc : Z; rd : Z; re : Z; rf : Z; rg : Z; rh : Z }.

Definition round (r : regs) (kw : Z * Z) : regs :=
  let '(k, w) := kw in
  let t1 := add32 (add32 (add32 (rh r) (Sigma1 (re r))) (Ch (re r) (rf r) (rg r)))
                  (add32 k w) in
  let t2 := add32 (Sigma0 (ra r)) (Maj (ra r) (rb r) (rc r)) in
  Regs (add32 t1 t2) (ra r) (rb r) (rc r) (add32 (rd r) t1) (re r) (rf r) (rg r).

Definition regs_of (h : list Z) : regs :=
  Regs (nth 0 h 0) (nth 1 h 0) (nth 2 h 0) (nth 3 h 0)
       (nth 4 h 0) (nth 5 h 0) (nth 6 h 0) (nth 7 h 0).

Definition list_of (r : regs) : list Z :=
  [ra r; rb r; rc r; rd r; re r; rf r; rg r; rh r].

Definition compress (h : list Z) (block : list Z) : list Z :=
  let r := fold_left round (combine K (schedule 48 block)) (regs_of h) in
  map (fun p => add32 (fst p) (snd p)) (combine h (list_of r)).

Definition digest (msg : list Z) : list Z :=
  let ws := words (pad msg) in
  let hs := fold_left compress (blocks (Nat.div (List.length ws) 16) ws) H0 in
  List.concat (map (be_bytes 4) hs).

Definition hex_digit (n : Z) : ascii :=
  if n <? 10 then ascii_of_N (Z.to_N (48 + n)) else ascii_of_N (Z.to_N (87 + n)).

Fixpoint hex (bs : list Z) : string :=
  match bs with
  | [] => EmptyString
  | b :: rest => String (hex_digit (b / 16)) (String (hex_digit (b mod 16)) (hex rest))
  end.

Definition hexdigest (s : string) : string := hex (digest (bytes_of_string s)).

End SHA256.

(** [hash_password]: [hashlib.sha256(password.encode()).hexdigest()]. *)
Definition hash_password (password : string) : string := SHA256.hexdigest password.

Arguments hash_password : simpl never.

(** ** Request bodies (the pydantic models) *)

Definition date := Z.
Definition timestamp := Z.

(** A JSON value; a Python [dict] is a [JObject]. *)
#[local] Unset Elimination Schemes.
Inductive json : Type :=
| JNull
| JBool (b : bool)
| JNumber (n : Z)
| JString (s : string)
| JArray (items : list json)
| JObject (members : list (string * json)).
#[local] Set Elimination Schemes.

Module HTTPBasicCredentials.
Record t := { username : string; password : string }.
End HTTPBasicCredentials.

Module UserCreate.
Record t := { username : string; password : string }.
End UserCreate.

Module IntroReflection.
Record t := {
  q1_important_events : string;
  q2_current_thoughts : string;
  q3_physical_symptoms : string;
  q4_current_feelings : string;
  q5_brought_closer : string;
  q6_brought_further : string;
  q7_change_in_10_weeks : string }.
End IntroReflection.

Module DailyEntry.
Record t := {
  entry_date : date;
  energy_level : option Z;
  selected_emotions : list string;
  how_want_to_feel : option string;
  daily_mantra : option string;
  grateful_1 : option string;
  grateful_2 : option string;
  grateful_3 : option string;
  goal_1 : option string;
  goal_2 : option string;
  goal_3 : option string;
  selfcare_actions : option string;
  free_journal : option string;
  favorite_moment : option string }.
End DailyEntry.

Module WeeklyReflection.
Record t := {
  week_number : Z;
  week_start_date : date;
  week_end_date : date;
  current_mood : option string;
  important_results : option string;
  important_realizations : option string;
  proud_1 : option string;
  proud_2 : option string;
  proud_3 : option string;
  proud_4 : option string;
  proud_5 : option string;
  change_phase : option string;
  change_reflection : option string;
  next_week_focus : option string;
  task_1 : option string;
  task_2 : option string;
  task_3 : option string;
  task_4 : option string;
  task_5 : option string }.
End WeeklyReflection.

Module FinalReflection.
Record t := {
  q1_starting_point : string;
  q2_feeling_and_goal : string;
  q3_journey_obstacles : string;
  q4_arrival_changes : string;
  q5_self_learning : string;
  q6_future_path : string;
  q7_journaling_impact : string;
  q8_celebration : string }.
End FinalReflection.

(** ** Tables

    One record per table, with the columns the statements of [app.py] name.
    The DDL is not part of the sources; what the handlers rely on is read
    off the SQL text: the conflict targets of the upserts, the
    [UniqueViolationError] that [register] reports as a taken username, and
    the columns that are selected but never written by an [INSERT]
    ([users.id], [users.intro_completed], the [created_at] and [updated_at]
    columns, [user_settings.emotion_wheel]), which are filled by column
    defaults.  A json column is read and written by the driver as the text
    of the document, a [str]: the pool of [app.py] is created without an
    [init] that would register another codec. *)

Module users.
Record row := {
  id : Z;
  username : string;
  password_hash : string;
  intro_completed : bool;
  created_at : timestamp }.
End users.

Module user_settings.
Record row := {
  user_id : Z;
  emotion_wheel : string;
  updated_at : timestamp }.
End user_settings.

Module intro_reflection.
Record row := {
  user_id : Z;
  q1_important_events : string;
  q2_current_thoughts : string;
  q3_physical_symptoms : string;
  q4_current_feelings : string;
  q5_brought_closer : string;
  q6_brought_further : string;
  q7_change_in_10_weeks : string }.
End intro_reflection.

Module daily_entries.
Record row := {
  user_id : Z;
  entry_date : date;
  energy_level : option Z;
  selected_emotions : list string;
  how_want_to_feel : option string;
  daily_mantra : option string;
  grateful_1 : option string;
  grateful_2 : option string;
  grateful_3 : option string;
  goal_1 : option string;
  goal_2 : option string;
  goal_3 : option string;
  selfcare_actions : option string;
  free_journal : option string;
  favorite_moment : option string;
  created_at : timestamp;
  updated_at : timestamp }.
End daily_entries.

Module weekly_reflections.
Record row := {
  user_id : Z;
  week_number : Z;
  week_start_date : date;
  week_end_date : date;
  current_mood : option string;
  important_results : option string;
  important_realizations : option string;
  proud_1 : option string;
  proud_2 : option string;
  proud_3 : option string;
  proud_4 : option string;
  proud_5 : option string;
  change_phase : option string;
  change_reflection : option string;
  next_week_focus : option string;
  task_1 : option string;
  task_2 : option string;
  task_3 : option string;
  task_4 : option string;
  task_5 : option string }.
End weekly_reflections.

Module final_reflection.
Record row := {
  user_id : Z;
  q1_starting_point : string;
  q2_feeling_and_goal : string;
  q3_journey_obstacles : string;
  q4_arrival_changes : string;
  q5_self_learning : string;
  q6_future_path : string;
  q7_journaling_impact : string;
  q8_celebration : string }.
End final_reflection.

(** The integer types of PostgreSQL and their ranges. *)
Inductive integer_type : Type := smallint | integer | bigint.

Definition bits (t : integer_type) : Z :=
  match t with smallint => 16 | integer => 32 | bigint => 64 end.

Definition in_range (t : integer_type) (n : Z) : bool :=
  (- 2 ^ (bits t - 1) <=? n) && (n <? 2 ^ (bits t - 1)).

(** The database: the six tables, the sequence behind [users.id], and what
    the statements depend on of the catalog, which is not part of [app.py]:
    the default of the [user_settings.emotion_wheel] column and the integer
    types of the columns [daily_entries.energy_level] and
    [weekly_reflections.week_number]. *)
Record database := {
  users : list users.row;
  users_id_seq : Z;
  user_settings : list user_settings.row;
  emotion_wheel_default : string;
  energy_level_type : integer_type;
  week_number_type : integer_type;
  intro_reflection : list intro_reflection.row;
  daily_entries : list daily_entries.row;
  weekly_reflections : list weekly_reflections.row;
  final_reflection : list final_reflection.row }.

Definition empty_database (wheel : string) (energy_level week_number : integer_type)
  : database :=
  {| users := []; users_id_seq := 0; user_settings := [];
     emotion_wheel_default := wheel;
     energy_level_type := energy_level; week_number_type := week_number;
     intro_reflection := [];
     daily_entries := []; weekly_reflections := []; final_reflection := [] |}.

Definition set_users (d : database) (t : list users.row) (seq : Z) : database :=
  {| users := t; users_id_seq := seq; user_settings := user_settings d;
     emotion_wheel_default := emotion_wheel_default d;
     energy_level_type := energy_level_type d;
     week_number_type := week_number_type d;
     intro_reflection := intro_reflection d; daily_entries := daily_entries d;
     weekly_reflections := weekly_reflections d;
     final_reflection := final_reflection d |}.

Definition set_user_settings (d : database) (t : list user_settings.row) : database :=
  {| users := users d; users_id_seq := users_id_seq d; user_settings := t;
     emotion_wheel_default := emotion_wheel_default d;
     energy_level_type := energy_level_type d;
     week_number_type := week_number_type d;
     intro_reflection := intro_reflection d; daily_entries := daily_entries d;
     weekly_reflections := weekly_reflections d;
     final_reflection := final_reflection d |}.

Definition set_intro_reflection (d : database) (t : list intro_reflection.row) : database :=
  {| users := users d; users_id_seq := users_id_seq d;
     user_settings := user_settings d;
     emotion_wheel_default := emotion_wheel_default d;
     energy_level_type := energy_level_type d;
     week_number_type := week_number_type d;
     intro_reflection := t; daily_entries := daily_entries d;
     weekly_reflections := weekly_reflections d;
     final_reflection := final_reflection d |}.

Definition set_daily_entries (d : database) (t : list daily_entries.row) : database :=
  {| users := users d; users_id_seq := users_id_seq d;
     user_settings := user_settings d;
     emotion_wheel_default := emotion_wheel_default d;
     energy_level_type := energy_level_type d;
     week_number_type := week_number_type d;
     intro_reflection := intro_reflection d; daily_entries := t;
     weekly_reflections := weekly_reflections d;
     final_reflection := final_reflection d |}.

Definition set_weekly_reflections (d : database) (t : list weekly_reflections.row) : database :=
  {| users := users d; users_id_seq := users_id_seq d;
     user_settings := user_settings d;
     emotion_wheel_default := emotion_wheel_default d;
     energy_level_type := energy_level_type d;
     week_number_type := week_number_type d;
     intro_reflection := intro_reflection d; daily_entries := daily_entries d;
     weekly_reflections := t;
     final_reflection := final_reflection d |}.

Definition set_final_reflection (d : database) (t : list final_reflection.row) : database :=
  {| users := users d; users_id_seq := users_id_seq d;
     user_settings := user_settings d;
     emotion_wheel_default := emotion_wheel_default d;
     energy_level_type := energy_level_type d;
     week_number_type := week_number_type d;
     intro_reflection := intro_reflection d; daily_entries := daily_entries d;
     weekly_reflections := weekly_reflections d;
     final_reflection := t |}.

(** ** Exceptions, and the monad of a request handler

    A handler runs against a [world]: the database, the clock that [NOW()]
    reads, and the faults still to come.  An exception leaves the world as
    the statements executed so far have made it: nothing is rolled back. *)

Inductive exn : Type :=
| HTTPException (status_code : Z) (detail : string) (headers : list (string * string))
| UniqueViolationError
| InvalidRowCountInLimitClauseError
| DataError
| CharacterNotInRepertoireError
| ConnectionDoesNotExistError
| TypeError.

Inductive result (A : Type) : Type :=
| Return (a : A)
| Raise (e : exn).
Arguments Return {A} a.
Arguments Raise {A} e.

Record world := {
  db : database;
  clock : timestamp;
  faults : list bool }.

Definition M (A : Type) : Type := world -> world * result A.

Definition ret {A : Type} (a : A) : M A := fun w => (w, Return a).

Definition raise {A : Type} (e : exn) : M A := fun w => (w, Raise e).

Definition bind {A B : Type} (m : M A) (k : A -> M B) : M B :=
  fun w =>
    match m w with
    | (w', Return a) => k a w'
    | (w', Raise e) => (w', Raise e)
    end.

(** [try: m  except e: handler e]; [handler e = None] when no [except] clause
    matches [e]. *)
Definition try_except {A : Type} (m : M A) (handler : exn -> option (M A)) : M A :=
  fun w =>
    match m w with
    | (w', Return a) => (w', Return a)
    | (w', Raise e) =>
        match handler e with
        | Some k => k w'
        | None => (w', Raise e)
        end
    end.

Declare Scope handler_scope.
Delimit Scope handler_scope with handler.
Notation "x <- m ;; k" := (bind m (fun x => k))
  (at level 100, m at next level, right associativity) : handler_scope.
Notation "m ;;; k" := (bind m (fun _ => k))
  (at level 100, right associativity) : handler_scope.
Local Open Scope handler_scope.

(** A statement maps the time of its execution and the database to the new
    database and what the driver hands back. *)
Definition statement (A : Type) : Type := timestamp -> database -> database * result A.

(** Sending one statement over the connection.  With a fault scheduled the
    statement does not reach the database. *)
Definition send {A : Type} (q : statement A) : M A :=
  fun w =>
    match faults w with
    | true :: rest =>
        ({| db := db w; clock := clock w; faults := rest |},
         Raise ConnectionDoesNotExistError)
    | _ =>
        let (d, r) := q (clock w) (db w) in
        ({| db := d; clock := clock w; faults := tl (faults w) |}, r)
    end.

(** [conn.execute], [conn.fetchrow], [conn.fetchval] and [conn.fetch]. *)
Definition execute (q : statement unit) : M unit := send q.
Definition fetchrow {R : Type} (q : statement (option R)) : M (option R) := send q.
Definition fetchval {A : Type} (q : statement A) : M A := send q.
Definition fetch {R : Type} (q : statement (list R)) : M (list R) := send q.

(** ** The SQL the handlers use *)

(** Whether a string holds the character U+0000. *)
Fixpoint has_nul (s : string) : bool :=
  match s with
  | EmptyString => false
  | String c rest => (N_of_ascii c =? 0)%N || has_nul rest
  end.

Definition optional_text (o : option string) : list string :=
  match o with
  | Some s => [s]
  | None => []
  end.

(** The arguments of a statement are looked at before the statement runs:
    the driver encodes them and raises [DataError] for an integer outside
    the type of its parameter, and the server refuses a text with U+0000.
    Either way the statement has no effect. *)
Definition with_arguments {A : Type} (integers_in_range : bool) (texts : list string)
    (d : database) (run : database * result A) : database * result A :=
  if negb integers_in_range then (d, Raise DataError)
  else if existsb has_nul texts then (d, Raise CharacterNotInRepertoireError)
  else run.

(** [SELECT ... WHERE p], first row or all rows. *)
Definition select_one {R : Type} (table : database -> list R) (p : R -> bool)
  : statement (option R) :=
  fun _ d => (d, Return (find p (table d))).

(** [INSERT ... ON CONFLICT (key) DO UPDATE SET ...]: the row in conflict
    with the proposed one is updated in place, and without one the proposed
    row is appended. *)
Fixpoint insert_on_conflict_update {R : Type} (conflicts : R -> bool)
    (do_update : R -> R) (excluded : R) (t : list R) : list R :=
  match t with
  | [] => [excluded]
  | r :: rest =>
      if conflicts r then do_update r :: rest
      else r :: insert_on_conflict_update conflicts do_update excluded rest
  end.

(** [UPDATE ... SET ... WHERE p]. *)
Definition update_where {R : Type} (p : R -> bool) (set : R -> R) (t : list R) : list R :=
  map (fun r => if p r then set r else r) t.

(** [ORDER BY key DESC], by insertion.  The keys the handlers sort on are
    unique among the rows selected, so the order of equal keys never shows. *)
Fixpoint insert_desc {R : Type} (key : R -> Z) (x : R) (l : list R) : list R :=
  match l with
  | [] => [x]
  | y :: rest =>
      if key y <=? key x then x :: l else y :: insert_desc key x rest
  end.

Fixpoint order_by_desc {R : Type} (key : R -> Z) (l : list R) : list R :=
  match l with
  | [] => []
  | x :: rest => insert_desc key x (order_by_desc key rest)
  end.

(** ** Authentication *)

(** [dict(user)] of [get_current_user]: the columns [id], [username] and
    [intro_completed] of the matching row. *)
Module CurrentUser.
Record t := { id : Z; username : string; intro_completed : bool }.
End CurrentUser.

Definition identity_of (u : users.row) : CurrentUser.t :=
  {| CurrentUser.id := users.id u;
     CurrentUser.username := users.username u;
     CurrentUser.intro_completed := users.intro_completed u |}.

Definition credentials_match (username password_hash : string) (u : users.row) : bool :=
  String.eqb (users.username u) username
  && String.eqb (users.password_hash u) password_hash.

Definition unauthorized : exn :=
  HTTPException 401 "Invalid credentials" [("WWW-Authenticate", "Basic")].

(** [SELECT id, username, intro_completed FROM users
     WHERE username = $1 AND password_hash = $2]. *)
Definition select_user (username password_hash : string) : statement (option users.row) :=
  fun _ d =>
    with_arguments true [username; password_hash] d
      (d, Return (find (credentials_match username password_hash) (users d))).

Definition get_current_user (credentials : HTTPBasicCredentials.t) : M CurrentUser.t :=
  let username := HTTPBasicCredentials.username credentials in
  let password_hash := hash_password (HTTPBasicCredentials.password credentials) in
  user <- fetchrow (select_user username password_hash) ;;
  match user with
  | None => raise unauthorized
  | Some u => ret (identity_of u)
  end.

(** [current_user: dict = Depends(get_current_user)]: the dependency is
    resolved first, and the endpoint runs on what it returned. *)
Definition Depends {A : Type} (dependency : HTTPBasicCredentials.t -> M CurrentUser.t)
    (endpoint : CurrentUser.t -> M A) (credentials : HTTPBasicCredentials.t) : M A :=
  current_user <- dependency credentials ;; endpoint current_user.

(** ** POST /api/register *)

(** [INSERT INTO users (username, password_hash) VALUES ($1, $2) RETURNING id].
    The id is drawn from the sequence before the unique index on [username]
    is checked, and a sequence is not set back by a failing statement.
    Modelled from the spec: the DDL of [users] is not among the sources;
    [id] is unique and generated, [intro_completed] starts false and flips
    to true on the first intro reflection, [created_at] is the time of
    creation. *)
Definition insert_user (username password_hash : string) : statement Z :=
  fun now d =>
    let new_id := users_id_seq d + 1 in
    with_arguments true [username; password_hash] d
      (if existsb (fun u => String.eqb (users.username u) username) (users d)
       then (set_users d (users d) new_id, Raise UniqueViolationError)
       else
         (set_users d
            (users d ++ [ {| users.id := new_id;
                             users.username := username;
                             users.password_hash := password_hash;
                             users.intro_completed := false;
                             users.created_at := now |} ])
            new_id,
          Return new_id)).

(** [INSERT INTO user_settings (user_id) VALUES ($1)].
    Modelled from the spec: the DDL of [user_settings] is not among the
    sources; there is one settings row per user, holding a default emotion
    wheel from its creation on. *)
Definition insert_user_settings (user_id : Z) : statement unit :=
  fun now d =>
    if existsb (fun s => user_settings.user_id s =? user_id) (user_settings d)
    then (d, Raise UniqueViolationError)
    else
      (set_user_settings d
         (user_settings d ++ [ {| user_settings.user_id := user_id;
                                  user_settings.emotion_wheel := emotion_wheel_default d;
                                  user_settings.updated_at := now |} ]),
       Return tt).

Definition register (user : UserCreate.t) : M (string * Z) :=
  let password_hash := hash_password (UserCreate.password user) in
  try_except
    (user_id <- fetchval (insert_user (UserCreate.username user) password_hash) ;;
     (* Create default settings *)
     execute (insert_user_settings user_id) ;;;
     ret ("User created successfully", user_id))
    (fun e =>
       match e with
       | UniqueViolationError =>
           Some (raise (HTTPException 400 "Username already exists" []))
       | _ => None
       end).

(** ** GET /api/user/status *)

Module UserStatus.
Record t := { user_id : Z; username : string; intro_completed : bool; created_at : timestamp }.
End UserStatus.

Definition get_user_status (current_user : CurrentUser.t) : M UserStatus.t :=
  user_data <- fetchrow (select_one users
                 (fun u => users.id u =? CurrentUser.id current_user)) ;;
  match user_data with
  | None => raise TypeError
  | Some u =>
      ret {| UserStatus.user_id := users.id u;
             UserStatus.username := users.username u;
             UserStatus.intro_completed := users.intro_completed u;
             UserStatus.created_at := users.created_at u |}
  end.

(** ** Intro reflection *)

(** The text arguments of the upsert. *)
Definition intro_texts (reflection : IntroReflection.t) : list string :=
  [ IntroReflection.q1_important_events reflection;
    IntroReflection.q2_current_thoughts reflection;
    IntroReflection.q3_physical_symptoms reflection;
    IntroReflection.q4_current_feelings reflection;
    IntroReflection.q5_brought_closer reflection;
    IntroReflection.q6_brought_further reflection;
    IntroReflection.q7_change_in_10_weeks reflection ].

Definition upsert_intro_reflection (user_id : Z) (reflection : IntroReflection.t)
  : statement unit :=
  fun _ d =>
    let excluded :=
      {| intro_reflection.user_id := user_id;
         intro_reflection.q1_important_events := IntroReflection.q1_important_events reflection;
         intro_reflection.q2_current_thoughts := IntroReflection.q2_current_thoughts reflection;
         intro_reflection.q3_physical_symptoms := IntroReflection.q3_physical_symptoms reflection;
         intro_reflection.q4_current_feelings := IntroReflection.q4_current_feelings reflection;
         intro_reflection.q5_brought_closer := IntroReflection.q5_brought_closer reflection;
         intro_reflection.q6_brought_further := IntroReflection.q6_brought_further reflection;
         intro_reflection.q7_change_in_10_weeks := IntroReflection.q7_change_in_10_weeks reflection |} in
    let do_update (old : intro_reflection.row) :=
      {| intro_reflection.user_id := intro_reflection.user_id old;
         intro_reflection.q1_important_events := intro_reflection.q1_important_events excluded;
         intro_reflection.q2_current_thoughts := intro_reflection.q2_current_thoughts excluded;
         intro_reflection.q3_physical_symptoms := intro_reflection.q3_physical_symptoms excluded;
         intro_reflection.q4_current_feelings := intro_reflection.q4_current_feelings excluded;
         intro_reflection.q5_brought_closer := intro_reflection.q5_brought_closer excluded;
         intro_reflection.q6_brought_further := intro_reflection.q6_brought_further excluded;
         intro_reflection.q7_change_in_10_weeks := intro_reflection.q7_change_in_10_weeks excluded |} in
    with_arguments true (intro_texts reflection) d
      (set_intro_reflection d
         (insert_on_conflict_update
            (fun r => intro_reflection.user_id r =? user_id)
            do_update excluded (intro_reflection d)),
       Return tt).

(** [UPDATE users SET intro_completed = TRUE WHERE id = $1]. *)
Definition mark_intro_completed (user_id : Z) : statement unit :=
  fun _ d =>
    (set_users d
       (update_where (fun u => users.id u =? user_id)
          (fun u => {| users.id := users.id u;
                       users.username := users.username u;
                       users.password_hash := users.password_hash u;
                       users.intro_completed := true;
                       users.created_at := users.created_at u |})
          (users d))
       (users_id_seq d),
     Return tt).

Definition save_intro_reflection (reflection : IntroReflection.t)
    (current_user : CurrentUser.t) : M string :=
  execute (upsert_intro_reflection (CurrentUser.id current_user) reflection) ;;;
  (* Mark intro as completed *)
  execute (mark_intro_completed (CurrentUser.id current_user)) ;;;
  ret "Intro reflection saved successfully".

Definition not_found (detail : string) : exn := HTTPException 404 detail [].

Definition get_intro_reflection (current_user : CurrentUser.t) : M intro_reflection.row :=
  reflection <- fetchrow (select_one intro_reflection
                  (fun r => intro_reflection.user_id r =? CurrentUser.id current_user)) ;;
  match reflection with
  | None => raise (not_found "Intro reflection not found")
  | Some r => ret r
  end.

(** ** Daily entries *)

(** Modelled from the spec: the DDL of [daily_entries] is not among the
    sources; [created_at] and [updated_at] are not written by the [INSERT]
    and start as the time of insertion. *)
Definition daily_texts (entry : DailyEntry.t) : list string :=
  DailyEntry.selected_emotions entry
  ++ optional_text (DailyEntry.how_want_to_feel entry)
  ++ optional_text (DailyEntry.daily_mantra entry)
  ++ optional_text (DailyEntry.grateful_1 entry)
  ++ optional_text (DailyEntry.grateful_2 entry)
  ++ optional_text (DailyEntry.grateful_3 entry)
  ++ optional_text (DailyEntry.goal_1 entry)
  ++ optional_text (DailyEntry.goal_2 entry)
  ++ optional_text (DailyEntry.goal_3 entry)
  ++ optional_text (DailyEntry.selfcare_actions entry)
  ++ optional_text (DailyEntry.free_journal entry)
  ++ optional_text (DailyEntry.favorite_moment entry).

Definition energy_level_in_range (d : database) (entry : DailyEntry.t) : bool :=
  match DailyEntry.energy_level entry with
  | Some n => in_range (energy_level_type d) n
  | None => true
  end.

Definition upsert_daily_entry (user_id : Z) (entry : DailyEntry.t) : statement unit :=
  fun now d =>
    let excluded :=
      {| daily_entries.user_id := user_id;
         daily_entries.entry_date := DailyEntry.entry_date entry;
         daily_entries.energy_level := DailyEntry.energy_level entry;
         daily_entries.selected_emotions := DailyEntry.selected_emotions entry;
         daily_entries.how_want_to_feel := DailyEntry.how_want_to_feel entry;
         daily_entries.daily_mantra := DailyEntry.daily_mantra entry;
         daily_entries.grateful_1 := DailyEntry.grateful_1 entry;
         daily_entries.grateful_2 := DailyEntry.grateful_2 entry;
         daily_entries.grateful_3 := DailyEntry.grateful_3 entry;
         daily_entries.goal_1 := DailyEntry.goal_1 entry;
         daily_entries.goal_2 := DailyEntry.goal_2 entry;
         daily_entries.goal_3 := DailyEntry.goal_3 entry;
         daily_entries.selfcare_actions := DailyEntry.selfcare_actions entry;
         daily_entries.free_journal := DailyEntry.free_journal entry;
         daily_entries.favorite_moment := DailyEntry.favorite_moment entry;
         daily_entries.created_at := now;
         daily_entries.updated_at := now |} in
    let do_update (old : daily_entries.row) :=
      {| daily_entries.user_id := daily_entries.user_id old;
         daily_entries.entry_date := daily_entries.entry_date old;
         daily_entries.energy_level := daily_entries.energy_level excluded;
         daily_entries.selected_emotions := daily_entries.selected_emotions excluded;
         daily_entries.how_want_to_feel := daily_entries.how_want_to_feel excluded;
         daily_entries.daily_mantra := daily_entries.daily_mantra excluded;
         daily_entries.grateful_1 := daily_entries.grateful_1 excluded;
         daily_entries.grateful_2 := daily_entries.grateful_2 excluded;
         daily_entries.grateful_3 := daily_entries.grateful_3 excluded;
         daily_entries.goal_1 := daily_entries.goal_1 excluded;
         daily_entries.goal_2 := daily_entries.goal_2 excluded;
         daily_entries.goal_3 := daily_entries.goal_3 excluded;
         daily_entries.selfcare_actions := daily_entries.selfcare_actions excluded;
         daily_entries.free_journal := daily_entries.free_journal excluded;
         daily_entries.favorite_moment := daily_entries.favorite_moment excluded;
         daily_entries.created_at := daily_entries.created_at old;
         daily_entries.updated_at := now |} in
    with_arguments (energy_level_in_range d entry) (daily_texts entry) d
      (set_daily_entries d
         (insert_on_conflict_update
            (fun r => (daily_entries.user_id r =? user_id)
                      && (daily_entries.entry_date r =? DailyEntry.entry_date entry))
            do_update excluded (daily_entries d)),
       Return tt).

Definition save_daily_entry (entry : DailyEntry.t) (current_user : CurrentUser.t)
  : M string :=
  execute (upsert_daily_entry (CurrentUser.id current_user) entry) ;;;
  ret "Entry saved successfully".

Definition get_daily_entry (entry_date : date) (current_user : CurrentUser.t)
  : M (option daily_entries.row) :=
  entry <- fetchrow (select_one daily_entries
             (fun r => (daily_entries.user_id r =? CurrentUser.id current_user)
                       && (daily_entries.entry_date r =? entry_date))) ;;
  match entry with
  | None => ret None
  | Some r => ret (Some r)
  end.

(** The columns [list_entries] selects. *)
Module EntrySummary.
Record t := { entry_date : date; selected_emotions : list string; created_at : timestamp }.
End EntrySummary.

Definition summary_of (r : daily_entries.row) : EntrySummary.t :=
  {| EntrySummary.entry_date := daily_entries.entry_date r;
     EntrySummary.selected_emotions := daily_entries.selected_emotions r;
     EntrySummary.created_at := daily_entries.created_at r |}.

Definition int64_max : Z := 2 ^ 63 - 1.

(** [SELECT entry_date, selected_emotions, created_at FROM daily_entries
     WHERE user_id = $1 ORDER BY entry_date DESC LIMIT $2].
    [$2] is a [bigint]: the driver refuses an argument outside its range,
    and the server refuses a negative row count. *)
Definition select_entries (user_id limit : Z) : statement (list EntrySummary.t) :=
  fun _ d =>
    if (limit <? - 2 ^ 63) || (int64_max <? limit) then (d, Raise DataError)
    else if limit <? 0 then (d, Raise InvalidRowCountInLimitClauseError)
    else
      (d, Return
            (map summary_of
               (firstn (Z.to_nat limit)
                  (order_by_desc daily_entries.entry_date
                     (filter (fun r => daily_entries.user_id r =? user_id)
                        (daily_entries d)))))).

Definition default_limit : Z := 30.

Definition list_entries (limit : Z) (current_user : CurrentUser.t)
  : M (list EntrySummary.t) :=
  entries <- fetch (select_entries (CurrentUser.id current_user) limit) ;;
  ret entries.

(** ** Weekly reflections *)

Definition weekly_texts (reflection : WeeklyReflection.t) : list string :=
  optional_text (WeeklyReflection.current_mood reflection)
  ++ optional_text (WeeklyReflection.important_results reflection)
  ++ optional_text (WeeklyReflection.important_realizations reflection)
  ++ optional_text (WeeklyReflection.proud_1 reflection)
  ++ optional_text (WeeklyReflection.proud_2 reflection)
  ++ optional_text (WeeklyReflection.proud_3 reflection)
  ++ optional_text (WeeklyReflection.proud_4 reflection)
  ++ optional_text (WeeklyReflection.proud_5 reflection)
  ++ optional_text (WeeklyReflection.change_phase reflection)
  ++ optional_text (WeeklyReflection.change_reflection reflection)
  ++ optional_text (WeeklyReflection.next_week_focus reflection)
  ++ optional_text (WeeklyReflection.task_1 reflection)
  ++ optional_text (WeeklyReflection.task_2 reflection)
  ++ optional_text (WeeklyReflection.task_3 reflection)
  ++ optional_text (WeeklyReflection.task_4 reflection)
  ++ optional_text (WeeklyReflection.task_5 reflection).

Definition upsert_weekly_reflection (user_id : Z) (reflection : WeeklyReflection.t)
  : statement unit :=
  fun _ d =>
    let excluded :=
      {| weekly_reflections.user_id := user_id;
         weekly_reflections.week_number := WeeklyReflection.week_number reflection;
         weekly_reflections.week_start_date := WeeklyReflection.week_start_date reflection;
         weekly_reflections.week_end_date := WeeklyReflection.week_end_date reflection;
         weekly_reflections.current_mood := WeeklyReflection.current_mood reflection;
         weekly_reflections.important_results := WeeklyReflection.important_results reflection;
         weekly_reflections.important_realizations := WeeklyReflection.important_realizations reflection;
         weekly_reflections.proud_1 := WeeklyReflection.proud_1 reflection;
         weekly_reflections.proud_2 := WeeklyReflection.proud_2 reflection;
         weekly_reflections.proud_3 := WeeklyReflection.proud_3 reflection;
         weekly_reflections.proud_4 := WeeklyReflection.proud_4 reflection;
         weekly_reflections.proud_5 := WeeklyReflection.proud_5 reflection;
         weekly_reflections.change_phase := WeeklyReflection.change_phase reflection;
         weekly_reflections.change_reflection := WeeklyReflection.change_reflection reflection;
         weekly_reflections.next_week_focus := WeeklyReflection.next_week_focus reflection;
         weekly_reflections.task_1 := WeeklyReflection.task_1 reflection;
         weekly_reflections.task_2 := WeeklyReflection.task_2 reflection;
         weekly_reflections.task_3 := WeeklyReflection.task_3 reflection;
         weekly_reflections.task_4 := WeeklyReflection.task_4 reflection;
         weekly_reflections.task_5 := WeeklyReflection.task_5 reflection |} in
    let do_update (old : weekly_reflections.row) :=
      {| weekly_reflections.user_id := weekly_reflections.user_id old;
         weekly_reflections.week_number := weekly_reflections.week_number old;
         weekly_reflections.week_start_date := weekly_reflections.week_start_date old;
         weekly_reflections.week_end_date := weekly_reflections.week_end_date old;
         weekly_reflections.current_mood := weekly_reflections.current_mood excluded;
         weekly_reflections.important_results := weekly_reflections.important_results excluded;
         weekly_reflections.important_realizations := weekly_reflections.important_realizations excluded;
         weekly_reflections.proud_1 := weekly_reflections.proud_1 excluded;
         weekly_reflections.proud_2 := weekly_reflections.proud_2 excluded;
         weekly_reflections.proud_3 := weekly_reflections.proud_3 excluded;
         weekly_reflections.proud_4 := weekly_reflections.proud_4 excluded;
         weekly_reflections.proud_5 := weekly_reflections.proud_5 excluded;
         weekly_reflections.change_phase := weekly_reflections.change_phase excluded;
         weekly_reflections.change_reflection := weekly_reflections.change_reflection excluded;
         weekly_reflections.next_week_focus := weekly_reflections.next_week_focus excluded;
         weekly_reflections.task_1 := weekly_reflections.task_1 excluded;
         weekly_reflections.task_2 := weekly_reflections.task_2 excluded;
         weekly_reflections.task_3 := weekly_reflections.task_3 excluded;
         weekly_reflections.task_4 := weekly_reflections.task_4 excluded;
         weekly_reflections.task_5 := weekly_reflections.task_5 excluded |} in
    with_arguments
      (in_range (week_number_type d) (WeeklyReflection.week_number reflection))
      (weekly_texts reflection) d
      (set_weekly_reflections d
         (insert_on_conflict_update
            (fun r => (weekly_reflections.user_id r =? user_id)
                      && (weekly_reflections.week_number r
                          =? WeeklyReflection.week_number reflection))
            do_update excluded (weekly_reflections d)),
       Return tt).

Definition save_weekly_reflection (reflection : WeeklyReflection.t)
    (current_user : CurrentUser.t) : M string :=
  execute (upsert_weekly_reflection (CurrentUser.id current_user) reflection) ;;;
  ret "Weekly reflection saved successfully".

(** [SELECT * FROM weekly_reflections WHERE user_id = $1 AND week_number = $2];
    [$2] has the type of the column. *)
Definition select_weekly_reflection (user_id week_number : Z)
  : statement (option weekly_reflections.row) :=
  fun _ d =>
    with_arguments (in_range (week_number_type d) week_number) [] d
      (d, Return (find (fun r => (weekly_reflections.user_id r =? user_id)
                                 && (weekly_reflections.week_number r =? week_number))
                    (weekly_reflections d))).

Definition get_weekly_reflection (week_number : Z) (current_user : CurrentUser.t)
  : M (option weekly_reflections.row) :=
  reflection <- fetchrow (select_weekly_reflection (CurrentUser.id current_user)
                            week_number) ;;
  match reflection with
  | None => ret None
  | Some r => ret (Some r)
  end.

Definition select_weekly_reflections (user_id : Z)
  : statement (list weekly_reflections.row) :=
  fun _ d =>
    (d, Return (order_by_desc weekly_reflections.week_number
                  (filter (fun r => weekly_reflections.user_id r =? user_id)
                     (weekly_reflections d)))).

Definition list_weekly_reflections (current_user : CurrentUser.t)
  : M (list weekly_reflections.row) :=
  reflections <- fetch (select_weekly_reflections (CurrentUser.id current_user)) ;;
  ret reflections.

(** ** Final reflection *)

Definition final_texts (reflection : FinalReflection.t) : list string :=
  [ FinalReflection.q1_starting_point reflection;
    FinalReflection.q2_feeling_and_goal reflection;
    FinalReflection.q3_journey_obstacles reflection;
    FinalReflection.q4_arrival_changes reflection;
    FinalReflection.q5_self_learning reflection;
    FinalReflection.q6_future_path reflection;
    FinalReflection.q7_journaling_impact reflection;
    FinalReflection.q8_celebration reflection ].

Definition upsert_final_reflection (user_id : Z) (reflection : FinalReflection.t)
  : statement unit :=
  fun _ d =>
    let excluded :=
      {| final_reflection.user_id := user_id;
         final_reflection.q1_starting_point := FinalReflection.q1_starting_point reflection;
         final_reflection.q2_feeling_and_goal := FinalReflection.q2_feeling_and_goal reflection;
         final_reflection.q3_journey_obstacles := FinalReflection.q3_journey_obstacles reflection;
         final_reflection.q4_arrival_changes := FinalReflection.q4_arrival_changes reflection;
         final_reflection.q5_self_learning := FinalReflection.q5_self_learning reflection;
         final_reflection.q6_future_path := FinalReflection.q6_future_path reflection;
         final_reflection.q7_journaling_impact := FinalReflection.q7_journaling_impact reflection;
         final_reflection.q8_celebration := FinalReflection.q8_celebration reflection |} in
    let do_update (old : final_reflection.row) :=
      {| final_reflection.user_id := final_reflection.user_id old;
         final_reflection.q1_starting_point := final_reflection.q1_starting_point excluded;
         final_reflection.q2_feeling_and_goal := final_reflection.q2_feeling_and_goal excluded;
         final_reflection.q3_journey_obstacles := final_reflection.q3_journey_obstacles excluded;
         final_reflection.q4_arrival_changes := final_reflection.q4_arrival_changes excluded;
         final_reflection.q5_self_learning := final_reflection.q5_self_learning excluded;
         final_reflection.q6_future_path := final_reflection.q6_future_path excluded;
         final_reflection.q7_journaling_impact := final_reflection.q7_journaling_impact excluded;
         final_reflection.q8_celebration := final_reflection.q8_celebration excluded |} in
    with_arguments true (final_texts reflection) d
      (set_final_reflection d
         (insert_on_conflict_update
            (fun r => final_reflection.user_id r =? user_id)
            do_update excluded (final_reflection d)),
       Return tt).

Definition save_final_reflection (reflection : FinalReflection.t)
    (current_user : CurrentUser.t) : M string :=
  execute (upsert_final_reflection (CurrentUser.id current_user) reflection) ;;;
  ret "Final reflection saved successfully".

Definition get_final_reflection (current_user : CurrentUser.t)
  : M (option final_reflection.row) :=
  reflection <- fetchrow (select_one final_reflection
                  (fun r => final_reflection.user_id r =? CurrentUser.id current_user)) ;;
  match reflection with
  | None => ret None
  | Some r => ret (Some r)
  end.

(** ** Emotion wheel settings *)

Definition get_emotion_wheel (current_user : CurrentUser.t) : M string :=
  settings <- fetchrow (select_one user_settings
                (fun r => user_settings.user_id r =? CurrentUser.id current_user)) ;;
  match settings with
  | None => raise (not_found "Settings not found")
  | Some r => ret (user_settings.emotion_wheel r)
  end.

(** A Python value handed over as the argument of a json parameter. *)
Inductive json_argument : Type :=
| Str (text : string)
| Dict (members : list (string * json)).

(** The codec of the driver for a json parameter takes the text of the
    document, a [str], and raises [DataError] for anything else. *)
Definition encode_json_argument (a : json_argument) : result string :=
  match a with
  | Str text => Return text
  | Dict _ => Raise DataError
  end.

(** [UPDATE user_settings SET emotion_wheel = $1, updated_at = NOW()
     WHERE user_id = $2]. *)
Definition update_user_settings (emotion_wheel : json_argument) (user_id : Z)
  : statement unit :=
  fun now d =>
    match encode_json_argument emotion_wheel with
    | Raise e => (d, Raise e)
    | Return text =>
        with_arguments true [text] d
          (set_user_settings d
             (update_where (fun r => user_settings.user_id r =? user_id)
                (fun r => {| user_settings.user_id := user_settings.user_id r;
                             user_settings.emotion_wheel := text;
                             user_settings.updated_at := now |})
                (user_settings d)),
           Return tt)
    end.

(** [emotion_wheel: dict] is the body of the request, and it is the [dict]
    itself that is passed on as [$1]. *)
Definition update_emotion_wheel (emotion_wheel : list (string * json))
    (current_user : CurrentUser.t) : M string :=
  execute (update_user_settings (Dict emotion_wheel) (CurrentUser.id current_user)) ;;;
  ret "Emotion wheel updated successfully".

(** ** Health check *)

Definition health_check : M string := ret "healthy".

(** ** The routes *)

Inductive request : Type :=
| POST_register (user : UserCreate.t)
| GET_user_status (credentials : HTTPBasicCredentials.t)
| POST_intro_reflection (credentials : HTTPBasicCredentials.t) (reflection : IntroReflection.t)
| GET_intro_reflection (credentials : HTTPBasicCredentials.t)
| POST_entries (credentials : HTTPBasicCredentials.t) (entry : DailyEntry.t)
| GET_entry (credentials : HTTPBasicCredentials.t) (entry_date : date)
| GET_entries (credentials : HTTPBasicCredentials.t) (limit : option Z)
| POST_weekly_reflection (credentials : HTTPBasicCredentials.t) (reflection : WeeklyReflection.t)
| GET_weekly_reflection (credentials : HTTPBasicCredentials.t) (week_number : Z)
| GET_weekly_reflections (credentials : HTTPBasicCredentials.t)
| POST_final_reflection (credentials : HTTPBasicCredentials.t) (reflection : FinalReflection.t)
| GET_final_reflection (credentials : HTTPBasicCredentials.t)
| GET_emotion_wheel (credentials : HTTPBasicCredentials.t)
| PUT_emotion_wheel (credentials : HTTPBasicCredentials.t)
    (emotion_wheel : list (string * json))
| GET_health.

(** What a handler returns, before FastAPI serialises it. *)
Inductive response : Type :=
| UserCreated (message : string) (user_id : Z)
| Message (message : string)
| Status (s : UserStatus.t)
| IntroRecord (r : intro_reflection.row)
| DailyRecord (r : option daily_entries.row)
| EntryList (l : list EntrySummary.t)
| WeeklyRecord (r : option weekly_reflections.row)
| WeeklyList (l : list weekly_reflections.row)
| FinalRecord (r : option final_reflection.row)
| Document (text : string)
| Health (status : string).

Definition fmap {A B : Type} (f : A -> B) (m : M A) : M B :=
  a <- m ;; ret (f a).

(** The handler behind a protected route, as a function of the identity
    that the dependency injects. *)
Definition endpoint (r : request) : option (HTTPBasicCredentials.t * (CurrentUser.t -> M response)) :=
  match r with
  | POST_register _ | GET_health => None
  | GET_user_status c => Some (c, fun u => fmap Status (get_user_status u))
  | POST_intro_reflection c b => Some (c, fun u => fmap Message (save_intro_reflection b u))
  | GET_intro_reflection c => Some (c, fun u => fmap IntroRecord (get_intro_reflection u))
  | POST_entries c b => Some (c, fun u => fmap Message (save_daily_entry b u))
  | GET_entry c dt => Some (c, fun u => fmap DailyRecord (get_daily_entry dt u))
  | GET_entries c limit =>
      Some (c, fun u => fmap EntryList
                          (list_entries (match limit with
                                         | Some n => n
                                         | None => default_limit
                                         end) u))
  | POST_weekly_reflection c b => Some (c, fun u => fmap Message (save_weekly_reflection b u))
  | GET_weekly_reflection c n => Some (c, fun u => fmap WeeklyRecord (get_weekly_reflection n u))
  | GET_weekly_reflections c => Some (c, fun u => fmap WeeklyList (list_weekly_reflections u))
  | POST_final_reflection c b => Some (c, fun u => fmap Message (save_final_reflection b u))
  | GET_final_reflection c => Some (c, fun u => fmap FinalRecord (get_final_reflection u))
  | GET_emotion_wheel c => Some (c, fun u => fmap Document (get_emotion_wheel u))
  | PUT_emotion_wheel c b => Some (c, fun u => fmap Message (update_emotion_wheel b u))
  end.

Definition app (r : request) : M response :=
  match r with
  | POST_register user =>
      fmap (fun p => UserCreated (fst p) (snd p)) (register user)
  | GET_user_status c =>
      Depends get_current_user (fun u => fmap Status (get_user_status u)) c
  | POST_intro_reflection c b =>
      Depends get_current_user (fun u => fmap Message (save_intro_reflection b u)) c
  | GET_intro_reflection c =>
      Depends get_current_user (fun u => fmap IntroRecord (get_intro_reflection u)) c
  | POST_entries c b =>
      Depends get_current_user (fun u => fmap Message (save_daily_entry b u)) c
  | GET_entry c dt =>
      Depends get_current_user (fun u => fmap DailyRecord (get_daily_entry dt u)) c
  | GET_entries c limit =>
      Depends get_current_user
        (fun u => fmap EntryList
                    (list_entries (match limit with
                                   | Some n => n
                                   | None => default_limit
                                   end) u)) c
  | POST_weekly_reflection c b =>
      Depends get_current_user (fun u => fmap Message (save_weekly_reflection b u)) c
  | GET_weekly_reflection c n =>
      Depends get_current_user (fun u => fmap WeeklyRecord (get_weekly_reflection n u)) c
  | GET_weekly_reflections c =>
      Depends get_current_user (fun u => fmap WeeklyList (list_weekly_reflections u)) c
  | POST_final_reflection c b =>
      Depends get_current_user (fun u => fmap Message (save_final_reflection b u)) c
  | GET_final_reflection c =>
      Depends get_current_user (fun u => fmap FinalRecord (get_final_reflection u)) c
  | GET_emotion_wheel c =>
      Depends get_current_user (fun u => fmap Document (get_emotion_wheel u)) c
  | PUT_emotion_wheel c b =>
      Depends get_current_user (fun u => fmap Message (update_emotion_wheel b u)) c
  | GET_health => fmap Health health_check
  end.

(** ** Consistency of the database

    The unique keys that the statements rely on, as a check that computes:
    user names and user ids, the owner of a settings row, of an intro and of
    a final reflection, the pair (owner, date) of a daily entry and the pair
    (owner, week) of a weekly reflection; that no id is ahead of the
    sequence that generates the ids; and that no user name holds U+0000. *)

Fixpoint distinct {K : Type} (eqb : K -> K -> bool) (ks : list K) : bool :=
  match ks with
  | [] => true
  | k :: rest => negb (existsb (eqb k) rest) && distinct eqb rest
  end.

Definition pair_eqb (a b : Z * Z) : bool := (fst a =? fst b) && (snd a =? snd b).

Definition daily_key (r : daily_entries.row) : Z * Z :=
  (daily_entries.user_id r, daily_entries.entry_date r).

Definition weekly_key (r : weekly_reflections.row) : Z * Z :=
  (weekly_reflections.user_id r, weekly_reflections.week_number r).

Definition consistent (d : database) : bool :=
  distinct String.eqb (map users.username (users d))
  && distinct Z.eqb (map users.id (users d))
  && forallb (fun i => i <=? users_id_seq d) (map users.id (users d))
  && distinct Z.eqb (map user_settings.user_id (user_settings d))
  && forallb (fun i => i <=? users_id_seq d)
       (map user_settings.user_id (user_settings d))
  && distinct Z.eqb (map intro_reflection.user_id (intro_reflection d))
  && distinct pair_eqb (map daily_key (daily_entries d))
  && distinct pair_eqb (map weekly_key (weekly_reflections d))
  && distinct Z.eqb (map final_reflection.user_id (final_reflection d))
  && forallb (fun name => negb (has_nul name)) (map users.username (users d)).

(** The states the service can be in: from the empty database, through any
    requests, at any times, with any faults. *)
Inductive reachable : database -> Prop :=
| reachable_empty (wheel : string) (energy_level week_number : integer_type) :
    reachable (empty_database wheel energy_level week_number)
| reachable_step (d : database) (r : request) (now : timestamp) (fs : list bool) :
    reachable d ->
    reachable (db (fst (app r {| db := d; clock := now; faults := fs |}))).

(** A handler run from a database in [P] ends, with or without an
    exception, on a result and a database in [Q]. *)
Definition triple {A : Type} (P : database -> Prop) (m : M A)
    (Q : result A -> database -> Prop) : Prop :=
  forall w, P (db w) -> Q (snd (m w)) (db (fst (m w))).

(** What [register] knows between its two statements: the id it was handed
    is the last one drawn, and no settings row carries it yet. *)
Definition user_inserted (r : result Z) (d : database) : Prop :=
  consistent d = true /\
  forall user_id, r = Return user_id ->
    user_id = users_id_seq d /\
    existsb (fun s => user_settings.user_id s =? user_id) (user_settings d) = false.

Definition is_consistent {A : Type} (_ : result A) (d : database) : Prop :=
  consistent d = true.

(** Requests whose arguments the driver and the server accept. *)
Definition no_nul (texts : list string) : bool := negb (existsb has_nul texts).

Definition storable_daily_entry (d : database) (entry : DailyEntry.t) : bool :=
  energy_level_in_range d entry && no_nul (daily_texts entry).

Definition storable_weekly_reflection (d : database) (reflection : WeeklyReflection.t)
  : bool :=
  in_range (week_number_type d) (WeeklyReflection.week_number reflection)
  && no_nul (weekly_texts reflection).


Definition username_taken (d : database) (username : string) : bool :=
  existsb (fun u => String.eqb (users.username u) username) (users d).

(** An HTTP 404 raised by a handler. *)
Definition signals_not_found {A : Type} (r : result A) : Prop :=
  exists detail headers, r = Raise (HTTPException 404 detail headers).

(** The keys of the upserts, as the conflict targets select them. *)
Definition is_daily_entry (user_id : Z) (entry_date : date) (r : daily_entries.row) : bool :=
  (daily_entries.user_id r =? user_id) && (daily_entries.entry_date r =? entry_date).

Definition is_weekly_reflection (user_id week_number : Z) (r : weekly_reflections.row) : bool :=
  (weekly_reflections.user_id r =? user_id)
  && (weekly_reflections.week_number r =? week_number).

(** The request that a stored daily entry answers to: its date and its
    thirteen content fields. *)
Definition entry_of_row (r : daily_entries.row) : DailyEntry.t :=
  {| DailyEntry.entry_date := daily_entries.entry_date r;
     DailyEntry.energy_level := daily_entries.energy_level r;
     DailyEntry.selected_emotions := daily_entries.selected_emotions r;
     DailyEntry.how_want_to_feel := daily_entries.how_want_to_feel r;
     DailyEntry.daily_mantra := daily_entries.daily_mantra r;
     DailyEntry.grateful_1 := daily_entries.grateful_1 r;
     DailyEntry.grateful_2 := daily_entries.grateful_2 r;
     DailyEntry.grateful_3 := daily_entries.grateful_3 r;
     DailyEntry.goal_1 := daily_entries.goal_1 r;
     DailyEntry.goal_2 := daily_entries.goal_2 r;
     DailyEntry.goal_3 := daily_entries.goal_3 r;
     DailyEntry.selfcare_actions := daily_entries.selfcare_actions r;
     DailyEntry.free_journal := daily_entries.free_journal r;
     DailyEntry.favorite_moment := daily_entries.favorite_moment r |}.

(** A stored daily entry with [updated_at] refreshed and nothing else
    changed. *)
Definition touch (now : timestamp) (r : daily_entries.row) : daily_entries.row :=
  {| daily_entries.user_id := daily_entries.user_id r;
     daily_entries.entry_date := daily_entries.entry_date r;
     daily_entries.energy_level := daily_entries.energy_level r;
     daily_entries.selected_emotions := daily_entries.selected_emotions r;
     daily_entries.how_want_to_feel := daily_entries.how_want_to_feel r;
     daily_entries.daily_mantra := daily_entries.daily_mantra r;
     daily_entries.grateful_1 := daily_entries.grateful_1 r;
     daily_entries.grateful_2 := daily_entries.grateful_2 r;
     daily_entries.grateful_3 := daily_entries.grateful_3 r;
     daily_entries.goal_1 := daily_entries.goal_1 r;
     daily_entries.goal_2 := daily_entries.goal_2 r;
     daily_entries.goal_3 := daily_entries.goal_3 r;
     daily_entries.selfcare_actions := daily_entries.selfcare_actions r;
     daily_entries.free_journal := daily_entries.free_journal r;
     daily_entries.favorite_moment := daily_entries.favorite_moment r;
     daily_entries.created_at := daily_entries.created_at r;
     daily_entries.updated_at := now |}.

(** Saving daily entries one after the other, each at its own time. *)
Fixpoint save_daily_entries (u : CurrentUser.t) (saves : list (timestamp * DailyEntry.t))
    (w : world) : world * list (result string) :=
  match saves with
  | [] => (w, [])
  | (now, entry) :: rest =>
      let run := save_daily_entry entry u
                   {| db := db w; clock := now; faults := faults w |} in
      let (w', rs) := save_daily_entries u rest (fst run) in
      (w', snd run :: rs)
  end.

(** The [intro_completed] flag of the user with the given id, if there is
    one. *)
Definition intro_completed_of (d : database) (user_id : Z) : option bool :=
  option_map users.intro_completed
    (find (fun r => users.id r =? user_id) (users d)).

(** Requests served one after the other, each at its own time. *)
Fixpoint serve (requests : list (timestamp * request)) (w : world)
  : world * list (result response) :=
  match requests with
  | [] => (w, [])
  | (now, r) :: rest =>
      let run := app r {| db := db w; clock := now; faults := faults w |} in
      let (w', rs) := serve rest (fst run) in
      (w', snd run :: rs)
  end.

(** [a] comes before [b] under [ORDER BY key DESC] with distinct keys. *)
Definition newer_by {R : Type} (key : R -> Z) (a b : R) : Prop := key b < key a.

(** The rows that belong to a user: the user row, the settings, the intro
    and final reflections, the daily entries and the weekly reflections. *)
Definition rows_of (user_id : Z) (d : database) :=
  (filter (fun r => users.id r =? user_id) (users d),
   filter (fun r => user_settings.user_id r =? user_id) (user_settings d),
   filter (fun r => intro_reflection.user_id r =? user_id) (intro_reflection d),
   filter (fun r => daily_entries.user_id r =? user_id) (daily_entries d),
   filter (fun r => weekly_reflections.user_id r =? user_id) (weekly_reflections d),
   filter (fun r => final_reflection.user_id r =? user_id) (final_reflection d)).

(** The routes registered with [@app.get]. *)
Definition is_get (r : request) : bool :=
  match r with
  | GET_user_status _ | GET_intro_reflection _ | GET_entry _ _ | GET_entries _ _
  | GET_weekly_reflection _ _ | GET_weekly_reflections _ | GET_final_reflection _
  | GET_emotion_wheel _ | GET_health => true
  | _ => false
  end.

(** A character of a lower-case hexadecimal numeral. *)
Definition is_lower_hex (c : ascii) : bool :=
  let n := Z.of_N (N_of_ascii c) in
  ((48 <=? n) && (n <=? 57)) || ((97 <=? n) && (n <=? 102)).

(** [after] is [before] with rows added at the end. *)
Definition grows {K : Type} (before after : list K) : Prop :=
  exists added, after = before ++ added.

(** The columns of a row that no statement of [app.py] writes once the row
    is there. *)
Definition user_columns (r : users.row) :=
  (users.id r, users.username r, users.password_hash r, users.created_at r).

Definition daily_columns (r : daily_entries.row) :=
  (daily_entries.user_id r, daily_entries.entry_date r, daily_entries.created_at r).

Definition weekly_columns (r : weekly_reflections.row) :=
  (weekly_reflections.user_id r, weekly_reflections.week_number r,
   weekly_reflections.week_start_date r, weekly_reflections.week_end_date r).

(** From [d] to [d'] rows were only added, and the rows of [d] kept their
    place and the columns above. *)
Definition only_appended (d d' : database) : Prop :=
  grows (map user_columns (users d)) (map user_columns (users d'))
  /\ grows (map user_settings.user_id (user_settings d))
        (map user_settings.user_id (user_settings d'))
  /\ grows (map intro_reflection.user_id (intro_reflection d))
        (map intro_reflection.user_id (intro_reflection d'))
  /\ grows (map daily_columns (daily_entries d)) (map daily_columns (daily_entries d'))
  /\ grows (map weekly_columns (weekly_reflections d))
        (map weekly_columns (weekly_reflections d'))
  /\ grows (map final_reflection.user_id (final_reflection d))
        (map final_reflection.user_id (final_reflection d')).

(** ** Sample data *)

Definition alice : CurrentUser.t :=
  {| CurrentUser.id := 1; CurrentUser.username := "alice";
     CurrentUser.intro_completed := false |}.

Definition week (n : Z) (first last : date) (mood : option string) : WeeklyReflection.t :=
  {| WeeklyReflection.week_number := n;
     WeeklyReflection.week_start_date := first;
     WeeklyReflection.week_end_date := last;
     WeeklyReflection.current_mood := mood;
     WeeklyReflection.important_results := None;
     WeeklyReflection.important_realizations := None;
     WeeklyReflection.proud_1 := None; WeeklyReflection.proud_2 := None;
     WeeklyReflection.proud_3 := None; WeeklyReflection.proud_4 := None;
     WeeklyReflection.proud_5 := None;
     WeeklyReflection.change_phase := None;
     WeeklyReflection.change_reflection := None;
     WeeklyReflection.next_week_focus := None;
     WeeklyReflection.task_1 := None; WeeklyReflection.task_2 := None;
     WeeklyReflection.task_3 := None; WeeklyReflection.task_4 := None;
     WeeklyReflection.task_5 := None |}.

Definition fresh_world (now : timestamp) : world :=
  {| db := empty_database "{}" smallint integer; clock := now; faults := [] |}.

(** The world after a handler, at a later time. *)
Definition later {A : Type} (now : timestamp) (run : world * result A) : world :=
  {| db := db (fst run); clock := now; faults := faults (fst run) |}.

Definition day (entry_date : date) (energy_level : option Z) : DailyEntry.t :=
  {| DailyEntry.entry_date := entry_date;
     DailyEntry.energy_level := energy_level;
     DailyEntry.selected_emotions := [];
     DailyEntry.how_want_to_feel := None;
     DailyEntry.daily_mantra := None;
     DailyEntry.grateful_1 := None; DailyEntry.grateful_2 := None;
     DailyEntry.grateful_3 := None;
     DailyEntry.goal_1 := None; DailyEntry.goal_2 := None;
     DailyEntry.goal_3 := None;
     DailyEntry.selfcare_actions := None;
     DailyEntry.free_journal := None;
     DailyEntry.favorite_moment := None |}.

Definition feeling (entry_date : date) (selected_emotions : list string)
  : DailyEntry.t :=
  {| DailyEntry.entry_date := entry_date;
     DailyEntry.energy_level := Some 5;
     DailyEntry.selected_emotions := selected_emotions;
     DailyEntry.how_want_to_feel := Some "rested";
     DailyEntry.daily_mantra := None;
     DailyEntry.grateful_1 := None; DailyEntry.grateful_2 := None;
     DailyEntry.grateful_3 := None;
     DailyEntry.goal_1 := None; DailyEntry.goal_2 := None;
     DailyEntry.goal_3 := None;
     DailyEntry.selfcare_actions := None;
     DailyEntry.free_journal := None;
     DailyEntry.favorite_moment := None |}.

Definition intro (answer : string) : IntroReflection.t :=
  {| IntroReflection.q1_important_events := answer;
     IntroReflection.q2_current_thoughts := answer;
     IntroReflection.q3_physical_symptoms := answer;
     IntroReflection.q4_current_feelings := answer;
     IntroReflection.q5_brought_closer := answer;
     IntroReflection.q6_brought_further := answer;
     IntroReflection.q7_change_in_10_weeks := answer |}.

Definition credentials (username password : string) : HTTPBasicCredentials.t :=
  {| HTTPBasicCredentials.username := username;
     HTTPBasicCredentials.password := password |}.

Definition account (username password : string) : UserCreate.t :=
  {| UserCreate.username := username; UserCreate.password := password |}.

Definition final (answer : string) : FinalReflection.t :=
  {| FinalReflection.q1_starting_point := answer;
     FinalReflection.q2_feeling_and_goal := answer;
     FinalReflection.q3_journey_obstacles := answer;
     FinalReflection.q4_arrival_changes := answer;
     FinalReflection.q5_self_learning := answer;
     FinalReflection.q6_future_path := answer;
     FinalReflection.q7_journaling_impact := answer;
     FinalReflection.q8_celebration := answer |}.

(** A world at a later time. *)
Definition at_time (now : timestamp) (w : world) : world :=
  {| db := db w; clock := now; faults := faults w |}.

(** The database after the registration of alice, at a later time. *)
Definition alice_registered (now : timestamp) : world :=
  at_time now
    (fst (serve [(1000, POST_register (account "alice" "hunter2"))]
            (fresh_world 1000))).

(** * Properties *)

(** ** The digest, against the vectors of [hashlib] *)

Example hash_password_empty :
  hash_password "" = "e3b0c44298fc1c149afbf4c8996fb92427ae41e4649b934ca495991b7852b855".
Proof. vm_compute. reflexivity. Qed.

Example hash_password_abc :
  hash_password "abc" = "ba7816bf8f01cfea414140de5dae2223b00361a396177a9cb410ff61f20015ad".
Proof. vm_compute. reflexivity. Qed.

Example hash_password_two_blocks :
  hash_password "aaaaaaaaaaaaaaaaaaaaaaaaaaaaaaaaaaaaaaaaaaaaaaaaaaaaaaaa"
  = "b35439a4ac6f0948b6d6f9e3c6af0f5f590ce20f1bde7090ef7970686ec6738a".
Proof. vm_compute. reflexivity. Qed.

(** ** The shape of the digest *)

Lemma be_bytes_length (n : nat) (x : Z) : List.length (SHA256.be_bytes n x) = n.
Proof. induction n as [|n IH]; simpl; [reflexivity | rewrite IH; reflexivity]. Qed.

Lemma be_bytes_range (n : nat) (x : Z) :
  Forall (fun b => 0 <= b < 256) (SHA256.be_bytes n x).
Proof.
  induction n as [|n IH]; simpl; constructor; [|exact IH].
  apply Z.mod_pos_bound. lia.
Qed.

Lemma compress_length (h block : list Z) :
  List.length h = 8%nat -> List.length (SHA256.compress h block) = 8%nat.
Proof.
  intros H. unfold SHA256.compress.
  rewrite length_map, length_combine, H. reflexivity.
Qed.

Lemma hash_state_length (bs : list (list Z)) (h : list Z) :
  List.length h = 8%nat -> List.length (fold_left SHA256.compress bs h) = 8%nat.
Proof.
  revert h. induction bs as [|b bs IH]; simpl; intros h H; [exact H|].
  apply IH, compress_length, H.
Qed.

Lemma words_bytes_length (hs : list Z) :
  List.length (List.concat (map (SHA256.be_bytes 4) hs)) = (4 * List.length hs)%nat.
Proof.
  induction hs as [|x hs IH]; [reflexivity|].
  cbn [map List.concat]. rewrite length_app, IH, be_bytes_length.
  cbn [List.length]. lia.
Qed.

Lemma words_bytes_range (hs : list Z) :
  Forall (fun b => 0 <= b < 256) (List.concat (map (SHA256.be_bytes 4) hs)).
Proof.
  induction hs as [|x hs IH]; [constructor|].
  cbn [map List.concat]. apply Forall_app. split; [apply be_bytes_range | exact IH].
Qed.

Lemma hex_digit_lower (n : Z) :
  0 <= n < 16 -> is_lower_hex (SHA256.hex_digit n) = true.
Proof.
  intros H.
  assert (Hall : forallb (fun k => is_lower_hex (SHA256.hex_digit (Z.of_nat k)))
                   (seq 0 16) = true) by reflexivity.
  rewrite forallb_forall in Hall. specialize (Hall (Z.to_nat n)).
  rewrite Z2Nat.id in Hall by lia. apply Hall. apply in_seq. lia.
Qed.

Lemma hex_shape (bs : list Z) :
  Forall (fun b => 0 <= b < 256) bs ->
  String.length (SHA256.hex bs) = (2 * List.length bs)%nat
  /\ forallb is_lower_hex (list_ascii_of_string (SHA256.hex bs)) = true.
Proof.
  induction 1 as [|b bs Hb _ [IHlen IHhex]]; [split; reflexivity|].
  cbn [SHA256.hex String.length list_ascii_of_string forallb List.length].
  rewrite IHlen, IHhex. split; [lia|].
  rewrite !hex_digit_lower; [reflexivity | |].
  - apply Z.mod_pos_bound. lia.
  - split; [apply Z.div_pos; lia | apply Z.div_lt_upper_bound; lia].
Qed.

Lemma lower_hex_no_nul (s : string) :
  forallb is_lower_hex (list_ascii_of_string s) = true -> has_nul s = false.
Proof.
  induction s as [|c s IH]; simpl; intros H; [reflexivity|].
  apply andb_true_iff in H as [Hc H]. rewrite (IH H), orb_false_r.
  unfold is_lower_hex in Hc. apply N.eqb_neq. intros E. rewrite E in Hc.
  discriminate.
Qed.

Lemma hash_password_no_nul (password : string) : has_nul (hash_password password) = false.
Proof.
  apply lower_hex_no_nul.
  unfold hash_password, SHA256.hexdigest, SHA256.digest.
  apply hex_shape, words_bytes_range.
Qed.

(** ** Arguments that are accepted *)

Lemma with_arguments_accepted {A : Type} (texts : list string) (d : database)
    (run : database * result A) (integers_in_range : bool) :
  integers_in_range = true ->
  existsb has_nul texts = false ->
  with_arguments integers_in_range texts d run = run.
Proof. intros -> H. unfold with_arguments. rewrite H. reflexivity. Qed.

Lemma with_arguments_keeps {A : Type} (P : database -> Prop) (texts : list string)
    (d : database) (run : database * result A) (integers_in_range : bool) :
  P d -> P (fst run) -> P (fst (with_arguments integers_in_range texts d run)).
Proof.
  intros Hd Hrun. unfold with_arguments.
  destruct integers_in_range; simpl; [|exact Hd].
  destruct (existsb has_nul texts); [exact Hd | exact Hrun].
Qed.

Lemma no_nul_spec (texts : list string) :
  no_nul texts = true <-> existsb has_nul texts = false.
Proof. unfold no_nul. apply negb_true_iff. Qed.

Lemma no_nul_pair (a b : string) :
  has_nul a = false -> has_nul b = false -> existsb has_nul [a; b] = false.
Proof. intros Ha Hb. simpl. rewrite Ha, Hb. reflexivity. Qed.

(** ** Keys and upserts on a table *)

Lemma pair_eqb_eq (a b : Z * Z) : pair_eqb a b = true <-> a = b.
Proof.
  destruct a as [a1 a2], b as [b1 b2]; unfold pair_eqb; simpl.
  rewrite andb_true_iff, !Z.eqb_eq. split.
  - intros [-> ->]; reflexivity.
  - intros H; inversion H; auto.
Qed.

Lemma pair_key_refl (a b : Z) : (a =? a) && (b =? b) = true.
Proof. rewrite !Z.eqb_refl. reflexivity. Qed.

Section Keys.

Context {R K : Type}.
Variable key : R -> K.
Variable eqb : K -> K -> bool.
Hypothesis eqb_eq : forall a b, eqb a b = true <-> a = b.

Lemma eqb_refl_key (k : K) : eqb k k = true.
Proof. apply eqb_eq; reflexivity. Qed.

Lemma eqb_sym_key (a b : K) : eqb a b = eqb b a.
Proof.
  destruct (eqb a b) eqn:E1, (eqb b a) eqn:E2; auto.
  - apply eqb_eq in E1; subst. rewrite eqb_refl_key in E2; discriminate.
  - apply eqb_eq in E2; subst. rewrite eqb_refl_key in E1; discriminate.
Qed.

Lemma existsb_key_map (k : K) (t : list R) :
  existsb (eqb k) (map key t) = existsb (fun r => eqb (key r) k) t.
Proof.
  induction t as [|r t IH]; simpl; [reflexivity|].
  rewrite IH, (eqb_sym_key k). reflexivity.
Qed.

Lemma distinct_snoc (ks : list K) (k : K) :
  distinct eqb ks = true ->
  existsb (eqb k) ks = false ->
  distinct eqb (ks ++ [k]) = true.
Proof.
  induction ks as [|x ks IH]; simpl; intros Hd Hk; [reflexivity|].
  apply andb_true_iff in Hd as [Hx Hd].
  apply orb_false_iff in Hk as [Hkx Hk].
  rewrite existsb_app; simpl.
  rewrite (eqb_sym_key x k), Hkx. simpl.
  rewrite orb_false_r, Hx. simpl. auto.
Qed.

(** Under distinct keys a key selects at most one row. *)
Lemma distinct_at_most_one (t : list R) (k : K) :
  distinct eqb (map key t) = true ->
  (List.length (filter (fun r => eqb (key r) k) t) <= 1)%nat.
Proof.
  induction t as [|r t IH]; simpl; intros Hd; [lia|].
  apply andb_true_iff in Hd as [Hr Hd].
  destruct (eqb (key r) k) eqn:E; [|auto].
  apply eqb_eq in E; subst k.
  rewrite existsb_key_map in Hr.
  apply negb_true_iff in Hr.
  assert (Hnil : filter (fun r0 => eqb (key r0) (key r)) t = []).
  { clear -Hr. induction t as [|x t IH]; simpl in *; [reflexivity|].
    apply orb_false_iff in Hr as [-> Hr]. auto. }
  rewrite Hnil. simpl. lia.
Qed.

Variable conflicts : R -> bool.
Variable do_update : R -> R.
Variable excluded : R.

Lemma upsert_length (t : list R) :
  List.length (insert_on_conflict_update conflicts do_update excluded t)
  = if existsb conflicts t then List.length t else S (List.length t).
Proof.
  induction t as [|r t IH]; simpl; [reflexivity|].
  destruct (conflicts r); simpl; [reflexivity|].
  rewrite IH. destruct (existsb conflicts t); reflexivity.
Qed.

Lemma upsert_keys (t : list R) :
  (forall r, key (do_update r) = key r) ->
  map key (insert_on_conflict_update conflicts do_update excluded t)
  = if existsb conflicts t then map key t else map key t ++ [key excluded].
Proof.
  intros Hk. induction t as [|r t IH]; simpl; [reflexivity|].
  destruct (conflicts r); simpl; [rewrite Hk; reflexivity|].
  rewrite IH. destruct (existsb conflicts t); reflexivity.
Qed.

Lemma upsert_find (t : list R) :
  (forall r, conflicts r = true -> conflicts (do_update r) = true) ->
  conflicts excluded = true ->
  find conflicts (insert_on_conflict_update conflicts do_update excluded t)
  = Some (match find conflicts t with
          | Some r => do_update r
          | None => excluded
          end).
Proof.
  intros Hu He. induction t as [|r t IH]; simpl.
  - rewrite He. reflexivity.
  - destruct (conflicts r) eqn:E; simpl.
    + rewrite (Hu r E). reflexivity.
    + rewrite E. exact IH.
Qed.

(** The rows outside the conflict are left as they are. *)
Lemma upsert_filter_other (p : R -> bool) (t : list R) :
  (forall r, conflicts r = true -> p r = false /\ p (do_update r) = false) ->
  p excluded = false ->
  filter p (insert_on_conflict_update conflicts do_update excluded t) = filter p t.
Proof.
  intros Hu He. induction t as [|r t IH]; simpl.
  - rewrite He. reflexivity.
  - destruct (conflicts r) eqn:E; simpl.
    + destruct (Hu r E) as [-> ->]. reflexivity.
    + rewrite IH. reflexivity.
Qed.

Lemma filter_nil_find (t : list R) :
  (List.length (filter conflicts t) <= 1)%nat ->
  filter conflicts t = match find conflicts t with
                       | Some r => [r]
                       | None => []
                       end.
Proof.
  induction t as [|r t IH]; simpl; [reflexivity|].
  destruct (conflicts r) eqn:E; simpl; intros Hle; [|auto].
  destruct (filter conflicts t); [reflexivity | simpl in Hle; lia].
Qed.

(** With at most one row in conflict, exactly one row carries the key
    afterwards: the updated one, or the one inserted. *)
Lemma upsert_filter_conflict (t : list R) :
  (forall r, conflicts r = true -> conflicts (do_update r) = true) ->
  conflicts excluded = true ->
  (List.length (filter conflicts t) <= 1)%nat ->
  filter conflicts (insert_on_conflict_update conflicts do_update excluded t)
  = [match find conflicts t with
     | Some r => do_update r
     | None => excluded
     end].
Proof.
  intros Hu He. induction t as [|r t IH]; simpl; intros Hle.
  - rewrite He. reflexivity.
  - destruct (conflicts r) eqn:E; simpl in *.
    + rewrite (Hu r E). f_equal.
      destruct (filter conflicts t); [reflexivity | simpl in Hle; lia].
    + rewrite E. auto.
Qed.

(** On a table that holds the key once, the upsert is the update. *)
Lemma upsert_is_update (t : list R) :
  (forall r, conflicts r = true -> conflicts (do_update r) = true) ->
  existsb conflicts t = true ->
  (List.length (filter conflicts t) <= 1)%nat ->
  insert_on_conflict_update conflicts do_update excluded t
  = update_where conflicts do_update t.
Proof.
  intros Hu. unfold update_where.
  induction t as [|r t IH]; simpl; intros Hex Hle; [discriminate|].
  destruct (conflicts r) eqn:E; simpl in *.
  - f_equal.
    assert (Hnil : filter conflicts t = [])
      by (destruct (filter conflicts t); [reflexivity | simpl in Hle; lia]).
    clear -Hnil. induction t as [|x t IH]; simpl in *; [reflexivity|].
    destruct (conflicts x); [discriminate|]. f_equal; auto.
  - f_equal; auto.
Qed.

Lemma update_where_keys (p : R -> bool) (set : R -> R) (t : list R) :
  (forall r, key (set r) = key r) ->
  map key (update_where p set t) = map key t.
Proof.
  intros Hk. unfold update_where. rewrite map_map.
  apply map_ext. intros r. destruct (p r); auto.
Qed.

Lemma update_where_none (p : R -> bool) (set : R -> R) (t : list R) :
  find p t = None -> update_where p set t = t.
Proof.
  unfold update_where. induction t as [|r t IH]; simpl; [reflexivity|].
  destruct (p r); [discriminate|]. intros H; f_equal; auto.
Qed.

Lemma upsert_distinct (t : list R) :
  (forall r, key (do_update r) = key r) ->
  (forall r, conflicts r = eqb (key r) (key excluded)) ->
  distinct eqb (map key t) = true ->
  distinct eqb
    (map key (insert_on_conflict_update conflicts do_update excluded t)) = true.
Proof.
  intros Hk Hc Hd. rewrite (upsert_keys t Hk).
  destruct (existsb conflicts t) eqn:E; [exact Hd|].
  apply distinct_snoc; [exact Hd|].
  rewrite existsb_key_map. rewrite <- E.
  clear -Hc.
  induction t as [|r t IH]; simpl; [reflexivity|].
  rewrite IH, Hc. reflexivity.
Qed.

Lemma update_where_ext (p : R -> bool) (f g : R -> R) (t : list R) :
  (forall r, In r t -> p r = true -> f r = g r) ->
  update_where p f t = update_where p g t.
Proof.
  intros H. unfold update_where. apply map_ext_in.
  intros r Hr. destruct (p r) eqn:E; auto.
Qed.

Lemma filter_update_where (p : R -> bool) (f : R -> R) (t : list R) :
  (forall r, p (f r) = p r) ->
  filter p (update_where p f t) = map f (filter p t).
Proof.
  intros H. unfold update_where.
  induction t as [|r t IH]; simpl; [reflexivity|].
  destruct (p r) eqn:E.
  - rewrite H, E. simpl. f_equal. exact IH.
  - rewrite E. exact IH.
Qed.

(** Without a row in conflict the proposed row goes to the end. *)
Lemma upsert_absent (t : list R) :
  existsb conflicts t = false ->
  insert_on_conflict_update conflicts do_update excluded t = t ++ [excluded].
Proof.
  induction t as [|r t IH]; simpl; [reflexivity|].
  destruct (conflicts r); simpl; [discriminate|].
  intros H. rewrite IH by exact H. reflexivity.
Qed.

Lemma upsert_filter_rest (t : list R) :
  (forall r, conflicts r = true -> conflicts (do_update r) = true) ->
  conflicts excluded = true ->
  filter (fun r => negb (conflicts r))
    (insert_on_conflict_update conflicts do_update excluded t)
  = filter (fun r => negb (conflicts r)) t.
Proof.
  intros Hu He. apply upsert_filter_other.
  - intros r Hr. rewrite Hr, (Hu r Hr). auto.
  - rewrite He. reflexivity.
Qed.

End Keys.

(** ** Every handler keeps the database consistent *)

Section Triples.

Context {A : Type}.

Lemma triple_ret (P : database -> Prop) (a : A) (Q : result A -> database -> Prop) :
  (forall d, P d -> Q (Return a) d) -> triple P (ret a) Q.
Proof. intros H w Hw. simpl. auto. Qed.

Lemma triple_raise (P : database -> Prop) (e : exn) (Q : result A -> database -> Prop) :
  (forall d, P d -> Q (Raise e) d) -> triple P (raise e) Q.
Proof. intros H w Hw. simpl. auto. Qed.

Lemma triple_bind {B : Type} (P : database -> Prop) (m : M B) (k : B -> M A)
    (I : result B -> database -> Prop) (Q : result A -> database -> Prop) :
  triple P m I ->
  (forall b, triple (I (Return b)) (k b) Q) ->
  (forall e d, I (Raise e) d -> Q (Raise e) d) ->
  triple P (bind m k) Q.
Proof.
  intros Hm Hk He w Hw. specialize (Hm w Hw). unfold bind.
  destruct (m w) as [w1 [b|e]]; simpl in *.
  - apply Hk. exact Hm.
  - apply He. exact Hm.
Qed.

Lemma triple_try_except (P : database -> Prop) (m : M A)
    (handler : exn -> option (M A))
    (I Q : result A -> database -> Prop) :
  triple P m I ->
  (forall a d, I (Return a) d -> Q (Return a) d) ->
  (forall e, match handler e with
             | Some k => triple (I (Raise e)) k Q
             | None => forall d, I (Raise e) d -> Q (Raise e) d
             end) ->
  triple P (try_except m handler) Q.
Proof.
  intros Hm Hr Hh w Hw. specialize (Hm w Hw). unfold try_except.
  destruct (m w) as [w1 [a|e]]; simpl in *.
  - auto.
  - specialize (Hh e). destruct (handler e) as [k|]; [apply Hh|]; auto.
Qed.

Lemma triple_send (P : database -> Prop) (q : statement A)
    (Q : result A -> database -> Prop) :
  (forall now d, P d -> Q (snd (q now d)) (fst (q now d))) ->
  (forall d, P d -> Q (Raise ConnectionDoesNotExistError) d) ->
  triple P (send q) Q.
Proof.
  intros Hq Hf w Hw. unfold send.
  destruct (faults w) as [|[|] rest]; simpl; auto;
    specialize (Hq (clock w) (db w) Hw);
    destruct (q (clock w) (db w)); simpl in *; auto.
Qed.

End Triples.

Lemma consistent_spec (d : database) :
  consistent d = true <->
  distinct String.eqb (map users.username (users d)) = true
  /\ distinct Z.eqb (map users.id (users d)) = true
  /\ forallb (fun i => i <=? users_id_seq d) (map users.id (users d)) = true
  /\ distinct Z.eqb (map user_settings.user_id (user_settings d)) = true
  /\ forallb (fun i => i <=? users_id_seq d)
       (map user_settings.user_id (user_settings d)) = true
  /\ distinct Z.eqb (map intro_reflection.user_id (intro_reflection d)) = true
  /\ distinct pair_eqb (map daily_key (daily_entries d)) = true
  /\ distinct pair_eqb (map weekly_key (weekly_reflections d)) = true
  /\ distinct Z.eqb (map final_reflection.user_id (final_reflection d)) = true
  /\ forallb (fun name => negb (has_nul name)) (map users.username (users d)) = true.
Proof. unfold consistent. rewrite !andb_true_iff. tauto. Qed.

Ltac consistent_split H :=
  apply consistent_spec in H;
  destruct H as (Hun & Hid & Hseq & Hsu & Hsseq & Hin & Hda & Hwe & Hfi & Hnul);
  apply consistent_spec; simpl; repeat split; auto.

Lemma below_fresh (ids : list Z) (seq : Z) :
  forallb (fun i => i <=? seq) ids = true ->
  existsb (Z.eqb (seq + 1)) ids = false.
Proof.
  induction ids as [|i ids IH]; simpl; [reflexivity|].
  intros H. apply andb_true_iff in H as [Hi H].
  apply Z.leb_le in Hi. rewrite IH by exact H.
  replace (seq + 1 =? i) with false by (symmetry; apply Z.eqb_neq; lia).
  reflexivity.
Qed.

Lemma below_weaken (ids : list Z) (seq : Z) :
  forallb (fun i => i <=? seq) ids = true ->
  forallb (fun i => i <=? seq + 1) ids = true.
Proof.
  induction ids as [|i ids IH]; simpl; [reflexivity|].
  intros H. apply andb_true_iff in H as [Hi H].
  apply Z.leb_le in Hi. rewrite IH by exact H.
  replace (i <=? seq + 1) with true by (symmetry; apply Z.leb_le; lia).
  reflexivity.
Qed.

Lemma string_eqb_eq (a b : string) : String.eqb a b = true <-> a = b.
Proof. apply String.eqb_eq. Qed.

Lemma insert_user_consistent (username password_hash : string)
    (now : timestamp) (d : database) :
  consistent d = true ->
  consistent (fst (insert_user username password_hash now d)) = true.
Proof.
  intros H. unfold insert_user, with_arguments. cbn [negb existsb].
  destruct (has_nul username) eqn:Enul; [exact H|]. cbn [orb].
  destruct (has_nul password_hash || false); [exact H|].
  destruct (existsb _ (users d)) eqn:E; simpl.
  - consistent_split H; auto using below_weaken.
  - consistent_split H; rewrite ?map_app; simpl.
    + apply (distinct_snoc String.eqb string_eqb_eq); [exact Hun|].
      rewrite (existsb_key_map users.username String.eqb string_eqb_eq).
      exact E.
    + apply (distinct_snoc Z.eqb Z.eqb_eq); [exact Hid|].
      apply below_fresh; exact Hseq.
    + rewrite forallb_app; simpl. rewrite (below_weaken _ _ Hseq).
      rewrite Z.leb_refl. reflexivity.
    + apply below_weaken; exact Hsseq.
    + rewrite forallb_app; simpl. rewrite Hnul, Enul. reflexivity.
Qed.

Lemma insert_user_inserted (username password_hash : string)
    (now : timestamp) (d : database) :
  consistent d = true ->
  user_inserted (snd (insert_user username password_hash now d))
                (fst (insert_user username password_hash now d)).
Proof.
  intros H. split; [apply insert_user_consistent; exact H|].
  intros user_id. unfold insert_user, with_arguments. cbn [negb].
  destruct (existsb has_nul [username; password_hash]); [discriminate|].
  destruct (existsb _ (users d)); simpl; [discriminate|].
  intros Hr; inversion Hr; subst; clear Hr. split; [reflexivity|].
  apply consistent_spec in H.
  destruct H as (_ & _ & _ & _ & Hsseq & _).
  rewrite <- (existsb_key_map user_settings.user_id Z.eqb Z.eqb_eq).
  apply below_fresh; exact Hsseq.
Qed.

Lemma insert_user_settings_consistent (user_id : Z) (now : timestamp) (d : database) :
  consistent d = true ->
  user_id <= users_id_seq d ->
  consistent (fst (insert_user_settings user_id now d)) = true.
Proof.
  intros H Hle. unfold insert_user_settings.
  destruct (existsb _ (user_settings d)) eqn:E; simpl; [exact H|].
  consistent_split H; rewrite ?map_app; simpl.
  - apply (distinct_snoc Z.eqb Z.eqb_eq); [exact Hsu|].
    rewrite (existsb_key_map user_settings.user_id Z.eqb Z.eqb_eq). exact E.
  - rewrite forallb_app; simpl. rewrite Hsseq.
    apply Z.leb_le in Hle. rewrite Hle. reflexivity.
Qed.

Lemma upsert_intro_reflection_consistent (user_id : Z) (b : IntroReflection.t)
    (now : timestamp) (d : database) :
  consistent d = true ->
  consistent (fst (upsert_intro_reflection user_id b now d)) = true.
Proof.
  intros H. unfold upsert_intro_reflection.
  apply (with_arguments_keeps (fun d => consistent d = true)); [exact H|].
  consistent_split H.
  apply (upsert_distinct intro_reflection.user_id Z.eqb Z.eqb_eq);
    [reflexivity | reflexivity | exact Hin].
Qed.

Lemma mark_intro_completed_consistent (user_id : Z) (now : timestamp) (d : database) :
  consistent d = true ->
  consistent (fst (mark_intro_completed user_id now d)) = true.
Proof.
  intros H. consistent_split H;
    rewrite update_where_keys by reflexivity; assumption.
Qed.

Lemma upsert_daily_entry_consistent (user_id : Z) (b : DailyEntry.t)
    (now : timestamp) (d : database) :
  consistent d = true ->
  consistent (fst (upsert_daily_entry user_id b now d)) = true.
Proof.
  intros H. unfold upsert_daily_entry.
  apply (with_arguments_keeps (fun d => consistent d = true)); [exact H|].
  consistent_split H.
  apply (upsert_distinct daily_key pair_eqb pair_eqb_eq);
    [reflexivity | reflexivity | exact Hda].
Qed.

Lemma upsert_weekly_reflection_consistent (user_id : Z) (b : WeeklyReflection.t)
    (now : timestamp) (d : database) :
  consistent d = true ->
  consistent (fst (upsert_weekly_reflection user_id b now d)) = true.
Proof.
  intros H. unfold upsert_weekly_reflection.
  apply (with_arguments_keeps (fun d => consistent d = true)); [exact H|].
  consistent_split H.
  apply (upsert_distinct weekly_key pair_eqb pair_eqb_eq);
    [reflexivity | reflexivity | exact Hwe].
Qed.

Lemma upsert_final_reflection_consistent (user_id : Z) (b : FinalReflection.t)
    (now : timestamp) (d : database) :
  consistent d = true ->
  consistent (fst (upsert_final_reflection user_id b now d)) = true.
Proof.
  intros H. unfold upsert_final_reflection.
  apply (with_arguments_keeps (fun d => consistent d = true)); [exact H|].
  consistent_split H.
  apply (upsert_distinct final_reflection.user_id Z.eqb Z.eqb_eq);
    [reflexivity | reflexivity | exact Hfi].
Qed.

Lemma update_user_settings_consistent (j : json_argument) (user_id : Z)
    (now : timestamp) (d : database) :
  consistent d = true ->
  consistent (fst (update_user_settings j user_id now d)) = true.
Proof.
  intros H. unfold update_user_settings.
  destruct (encode_json_argument j); [|exact H].
  apply (with_arguments_keeps (fun d => consistent d = true)); [exact H|].
  consistent_split H;
    rewrite update_where_keys by reflexivity; assumption.
Qed.

Lemma select_user_unchanged (username password_hash : string)
    (now : timestamp) (d : database) :
  fst (select_user username password_hash now d) = d.
Proof.
  unfold select_user.
  apply (with_arguments_keeps (fun d' => d' = d)); reflexivity.
Qed.

Lemma select_weekly_reflection_unchanged (user_id week_number : Z)
    (now : timestamp) (d : database) :
  fst (select_weekly_reflection user_id week_number now d) = d.
Proof.
  unfold select_weekly_reflection.
  apply (with_arguments_keeps (fun d' => d' = d)); reflexivity.
Qed.

Lemma select_entries_unchanged (user_id limit : Z) (now : timestamp) (d : database) :
  fst (select_entries user_id limit now d) = d.
Proof.
  unfold select_entries.
  destruct (_ || _); [reflexivity|]. destruct (limit <? 0); reflexivity.
Qed.

Create HintDb consistency.

#[local] Hint Resolve insert_user_consistent upsert_intro_reflection_consistent
  mark_intro_completed_consistent upsert_daily_entry_consistent
  upsert_weekly_reflection_consistent upsert_final_reflection_consistent
  update_user_settings_consistent : consistency.

Ltac triple_steps :=
  repeat first
    [ apply triple_ret
    | apply triple_raise
    | apply triple_send
    | eapply triple_bind with (I := is_consistent)
    | progress intros ];
  unfold is_consistent, select_one, select_weekly_reflections in *;
  cbn [fst snd];
  rewrite ?select_entries_unchanged, ?select_user_unchanged,
    ?select_weekly_reflection_unchanged;
  auto with consistency.

Lemma get_current_user_consistent (c : HTTPBasicCredentials.t) :
  triple (is_consistent (Return tt)) (get_current_user c) is_consistent.
Proof.
  unfold get_current_user, fetchrow.
  eapply triple_bind with (I := is_consistent); [triple_steps | | triple_steps].
  intros [u|]; triple_steps.
Qed.

Lemma register_consistent (user : UserCreate.t) :
  triple (is_consistent (Return tt)) (register user) is_consistent.
Proof.
  unfold register, fetchval, execute.
  eapply triple_try_except with (I := is_consistent).
  - eapply triple_bind with (I := user_inserted).
    + apply triple_send.
      * intros now d H. apply insert_user_inserted. exact H.
      * intros d H. split; [exact H | discriminate].
    + intros user_id.
      eapply triple_bind with (I := is_consistent); [ | triple_steps | triple_steps].
      apply triple_send.
      * intros now d [H Hid]. destruct (Hid user_id eq_refl) as [-> _].
        apply insert_user_settings_consistent; [exact H | lia].
      * intros d [H _]. exact H.
    + intros e d [H _]. exact H.
  - auto.
  - intros e. destruct e; auto. triple_steps.
Qed.

Lemma fmap_consistent {A B : Type} (f : A -> B) (m : M A) :
  triple (is_consistent (Return tt)) m is_consistent ->
  triple (is_consistent (Return tt)) (fmap f m) is_consistent.
Proof.
  intros H. unfold fmap.
  eapply triple_bind with (I := is_consistent); [exact H | triple_steps | triple_steps].
Qed.

Lemma Depends_consistent {A : Type} (endpoint : CurrentUser.t -> M A)
    (c : HTTPBasicCredentials.t) :
  (forall u, triple (is_consistent (Return tt)) (endpoint u) is_consistent) ->
  triple (is_consistent (Return tt)) (Depends get_current_user endpoint c) is_consistent.
Proof.
  intros H. unfold Depends.
  eapply triple_bind with (I := is_consistent);
    [apply get_current_user_consistent | exact H | triple_steps].
Qed.

Lemma handlers_consistent (r : request) (c : HTTPBasicCredentials.t)
    (h : CurrentUser.t -> M response) (u : CurrentUser.t) :
  endpoint r = Some (c, h) ->
  triple (is_consistent (Return tt)) (h u) is_consistent.
Proof.
  destruct r; simpl; intros E; inversion E; subst; clear E;
    apply fmap_consistent;
    unfold get_user_status, save_intro_reflection, get_intro_reflection,
      save_daily_entry, get_daily_entry, list_entries, save_weekly_reflection,
      get_weekly_reflection, list_weekly_reflections, save_final_reflection,
      get_final_reflection, get_emotion_wheel, update_emotion_wheel,
      execute, fetchrow, fetch;
    (eapply triple_bind with (I := is_consistent);
     [triple_steps | | triple_steps]);
    try (intros [x|]); triple_steps.
Qed.

(** From a consistent database every request, whatever its outcome and
    whatever faults strike, leads to a consistent database. *)
Lemma app_consistent (r : request) :
  triple (is_consistent (Return tt)) (app r) is_consistent.
Proof.
  destruct (endpoint r) as [[c h]|] eqn:E.
  - assert (Happ : app r = Depends get_current_user h c)
      by (destruct r; simpl in E; inversion E; reflexivity).
    rewrite Happ. apply Depends_consistent.
    intros u. eapply handlers_consistent; exact E.
  - destruct r; try discriminate; simpl; apply fmap_consistent.
    + apply register_consistent.
    + unfold health_check. triple_steps.
Qed.

(** Every database the service can reach from the empty one, through any
    requests, at any times and with any faults, has its keys unique: one
    row per user name and per user id, at most one settings row, one intro
    and one final reflection per user, at most one daily entry per user and
    date and one weekly reflection per user and week; and no id in it is
    ahead of the id sequence. *)
Lemma reachable_consistent (d : database) : reachable d -> consistent d = true.
Proof.
  induction 1 as [wheel | d r now fs _ IH]; [reflexivity|].
  apply (app_consistent r {| db := d; clock := now; faults := fs |}). exact IH.
Qed.

(** ** Registration *)

Lemma fresh_id_has_no_settings (d : database) :
  consistent d = true ->
  existsb (fun s => user_settings.user_id s =? users_id_seq d + 1)
    (user_settings d) = false.
Proof.
  intros H. apply consistent_spec in H.
  destruct H as (_ & _ & _ & _ & Hsseq & _).
  rewrite <- (existsb_key_map user_settings.user_id Z.eqb Z.eqb_eq).
  apply below_fresh; exact Hsseq.
Qed.


Lemma registration_texts (user : UserCreate.t) :
  existsb has_nul [UserCreate.username user;
                   hash_password (UserCreate.password user)]
  = has_nul (UserCreate.username user).
Proof. simpl. rewrite hash_password_no_nul. simpl. apply orb_false_r. Qed.




(** The first registration of a name succeeds, and the second one is
    turned away with 400 and adds nothing. *)
Example register_same_username_twice :
  let run := serve [(1000, POST_register (account "alice" "hunter2"));
                    (1001, POST_register (account "alice" "swordfish"))]
               (fresh_world 1000) in
  snd run = [ Return (UserCreated "User created successfully" 1);
              Raise (HTTPException 400 "Username already exists" []) ]
  /\ map (fun u => (users.id u, users.username u)) (users (db (fst run)))
     = [(1, "alice")]
  /\ map user_settings.user_id (user_settings (db (fst run))) = [1].
Proof. vm_compute. repeat split. Qed.

(** ** Reading a record that is not there *)

Lemma no_fault_send {A : Type} (q : statement A) (w : world) :
  faults w = [] ->
  send q w = ({| db := fst (q (clock w) (db w)); clock := clock w; faults := [] |},
              snd (q (clock w) (db w))).
Proof.
  intros H. unfold send. rewrite H. simpl.
  destruct (q (clock w) (db w)); reflexivity.
Qed.

Lemma no_fault_execute (q : statement unit) (message : string) (w : world) :
  faults w = [] ->
  snd (q (clock w) (db w)) = Return tt ->
  (execute q ;;; ret message) w
  = ({| db := fst (q (clock w) (db w)); clock := clock w; faults := [] |},
     Return message).
Proof.
  intros Hf Hq. unfold bind, execute. rewrite (no_fault_send q w Hf), Hq.
  reflexivity.
Qed.

Lemma storable_daily_entry_spec (d : database) (entry : DailyEntry.t) :
  storable_daily_entry d entry = true ->
  energy_level_in_range d entry = true
  /\ existsb has_nul (daily_texts entry) = false.
Proof.
  unfold storable_daily_entry. rewrite andb_true_iff, no_nul_spec. auto.
Qed.

Lemma storable_weekly_reflection_spec (d : database) (reflection : WeeklyReflection.t) :
  storable_weekly_reflection d reflection = true ->
  in_range (week_number_type d) (WeeklyReflection.week_number reflection) = true
  /\ existsb has_nul (weekly_texts reflection) = false.
Proof.
  unfold storable_weekly_reflection. rewrite andb_true_iff, no_nul_spec. auto.
Qed.

(** What the upserts are for arguments that are accepted. *)
Ltac accepted :=
  repeat match goal with
         | H : storable_daily_entry _ _ = true |- _ =>
             apply storable_daily_entry_spec in H; destruct H
         | H : storable_weekly_reflection _ _ = true |- _ =>
             apply storable_weekly_reflection_spec in H; destruct H
         | H : no_nul _ = true |- _ => apply no_nul_spec in H
         end;
  unfold upsert_daily_entry, upsert_weekly_reflection, upsert_intro_reflection,
    upsert_final_reflection, select_weekly_reflection, select_user;
  rewrite ?with_arguments_accepted by (assumption || reflexivity).

Lemma upsert_daily_entry_returns (user_id : Z) (entry : DailyEntry.t)
    (now : timestamp) (d : database) :
  storable_daily_entry d entry = true ->
  snd (upsert_daily_entry user_id entry now d) = Return tt.
Proof. intros H. accepted. reflexivity. Qed.

Lemma upsert_weekly_reflection_returns (user_id : Z) (reflection : WeeklyReflection.t)
    (now : timestamp) (d : database) :
  storable_weekly_reflection d reflection = true ->
  snd (upsert_weekly_reflection user_id reflection now d) = Return tt.
Proof. intros H. accepted. reflexivity. Qed.

Lemma upsert_intro_reflection_returns (user_id : Z) (reflection : IntroReflection.t)
    (now : timestamp) (d : database) :
  no_nul (intro_texts reflection) = true ->
  snd (upsert_intro_reflection user_id reflection now d) = Return tt.
Proof. intros H. accepted. reflexivity. Qed.

Lemma upsert_final_reflection_returns (user_id : Z) (reflection : FinalReflection.t)
    (now : timestamp) (d : database) :
  no_nul (final_texts reflection) = true ->
  snd (upsert_final_reflection user_id reflection now d) = Return tt.
Proof. intros H. accepted. reflexivity. Qed.

(** C2, as amended: of the four reads of a record that was never saved, only
    that of the intro reflection answers 404; those of the final reflection,
    of a daily entry and, for a week number that fits the column, of a
    weekly reflection return none.  None of them changes the database. *)
Theorem absent_record_reads (u : CurrentUser.t) (entry_date : date)
    (week_number : Z) (w : world) :
  faults w = [] ->
  let uid := CurrentUser.id u in
  (find (fun r => intro_reflection.user_id r =? uid) (intro_reflection (db w)) = None ->
   snd (get_intro_reflection u w) = Raise (HTTPException 404 "Intro reflection not found" [])
   /\ db (fst (get_intro_reflection u w)) = db w)
  /\ (find (fun r => final_reflection.user_id r =? uid) (final_reflection (db w)) = None ->
      snd (get_final_reflection u w) = Return None
      /\ db (fst (get_final_reflection u w)) = db w)
  /\ (find (fun r => (daily_entries.user_id r =? uid)
                     && (daily_entries.entry_date r =? entry_date))
        (daily_entries (db w)) = None ->
      snd (get_daily_entry entry_date u w) = Return None
      /\ db (fst (get_daily_entry entry_date u w)) = db w)
  /\ (in_range (week_number_type (db w)) week_number = true ->
      find (fun r => (weekly_reflections.user_id r =? uid)
                     && (weekly_reflections.week_number r =? week_number))
        (weekly_reflections (db w)) = None ->
      snd (get_weekly_reflection week_number u w) = Return None
      /\ db (fst (get_weekly_reflection week_number u w)) = db w).
Proof.
  intros Hf uid.
  unfold get_intro_reflection, get_final_reflection, get_daily_entry,
    get_weekly_reflection, bind, fetchrow.
  rewrite !(no_fault_send _ w Hf). unfold select_one, select_weekly_reflection.
  repeat split; intros;
    rewrite ?with_arguments_accepted by (assumption || reflexivity);
    cbn [fst snd db]; fold uid;
    match goal with H : find _ _ = None |- _ => rewrite H end;
    reflexivity.
Qed.

Lemma absent_record_reads_witness :
  let w := fst (serve [(1000, POST_register (account "alice" "hunter2"))]
                  (fresh_world 1000)) in
  snd (get_intro_reflection alice w)
  = Raise (HTTPException 404 "Intro reflection not found" [])
  /\ snd (get_final_reflection alice w) = Return None
  /\ snd (get_daily_entry 738886 alice w) = Return None
  /\ snd (get_weekly_reflection 3 alice w) = Return None.
Proof.
  intros w.
  assert (Hf : faults w = []) by (vm_compute; reflexivity).
  assert (Hdb : intro_reflection (db w) = [] /\ final_reflection (db w) = []
                /\ daily_entries (db w) = [] /\ weekly_reflections (db w) = []
                /\ week_number_type (db w) = integer)
    by (vm_compute; repeat split).
  destruct Hdb as (Hi & Hfi & Hd & Hw & Ht).
  destruct (absent_record_reads alice 738886 3 w Hf) as (H1 & H2 & H3 & H4).
  rewrite Hi, Hfi, Hd, Hw, Ht in *.
  split; [apply (H1 eq_refl)|]. split; [apply (H2 eq_refl)|].
  split; [apply (H3 eq_refl) | apply (H4 eq_refl eq_refl)].
Defined.

(** C2, as stated, fails for the final reflection: for a user who never
    saved one, the read returns none and no 404. *)
Lemma get_final_reflection_absent_is_none :
  let w := fst (serve [(1000, POST_register (account "alice" "hunter2"))]
                  (fresh_world 1000)) in
  final_reflection (db w) = []
  /\ snd (get_final_reflection alice w) = Return None
  /\ ~ signals_not_found (snd (get_final_reflection alice w)).
Proof.
  intros w.
  assert (H : final_reflection (db w) = []
              /\ snd (get_final_reflection alice w) = Return None)
    by (vm_compute; split; reflexivity).
  destruct H as [Hnone Hr]. split; [exact Hnone|]. split; [exact Hr|].
  intros (detail & headers & H). rewrite Hr in H. discriminate.
Qed.

(** ** Weekly reflections *)

Lemma weekly_at_most_one (d : database) (user_id week_number : Z) :
  consistent d = true ->
  (List.length (filter (is_weekly_reflection user_id week_number)
                  (weekly_reflections d)) <= 1)%nat.
Proof.
  intros H. apply consistent_spec in H.
  destruct H as (_ & _ & _ & _ & _ & _ & _ & Hwe & _).
  apply (distinct_at_most_one weekly_key pair_eqb pair_eqb_eq _
           (user_id, week_number) Hwe).
Qed.

(** What a save over a stored week does: the sixteen fields from
    [current_mood] to [task_5] take the values supplied, [week_start_date]
    and [week_end_date] stay as they were stored, the week keeps its one
    row, and no other row changes. *)
Lemma save_weekly_reflection_overwrites_content
    (reflection : WeeklyReflection.t) (u : CurrentUser.t) (w : world)
    (old : weekly_reflections.row) :
  faults w = [] ->
  consistent (db w) = true ->
  storable_weekly_reflection (db w) reflection = true ->
  let stored := is_weekly_reflection (CurrentUser.id u)
                  (WeeklyReflection.week_number reflection) in
  find stored (weekly_reflections (db w)) = Some old ->
  let t' := weekly_reflections (db (fst (save_weekly_reflection reflection u w))) in
  snd (save_weekly_reflection reflection u w)
  = Return "Weekly reflection saved successfully"
  /\ filter stored t' =
     [ {| weekly_reflections.user_id := weekly_reflections.user_id old;
       weekly_reflections.week_number := weekly_reflections.week_number old;
       weekly_reflections.week_start_date := weekly_reflections.week_start_date old;
       weekly_reflections.week_end_date := weekly_reflections.week_end_date old;
       weekly_reflections.current_mood := WeeklyReflection.current_mood reflection;
       weekly_reflections.important_results := WeeklyReflection.important_results reflection;
       weekly_reflections.important_realizations := WeeklyReflection.important_realizations reflection;
       weekly_reflections.proud_1 := WeeklyReflection.proud_1 reflection;
       weekly_reflections.proud_2 := WeeklyReflection.proud_2 reflection;
       weekly_reflections.proud_3 := WeeklyReflection.proud_3 reflection;
       weekly_reflections.proud_4 := WeeklyReflection.proud_4 reflection;
       weekly_reflections.proud_5 := WeeklyReflection.proud_5 reflection;
       weekly_reflections.change_phase := WeeklyReflection.change_phase reflection;
       weekly_reflections.change_reflection := WeeklyReflection.change_reflection reflection;
       weekly_reflections.next_week_focus := WeeklyReflection.next_week_focus reflection;
       weekly_reflections.task_1 := WeeklyReflection.task_1 reflection;
       weekly_reflections.task_2 := WeeklyReflection.task_2 reflection;
       weekly_reflections.task_3 := WeeklyReflection.task_3 reflection;
       weekly_reflections.task_4 := WeeklyReflection.task_4 reflection;
       weekly_reflections.task_5 := WeeklyReflection.task_5 reflection |} ]
  /\ filter (fun r => negb (stored r)) t'
     = filter (fun r => negb (stored r)) (weekly_reflections (db w))
  /\ List.length t' = List.length (weekly_reflections (db w)).
Proof.
  intros Hf Hc Hok stored Hold t'. subst t'.
  unfold save_weekly_reflection.
  rewrite (no_fault_execute _ _ w Hf)
    by (apply upsert_weekly_reflection_returns; exact Hok).
  cbn [fst snd db]. split; [reflexivity|].
  accepted. cbn [fst weekly_reflections set_weekly_reflections].
  pose proof (weekly_at_most_one (db w) (CurrentUser.id u)
                (WeeklyReflection.week_number reflection) Hc) as Hone.
  fold stored in Hone.
  change (fun r : weekly_reflections.row =>
            (weekly_reflections.user_id r =? CurrentUser.id u)
            && (weekly_reflections.week_number r
                =? WeeklyReflection.week_number reflection))
    with stored.
  match goal with
  | |- context [insert_on_conflict_update stored ?upd ?ex ?t] =>
      pose proof (upsert_filter_conflict stored upd ex t
                    (fun r Hr => Hr) (pair_key_refl _ _) Hone) as Hrow;
      pose proof (upsert_filter_rest stored upd ex t
                    (fun r Hr => Hr) (pair_key_refl _ _)) as Hrest
  end.
  repeat split.
  - rewrite Hrow, Hold. reflexivity.
  - exact Hrest.
  - rewrite upsert_length.
    replace (existsb stored (weekly_reflections (db w))) with true; [reflexivity|].
    symmetry. apply existsb_exists. exists old.
    apply find_some in Hold. exact Hold.
Qed.

(** C3 does not hold of the code: a user who has saved week 1 with the
    dates 2024-01-01 to 2024-01-07 and saves week 1 again with the dates
    2024-01-08 to 2024-01-14 and a mood gets the success message, and the
    stored row has the new mood and still the dates of the first save. *)
Lemma save_weekly_reflection_keeps_stored_dates :
  let run := serve [(1000, POST_register (account "alice" "hunter2"));
                    (1001, POST_weekly_reflection (credentials "alice" "hunter2")
                             (week 1 738886 738892 None));
                    (1002, POST_weekly_reflection (credentials "alice" "hunter2")
                             (week 1 738893 738899 (Some "calm")))]
               (fresh_world 1000) in
  snd run = [ Return (UserCreated "User created successfully" 1);
              Return (Message "Weekly reflection saved successfully");
              Return (Message "Weekly reflection saved successfully") ]
  /\ map (fun r => (weekly_reflections.user_id r,
                    weekly_reflections.week_number r,
                    weekly_reflections.week_start_date r,
                    weekly_reflections.week_end_date r,
                    weekly_reflections.current_mood r))
       (weekly_reflections (db (fst run)))
     = [(1, 1, 738886, 738892, Some "calm")].
Proof. vm_compute. split; reflexivity. Qed.

(** ** Daily entries *)

Lemma daily_at_most_one (d : database) (user_id : Z) (entry_date : date) :
  consistent d = true ->
  (List.length (filter (is_daily_entry user_id entry_date) (daily_entries d)) <= 1)%nat.
Proof.
  intros H. apply consistent_spec in H.
  destruct H as (_ & _ & _ & _ & _ & _ & Hda & _).
  apply (distinct_at_most_one daily_key pair_eqb pair_eqb_eq _
           (user_id, entry_date) Hda).
Qed.

Lemma is_daily_entry_eq (user_id : Z) (entry_date : date) (r : daily_entries.row) :
  is_daily_entry user_id entry_date r = true ->
  daily_entries.user_id r = user_id /\ daily_entries.entry_date r = entry_date.
Proof.
  unfold is_daily_entry. rewrite andb_true_iff, !Z.eqb_eq. auto.
Qed.

Lemma entry_of_row_eta (e : DailyEntry.t) :
  {| DailyEntry.entry_date := DailyEntry.entry_date e;
     DailyEntry.energy_level := DailyEntry.energy_level e;
     DailyEntry.selected_emotions := DailyEntry.selected_emotions e;
     DailyEntry.how_want_to_feel := DailyEntry.how_want_to_feel e;
     DailyEntry.daily_mantra := DailyEntry.daily_mantra e;
     DailyEntry.grateful_1 := DailyEntry.grateful_1 e;
     DailyEntry.grateful_2 := DailyEntry.grateful_2 e;
     DailyEntry.grateful_3 := DailyEntry.grateful_3 e;
     DailyEntry.goal_1 := DailyEntry.goal_1 e;
     DailyEntry.goal_2 := DailyEntry.goal_2 e;
     DailyEntry.goal_3 := DailyEntry.goal_3 e;
     DailyEntry.selfcare_actions := DailyEntry.selfcare_actions e;
     DailyEntry.free_journal := DailyEntry.free_journal e;
     DailyEntry.favorite_moment := DailyEntry.favorite_moment e |} = e.
Proof. destruct e; reflexivity. Qed.

(** One save without faults: it succeeds, and the key of the entry then
    selects one row, which carries the entry, the time of the save as
    [updated_at], and the [created_at] of the row it replaces, if any. *)
Lemma save_daily_entry_once (entry : DailyEntry.t) (u : CurrentUser.t) (w : world) :
  faults w = [] ->
  consistent (db w) = true ->
  storable_daily_entry (db w) entry = true ->
  let stored := is_daily_entry (CurrentUser.id u) (DailyEntry.entry_date entry) in
  let run := save_daily_entry entry u w in
  snd run = Return "Entry saved successfully"
  /\ faults (fst run) = []
  /\ consistent (db (fst run)) = true
  /\ energy_level_type (db (fst run)) = energy_level_type (db w)
  /\ exists row,
       filter stored (daily_entries (db (fst run))) = [row]
       /\ entry_of_row row = entry
       /\ daily_entries.user_id row = CurrentUser.id u
       /\ daily_entries.updated_at row = clock w
       /\ daily_entries.created_at row =
            match find stored (daily_entries (db w)) with
            | Some old => daily_entries.created_at old
            | None => clock w
            end.
Proof.
  intros Hf Hc Hok stored run. subst run.
  unfold save_daily_entry.
  rewrite (no_fault_execute _ _ w Hf)
    by (apply upsert_daily_entry_returns; exact Hok).
  cbn [fst snd db faults].
  split; [reflexivity|]. split; [reflexivity|].
  split; [apply upsert_daily_entry_consistent; exact Hc|].
  pose proof (daily_at_most_one (db w) (CurrentUser.id u)
                (DailyEntry.entry_date entry) Hc) as Hone.
  fold stored in Hone.
  accepted. cbn [fst daily_entries set_daily_entries energy_level_type].
  split; [reflexivity|].
  change (fun r : daily_entries.row =>
            (daily_entries.user_id r =? CurrentUser.id u)
            && (daily_entries.entry_date r =? DailyEntry.entry_date entry))
    with stored.
  match goal with
  | |- context [insert_on_conflict_update stored ?upd ?ex ?t] =>
      pose proof (upsert_filter_conflict stored upd ex t
                    (fun r Hr => Hr) (pair_key_refl _ _) Hone) as Hrow
  end.
  rewrite Hrow. clear Hrow.
  destruct (find stored (daily_entries (db w))) as [old|] eqn:Hold.
  - apply find_some in Hold as [_ Hold].
    apply is_daily_entry_eq in Hold as [Hu Hd].
    eexists; split; [reflexivity|]. cbn.
    rewrite Hd, Hu. repeat split. apply entry_of_row_eta.
  - eexists; split; [reflexivity|]. cbn.
    repeat split. apply entry_of_row_eta.
Qed.

(** Saving again what is stored only refreshes [updated_at]. *)
Lemma save_daily_entry_replay (u : CurrentUser.t) (w : world) (row : daily_entries.row) :
  faults w = [] ->
  storable_daily_entry (db w) (entry_of_row row) = true ->
  let stored := is_daily_entry (CurrentUser.id u) (daily_entries.entry_date row) in
  filter stored (daily_entries (db w)) = [row] ->
  let replay := save_daily_entry (entry_of_row row) u w in
  snd replay = Return "Entry saved successfully"
  /\ daily_entries (db (fst replay))
     = update_where stored (touch (clock w)) (daily_entries (db w))
  /\ filter stored (daily_entries (db (fst replay))) = [touch (clock w) row].
Proof.
  intros Hf Hok stored Hrow replay. subst replay.
  unfold save_daily_entry.
  rewrite (no_fault_execute _ _ w Hf)
    by (apply upsert_daily_entry_returns; exact Hok).
  cbn [fst snd db]. split; [reflexivity|].
  assert (Htable : daily_entries (fst (upsert_daily_entry (CurrentUser.id u)
                     (entry_of_row row) (clock w) (db w)))
                   = update_where stored (touch (clock w)) (daily_entries (db w))).
  { accepted. cbn [fst daily_entries set_daily_entries].
    change (fun r : daily_entries.row =>
              (daily_entries.user_id r =? CurrentUser.id u)
              && (daily_entries.entry_date r
                  =? DailyEntry.entry_date (entry_of_row row)))
      with stored.
    rewrite upsert_is_update.
    - apply update_where_ext. intros r Hin Hr.
      assert (Hr' : In r (filter stored (daily_entries (db w))))
        by (apply filter_In; auto).
      rewrite Hrow in Hr'. destruct Hr' as [<-|[]]. reflexivity.
    - intros r Hr. exact Hr.
    - assert (Hin : In row (filter stored (daily_entries (db w))))
        by (rewrite Hrow; left; reflexivity).
      apply filter_In in Hin. apply existsb_exists. exists row. exact Hin.
    - rewrite Hrow. simpl. lia. }
  split; [exact Htable|].
  rewrite Htable, filter_update_where by reflexivity.
  rewrite Hrow. reflexivity.
Qed.

Lemma storable_daily_entry_same_type (d d' : database) (entry : DailyEntry.t) :
  energy_level_type d' = energy_level_type d ->
  storable_daily_entry d' entry = storable_daily_entry d entry.
Proof.
  intros H. unfold storable_daily_entry, energy_level_in_range. rewrite H.
  reflexivity.
Qed.

(** C4: any number of saves of a daily entry for one user and one date, at
    any times, each with an energy level that fits the column and texts
    without U+0000, all succeed and leave one row under that key, carrying
    the date and the thirteen content fields of the last save.  Saving the
    last request once more succeeds again and changes nothing in the table
    but the [updated_at] of that row. *)
Theorem save_daily_entry_converges (u : CurrentUser.t) (entry_date : date)
    (saves : list (timestamp * DailyEntry.t)) (now : timestamp)
    (entry : DailyEntry.t) (w : world) :
  faults w = [] ->
  consistent (db w) = true ->
  Forall (fun s => DailyEntry.entry_date (snd s) = entry_date)
    (saves ++ [(now, entry)]) ->
  Forall (fun s => storable_daily_entry (db w) (snd s) = true)
    (saves ++ [(now, entry)]) ->
  let stored := is_daily_entry (CurrentUser.id u) entry_date in
  let run := save_daily_entries u (saves ++ [(now, entry)]) w in
  Forall (fun r => r = Return "Entry saved successfully") (snd run)
  /\ exists row,
       filter stored (daily_entries (db (fst run))) = [row]
       /\ entry_of_row row = entry
       /\ forall again,
            let replay := save_daily_entry entry u
                            {| db := db (fst run); clock := again;
                               faults := faults (fst run) |} in
            snd replay = Return "Entry saved successfully"
            /\ daily_entries (db (fst replay))
               = update_where stored (touch again) (daily_entries (db (fst run)))
            /\ filter stored (daily_entries (db (fst replay))) = [touch again row].
Proof.
  intros Hf Hc Hdates Hok stored run. subst run.
  remember (energy_level_type (db w)) as ty eqn:Hty.
  assert (Hok' : Forall (fun s => forall d, energy_level_type d = ty ->
                           storable_daily_entry d (snd s) = true)
                   (saves ++ [(now, entry)])).
  { eapply Forall_impl; [|exact Hok]. intros s Hs d Hd. simpl in Hs.
    rewrite <- Hs. apply storable_daily_entry_same_type. congruence. }
  clear Hok. symmetry in Hty. revert w Hf Hc Hty.
  induction saves as [|[t e] saves IH]; intros w Hf Hc Hty.
  - simpl. pose proof (Forall_inv Hdates) as Hd. simpl in Hd.
    pose proof (Forall_inv Hok') as Hentry_ok. simpl in Hentry_ok.
    set (w0 := {| db := db w; clock := now; faults := faults w |}).
    destruct (save_daily_entry_once entry u w0 Hf Hc (Hentry_ok _ Hty))
      as (Hr & Hf' & Hc' & Hty' & row & Hrow & Hentry & _).
    rewrite Hd in Hrow. fold stored in Hrow.
    split; [constructor; [exact Hr | constructor]|].
    exists row. split; [exact Hrow|]. split; [exact Hentry|].
    intros again. rewrite <- Hentry.
    assert (Hdate : daily_entries.entry_date row = entry_date)
      by (rewrite <- Hd, <- Hentry; reflexivity).
    pose proof (save_daily_entry_replay u
                  {| db := db (fst (save_daily_entry entry u w0)); clock := again;
                     faults := faults (fst (save_daily_entry entry u w0)) |}
                  row Hf') as Hreplay.
    cbn [db clock] in Hreplay. rewrite Hdate in Hreplay. fold stored in Hreplay.
    rewrite Hentry in *. apply Hreplay; [|exact Hrow].
    apply Hentry_ok. rewrite Hty'. exact Hty.
  - simpl in Hdates. pose proof (Forall_inv_tail Hdates) as Hrest.
    simpl in Hok'. pose proof (Forall_inv Hok') as He. simpl in He.
    pose proof (Forall_inv_tail Hok') as Hokrest.
    simpl.
    set (w0 := {| db := db w; clock := t; faults := faults w |}).
    destruct (save_daily_entry_once e u w0 Hf Hc (He _ Hty))
      as (Hr & Hf' & Hc' & Hty' & _).
    specialize (IH Hrest Hokrest (fst (save_daily_entry e u w0)) Hf' Hc').
    destruct (save_daily_entries u (saves ++ [(now, entry)])
                (fst (save_daily_entry e u w0))) as [w' rs].
    simpl in *. destruct IH as [Hall Hex]; [rewrite Hty'; exact Hty|].
    split; [constructor; assumption | exact Hex].
Qed.

Lemma save_daily_entry_converges_witness :
  let w := fst (serve [(1000, POST_register (account "alice" "hunter2"))]
                  (fresh_world 1000)) in
  let run := save_daily_entries alice
               [(1000, day 738886 (Some 3)); (2000, day 738886 (Some 7))] w in
  consistent (db w) = true
  /\ exists row,
       filter (is_daily_entry 1 738886) (daily_entries (db (fst run))) = [row]
       /\ entry_of_row row = day 738886 (Some 7).
Proof.
  intros w run.
  assert (Hc : consistent (db w) = true) by (vm_compute; reflexivity).
  assert (Hf : faults w = []) by (vm_compute; reflexivity).
  assert (Hty : energy_level_type (db w) = smallint) by (vm_compute; reflexivity).
  split; [exact Hc|].
  destruct (save_daily_entry_converges alice 738886
              [(1000, day 738886 (Some 3))] 2000 (day 738886 (Some 7)) w Hf Hc)
    as [_ (row & Hrow & Hentry & _)].
  - repeat constructor.
  - repeat constructor; unfold storable_daily_entry, energy_level_in_range;
      rewrite Hty; reflexivity.
  - exists row. split; [exact Hrow | exact Hentry].
Defined.

(** The example of the specification: two saves for user 1 and the first of
    January 2024 with two energy levels leave one row, with the second. *)
Example save_daily_entry_twice :
  let run := serve [(1000, POST_register (account "alice" "hunter2"));
                    (1001, POST_entries (credentials "alice" "hunter2")
                             (day 738886 (Some 3)));
                    (2000, POST_entries (credentials "alice" "hunter2")
                             (day 738886 (Some 7)))]
               (fresh_world 1000) in
  snd run = [ Return (UserCreated "User created successfully" 1);
              Return (Message "Entry saved successfully");
              Return (Message "Entry saved successfully") ]
  /\ map (fun r => (daily_entries.user_id r, daily_entries.entry_date r,
                    daily_entries.energy_level r,
                    daily_entries.created_at r, daily_entries.updated_at r))
       (daily_entries (db (fst run)))
     = [(1, 738886, Some 7, 1001, 2000)].
Proof. vm_compute. split; reflexivity. Qed.

(** C10: a save, with an energy level that fits the column and texts
    without U+0000, over a stored daily entry leaves the [user_id], the
    [entry_date] and the [created_at] of the row as they were; the row then
    carries the thirteen content fields of the request and the time of the
    save as [updated_at].  No other row of the table and no other table
    changes. *)
Theorem save_daily_entry_keeps_created_at (entry : DailyEntry.t) (u : CurrentUser.t)
    (w : world) (old : daily_entries.row) :
  faults w = [] ->
  consistent (db w) = true ->
  storable_daily_entry (db w) entry = true ->
  let stored := is_daily_entry (CurrentUser.id u) (DailyEntry.entry_date entry) in
  find stored (daily_entries (db w)) = Some old ->
  let d := db w in
  let d' := db (fst (save_daily_entry entry u w)) in
  (exists new,
     filter stored (daily_entries d') = [new]
     /\ daily_entries.user_id new = daily_entries.user_id old
     /\ daily_entries.entry_date new = daily_entries.entry_date old
     /\ daily_entries.created_at new = daily_entries.created_at old
     /\ entry_of_row new = entry
     /\ daily_entries.updated_at new = clock w)
  /\ filter (fun r => negb (stored r)) (daily_entries d')
     = filter (fun r => negb (stored r)) (daily_entries d)
  /\ List.length (daily_entries d') = List.length (daily_entries d)
  /\ users d' = users d
  /\ user_settings d' = user_settings d
  /\ intro_reflection d' = intro_reflection d
  /\ weekly_reflections d' = weekly_reflections d
  /\ final_reflection d' = final_reflection d.
Proof.
  intros Hf Hc Hok stored Hold d d'. subst d d'.
  destruct (save_daily_entry_once entry u w Hf Hc Hok)
    as (_ & _ & _ & _ & new & Hnew & Hentry & Huser & Hupd & Hcre).
  fold stored in Hnew, Hcre. rewrite Hold in Hcre.
  pose proof (find_some _ _ Hold) as [_ Hkey].
  apply is_daily_entry_eq in Hkey as [Hu Hd].
  split.
  { exists new. repeat split; auto; try congruence.
    rewrite Hd, <- Hentry. reflexivity. }
  unfold save_daily_entry.
  rewrite (no_fault_execute _ _ w Hf)
    by (apply upsert_daily_entry_returns; exact Hok).
  accepted. cbn [fst snd db daily_entries set_daily_entries].
  change (fun r : daily_entries.row =>
            (daily_entries.user_id r =? CurrentUser.id u)
            && (daily_entries.entry_date r =? DailyEntry.entry_date entry))
    with stored.
  repeat split.
  - match goal with
    | |- context [insert_on_conflict_update stored ?upd ?ex ?t] =>
        exact (upsert_filter_rest stored upd ex t
                 (fun r Hr => Hr) (pair_key_refl _ _))
    end.
  - rewrite upsert_length.
    replace (existsb stored (daily_entries (db w))) with true; [reflexivity|].
    symmetry. apply existsb_exists. exists old.
    apply find_some in Hold. exact Hold.
Qed.

Lemma save_daily_entry_keeps_created_at_witness :
  let w1 := at_time 2000
              (fst (serve [(1000, POST_register (account "alice" "hunter2"));
                           (1001, POST_entries (credentials "alice" "hunter2")
                                    (day 738886 (Some 3)))]
                      (fresh_world 1000))) in
  let d' := db (fst (save_daily_entry (day 738886 (Some 7)) alice w1)) in
  consistent (db w1) = true
  /\ exists new,
       filter (is_daily_entry 1 738886) (daily_entries d') = [new]
       /\ daily_entries.created_at new = 1001
       /\ daily_entries.updated_at new = 2000.
Proof.
  intros w1 d'.
  assert (Hc : consistent (db w1) = true) by (vm_compute; reflexivity).
  assert (Hf : faults w1 = []) by (vm_compute; reflexivity).
  assert (Hok : storable_daily_entry (db w1) (day 738886 (Some 7)) = true)
    by (vm_compute; reflexivity).
  assert (Hold : exists old,
             find (is_daily_entry (CurrentUser.id alice)
                     (DailyEntry.entry_date (day 738886 (Some 7))))
               (daily_entries (db w1)) = Some old
             /\ daily_entries.created_at old = 1001)
    by (vm_compute; eexists; split; reflexivity).
  destruct Hold as (old & Hold & Hcreated).
  split; [exact Hc|].
  destruct (save_daily_entry_keeps_created_at (day 738886 (Some 7)) alice w1 old
              Hf Hc Hok Hold)
    as [(new & Hnew & _ & _ & Hcre & _ & Hupd) _].
  exists new. split; [exact Hnew|]. split; [congruence | exact Hupd].
Defined.

(** ** The intro reflection and the flag of its owner *)

Lemma intro_completed_after_mark (t : list users.row) (user_id any : Z) :
  option_map users.intro_completed
    (find (fun r => users.id r =? any)
       (update_where (fun r => users.id r =? user_id)
          (fun r => {| users.id := users.id r;
                       users.username := users.username r;
                       users.password_hash := users.password_hash r;
                       users.intro_completed := true;
                       users.created_at := users.created_at r |}) t))
  = option_map (fun flag => if any =? user_id then true else flag)
      (option_map users.intro_completed (find (fun r => users.id r =? any) t)).
Proof.
  unfold update_where. induction t as [|r t IH]; simpl; [reflexivity|].
  destruct (users.id r =? user_id) eqn:Eu; simpl;
    destruct (users.id r =? any) eqn:Ea; simpl; auto.
  - apply Z.eqb_eq in Eu, Ea. subst. rewrite Z.eqb_refl. reflexivity.
  - apply Z.eqb_eq in Ea. subst. rewrite Eu. reflexivity.
Qed.

(** The [users] table after a save: marked when the save returns, and
    marked or untouched when it raises.  A save of answers without U+0000
    returns when no statement is lost. *)
Lemma save_intro_reflection_users (reflection : IntroReflection.t)
    (u : CurrentUser.t) (w : world) :
  let run := save_intro_reflection reflection u w in
  let marked :=
    update_where (fun r => users.id r =? CurrentUser.id u)
      (fun r => {| users.id := users.id r;
                   users.username := users.username r;
                   users.password_hash := users.password_hash r;
                   users.intro_completed := true;
                   users.created_at := users.created_at r |})
      (users (db w)) in
  (faults w = [] -> no_nul (intro_texts reflection) = true ->
   snd run = Return "Intro reflection saved successfully")
  /\ (forall message, snd run = Return message -> users (db (fst run)) = marked)
  /\ (users (db (fst run)) = users (db w) \/ users (db (fst run)) = marked).
Proof.
  intros run marked. subst run marked.
  unfold save_intro_reflection, bind, execute, send, upsert_intro_reflection,
    with_arguments, no_nul.
  generalize (existsb has_nul (intro_texts reflection)). intros nul.
  destruct w as [d c fs]. simpl.
  destruct nul; destruct fs as [|[|] [|[|] fs]]; simpl;
    (split; [intros H Hn; try reflexivity; discriminate|]);
    (split; [intros message Hm; try reflexivity; discriminate|]);
    auto.
Qed.

(** C5: a successful save of an intro reflection leaves the flag of its
    owner true; whatever the outcome of a save, the flag of every other user
    is what it was, and no flag that was true is reset.  When no statement
    is lost, a save of seven answers without U+0000 succeeds. *)
Theorem save_intro_reflection_sets_flag (reflection : IntroReflection.t)
    (u : CurrentUser.t) (w : world) :
  let owner := CurrentUser.id u in
  let run := save_intro_reflection reflection u w in
  let d := db w in
  let d' := db (fst run) in
  (faults w = [] -> no_nul (intro_texts reflection) = true ->
   snd run = Return "Intro reflection saved successfully")
  /\ (forall message flag,
        snd run = Return message ->
        intro_completed_of d owner = Some flag ->
        intro_completed_of d' owner = Some true)
  /\ (forall other, other <> owner ->
        intro_completed_of d' other = intro_completed_of d other)
  /\ (forall any, intro_completed_of d any = Some true ->
        intro_completed_of d' any = Some true).
Proof.
  intros owner run d d'. subst run d d'.
  destruct (save_intro_reflection_users reflection u w) as (Hok & Hret & Hany).
  split; [exact Hok|]. unfold intro_completed_of.
  split; [|split].
  - intros message flag Hm Hflag. rewrite (Hret message Hm).
    rewrite intro_completed_after_mark. unfold intro_completed_of in Hflag.
    rewrite Hflag. simpl. rewrite Z.eqb_refl. reflexivity.
  - intros other Hne. destruct Hany as [-> | ->]; [reflexivity|].
    rewrite intro_completed_after_mark.
    destruct (option_map users.intro_completed _) as [flag|]; simpl; [|reflexivity].
    replace (other =? CurrentUser.id u) with false
      by (symmetry; apply Z.eqb_neq; exact Hne).
    reflexivity.
  - intros any Htrue. destruct Hany as [-> | ->]; [exact Htrue|].
    rewrite intro_completed_after_mark. rewrite Htrue. simpl.
    destruct (any =? CurrentUser.id u); reflexivity.
Qed.

Lemma save_intro_reflection_sets_flag_witness :
  let w := fst (serve [(1000, POST_register (account "alice" "hunter2"));
                       (1001, POST_register (account "bob" "swordfish"))]
                  (fresh_world 1000)) in
  let run := save_intro_reflection (intro "fine") alice w in
  map users.id (users (db w)) = [1; 2]
  /\ snd run = Return "Intro reflection saved successfully"
  /\ intro_completed_of (db (fst run)) 1 = Some true
  /\ intro_completed_of (db (fst run)) 2 = Some false.
Proof.
  intros w run. split; [reflexivity|].
  destruct (save_intro_reflection_sets_flag (intro "fine") alice w)
    as (Hok & Hset & Hother & _).
  split; [exact (Hok eq_refl eq_refl)|]. split.
  - exact (Hset _ false (Hok eq_refl eq_refl) eq_refl).
  - unfold run. rewrite (Hother 2); [reflexivity | discriminate].
Defined.

(** ** Credentials *)

Lemma no_match_without_username (t : list users.row) (username password_hash : string) :
  existsb (fun r => String.eqb (users.username r) username) t = false ->
  find (credentials_match username password_hash) t = None.
Proof.
  induction t as [|r t IH]; simpl; [reflexivity|].
  intros H. apply orb_false_iff in H as [Hr H].
  unfold credentials_match at 1. rewrite Hr. simpl. auto.
Qed.

(** With unique user names, the row the query of [get_current_user] finds
    for the name of a stored user is that user's, and it is found exactly
    when the hashes are equal. *)
Lemma find_stored_user (t : list users.row) (u : users.row) (password_hash : string) :
  distinct String.eqb (map users.username t) = true ->
  In u t ->
  find (credentials_match (users.username u) password_hash) t
  = if String.eqb (users.password_hash u) password_hash then Some u else None.
Proof.
  induction t as [|r t IH]; simpl; intros Hd Hin; [contradiction|].
  apply andb_true_iff in Hd as [Hr Hd]. apply negb_true_iff in Hr.
  rewrite (existsb_key_map users.username String.eqb string_eqb_eq) in Hr.
  destruct Hin as [-> | Hin].
  - unfold credentials_match at 1. rewrite String.eqb_refl. simpl.
    destruct (String.eqb (users.password_hash u) password_hash); [reflexivity|].
    apply no_match_without_username. exact Hr.
  - unfold credentials_match at 1.
    destruct (String.eqb (users.username r) (users.username u)) eqn:E.
    + apply String.eqb_eq in E.
      assert (Hex : existsb (fun x => String.eqb (users.username x) (users.username r)) t
                    = true).
      { apply existsb_exists. exists u. split; [exact Hin|].
        rewrite E. apply String.eqb_refl. }
      rewrite Hex in Hr. discriminate.
    + simpl. apply IH; assumption.
Qed.

Lemma stored_username_no_nul (d : database) (u : users.row) :
  consistent d = true -> In u (users d) -> has_nul (users.username u) = false.
Proof.
  intros Hc Hin. apply consistent_spec in Hc.
  destruct Hc as (_ & _ & _ & _ & _ & _ & _ & _ & _ & Hnul).
  rewrite forallb_forall in Hnul.
  apply negb_true_iff, Hnul, in_map, Hin.
Qed.

(** The outcomes of the credential check: the identity of the row found,
    401 when none is found, the error of the server for a user name with
    U+0000, and the loss of the connection. *)
Lemma get_current_user_run (c : HTTPBasicCredentials.t) (w : world) :
  let username := HTTPBasicCredentials.username c in
  let query := credentials_match username
                 (hash_password (HTTPBasicCredentials.password c)) in
  let auth := get_current_user c w in
  db (fst auth) = db w
  /\ clock (fst auth) = clock w
  /\ faults (fst auth) = tl (faults w)
  /\ match snd auth with
     | Return current_user =>
         has_nul username = false
         /\ exists u, find query (users (db w)) = Some u /\ current_user = identity_of u
     | Raise e =>
         (e = unauthorized /\ has_nul username = false
          /\ find query (users (db w)) = None)
         \/ (e = ConnectionDoesNotExistError /\ exists rest, faults w = true :: rest)
         \/ (e = CharacterNotInRepertoireError /\ has_nul username = true)
     end
  /\ (faults w = [] ->
      snd auth = if has_nul username then Raise CharacterNotInRepertoireError
                 else match find query (users (db w)) with
                      | Some u => Return (identity_of u)
                      | None => Raise unauthorized
                      end).
Proof.
  intros username query auth. subst auth.
  unfold get_current_user, bind, fetchrow, send, select_user, with_arguments.
  fold username. fold query.
  pose proof (hash_password_no_nul (HTTPBasicCredentials.password c)) as Hhash.
  cbn [negb existsb]. rewrite Hhash, !orb_false_r.
  destruct w as [d c0 fs]. cbn [db clock faults].
  destruct fs as [|[|] fs]; cbn [fst snd db clock faults tl];
    try (destruct (has_nul username) eqn:En; cbn [fst snd db clock faults tl];
         try (destruct (find query (users d)) as [u|] eqn:E;
              cbn [fst snd db clock faults tl ret raise]));
    repeat split; eauto 6; discriminate.
Qed.

(** C7: for a stored user, the credential check returns the identity of
    that user (id, user name, intro_completed) exactly when the SHA-256
    digest of the password supplied equals the stored hash, and no identity
    otherwise, which the gate reports as 401.  The outcome is this function
    of the stored row and the password, and the database is not changed. *)
Theorem get_current_user_verifies (u : users.row) (password : string) (w : world) :
  faults w = [] ->
  consistent (db w) = true ->
  In u (users (db w)) ->
  let auth := get_current_user (credentials (users.username u) password) w in
  snd auth
  = (if String.eqb (users.password_hash u) (hash_password password)
     then Return {| CurrentUser.id := users.id u;
                    CurrentUser.username := users.username u;
                    CurrentUser.intro_completed := users.intro_completed u |}
     else Raise (HTTPException 401 "Invalid credentials"
                   [("WWW-Authenticate", "Basic")]))
  /\ db (fst auth) = db w.
Proof.
  intros Hf Hc Hin auth. subst auth.
  destruct (get_current_user_run (credentials (users.username u) password) w)
    as (Hdb & _ & _ & _ & Hrun).
  split; [|exact Hdb].
  rewrite (Hrun Hf). simpl.
  rewrite (stored_username_no_nul _ _ Hc Hin).
  apply consistent_spec in Hc. destruct Hc as (Hun & _).
  rewrite (find_stored_user _ u _ Hun Hin).
  destruct (String.eqb (users.password_hash u) (hash_password password)); reflexivity.
Qed.

Lemma get_current_user_verifies_witness :
  let w := fst (serve [(1000, POST_register (account "alice" "hunter2"));
                       (1001, POST_register (account "bob" "swordfish"))]
                  (fresh_world 1000)) in
  consistent (db w) = true
  /\ snd (get_current_user (credentials "alice" "hunter2") w) = Return alice
  /\ snd (get_current_user (credentials "alice" "swordfish") w)
     = Raise (HTTPException 401 "Invalid credentials" [("WWW-Authenticate", "Basic")]).
Proof.
  intros w.
  assert (Hc : consistent (db w) = true) by (vm_compute; reflexivity).
  assert (Hf : faults w = []) by (vm_compute; reflexivity).
  assert (Hw : users (db w)
               = [ {| users.id := 1; users.username := "alice";
                      users.password_hash := hash_password "hunter2";
                      users.intro_completed := false;
                      users.created_at := 1000 |};
                   {| users.id := 2; users.username := "bob";
                      users.password_hash := hash_password "swordfish";
                      users.intro_completed := false;
                      users.created_at := 1001 |} ])
    by (vm_compute; reflexivity).
  assert (Hin : In {| users.id := 1; users.username := "alice";
                      users.password_hash := hash_password "hunter2";
                      users.intro_completed := false;
                      users.created_at := 1000 |} (users (db w)))
    by (rewrite Hw; left; reflexivity).
  split; [exact Hc|]. split.
  - destruct (get_current_user_verifies _ "hunter2" w Hf Hc Hin) as [H _].
    cbn [users.password_hash users.id users.username users.intro_completed] in H.
    rewrite String.eqb_refl in H. exact H.
  - destruct (get_current_user_verifies _ "swordfish" w Hf Hc Hin) as [H _].
    cbn [users.password_hash users.id users.username users.intro_completed] in H.
    replace (String.eqb (hash_password "hunter2") (hash_password "swordfish"))
      with false in H by (vm_compute; reflexivity).
    exact H.
Defined.

(** ** The gate in front of the protected routes *)

Lemma credentials_match_eq (username password_hash : string) (u : users.row) :
  credentials_match username password_hash u = true ->
  users.username u = username /\ users.password_hash u = password_hash.
Proof.
  unfold credentials_match. rewrite andb_true_iff, !String.eqb_eq. auto.
Qed.

(** C6: every route but the registration and the health check resolves the
    credentials of the request through [get_current_user] before anything
    else.  When that raises, the request ends with the same exception and
    the handler is not run: the database is as before.  When it returns, a
    stored user has the name of the credentials and the SHA-256 digest of
    their password, what is returned is the id, the user name and the
    intro_completed of that row, and the request is the handler run on this
    identity.  When no statement is lost and the user name is free of
    U+0000: with no stored user of the name and the hash the request ends
    in 401 with the header [WWW-Authenticate: Basic], and with one the
    request is the handler run on the columns of the first such row. *)
Theorem protected_routes_resolve_credentials (r : request) (w : world) :
  match endpoint r with
  | None => (exists user, r = POST_register user) \/ r = GET_health
  | Some (c, handler) =>
      let username := HTTPBasicCredentials.username c in
      let password_hash := hash_password (HTTPBasicCredentials.password c) in
      let query := credentials_match username password_hash in
      let auth := get_current_user c w in
      db (fst auth) = db w
      /\ match snd auth with
         | Raise e => app r w = (fst auth, Raise e)
         | Return current_user =>
             app r w = handler current_user (fst auth)
             /\ exists u, In u (users (db w))
                  /\ users.username u = username
                  /\ users.password_hash u = password_hash
                  /\ current_user
                     = {| CurrentUser.id := users.id u;
                          CurrentUser.username := users.username u;
                          CurrentUser.intro_completed := users.intro_completed u |}
         end
      /\ (faults w = [] ->
          has_nul username = false ->
          find query (users (db w)) = None ->
          app r w = ({| db := db w; clock := clock w; faults := [] |},
                     Raise (HTTPException 401 "Invalid credentials"
                              [("WWW-Authenticate", "Basic")])))
      /\ (forall u,
          faults w = [] ->
          has_nul username = false ->
          find query (users (db w)) = Some u ->
          app r w = handler {| CurrentUser.id := users.id u;
                               CurrentUser.username := users.username u;
                               CurrentUser.intro_completed := users.intro_completed u |}
                      {| db := db w; clock := clock w; faults := [] |})
  end.
Proof.
  destruct (endpoint r) as [[c handler]|] eqn:E.
  - assert (Happ : app r = Depends get_current_user handler c)
      by (destruct r; simpl in E; inversion E; reflexivity).
    intros username password_hash query auth. subst auth.
    destruct (get_current_user_run c w) as (Hdb & Hclock & Hfs & Hcases & Hrun).
    fold username password_hash query in Hcases, Hrun.
    rewrite Happ. unfold Depends, bind.
    destruct (get_current_user c w) as [w1 [current_user|e]] eqn:Eauth;
      cbn [fst snd] in *; (split; [exact Hdb|]).
    + split; [split; [reflexivity|]|split].
      * destruct Hcases as (_ & u & Hfind & Hid). exists u.
        apply find_some in Hfind as [Hin Hq].
        apply credentials_match_eq in Hq as [Hname Hhash].
        repeat split; assumption.
      * intros Hf Hn Hnone. specialize (Hrun Hf). rewrite Hn, Hnone in Hrun.
        discriminate Hrun.
      * intros u Hf Hn Hsome. specialize (Hrun Hf). rewrite Hn, Hsome in Hrun.
        rewrite Hf in Hfs. cbn [tl] in Hfs.
        destruct w1 as [d1 c1 f1]. cbn [db clock faults] in *. subst d1 c1 f1.
        inversion Hrun. reflexivity.
    + split; [reflexivity|split].
      * intros Hf Hn Hnone. specialize (Hrun Hf). rewrite Hn, Hnone in Hrun.
        rewrite Hf in Hfs. cbn [tl] in Hfs.
        destruct w1 as [d1 c1 f1]. cbn [db clock faults] in *. subst d1 c1 f1.
        inversion Hrun. reflexivity.
      * intros u Hf Hn Hsome. specialize (Hrun Hf). rewrite Hn, Hsome in Hrun.
        discriminate Hrun.
  - destruct r; try discriminate; [left; eauto | right; reflexivity].
Qed.

Lemma protected_routes_resolve_credentials_witness :
  let w := at_time 2000
             (fst (serve [(1000, POST_register (account "alice" "hunter2"))]
                     (fresh_world 1000))) in
  app (POST_entries (credentials "alice" "letmein") (day 738886 (Some 3))) w
  = ({| db := db w; clock := 2000; faults := [] |},
     Raise (HTTPException 401 "Invalid credentials" [("WWW-Authenticate", "Basic")]))
  /\ app (GET_user_status (credentials "alice" "hunter2")) w
     = fmap Status (get_user_status alice) {| db := db w; clock := 2000; faults := [] |}.
Proof.
  intros w.
  assert (Hf : faults w = []) by (vm_compute; reflexivity).
  assert (Hnone : find (credentials_match "alice" (hash_password "letmein"))
                    (users (db w)) = None)
    by (vm_compute; reflexivity).
  assert (Hsome : find (credentials_match "alice" (hash_password "hunter2"))
                    (users (db w))
                  = Some {| users.id := 1; users.username := "alice";
                            users.password_hash := hash_password "hunter2";
                            users.intro_completed := false;
                            users.created_at := 1000 |})
    by (vm_compute; reflexivity).
  split.
  - pose proof (protected_routes_resolve_credentials
                  (POST_entries (credentials "alice" "letmein") (day 738886 (Some 3)))
                  w) as H.
    cbn [endpoint] in H. destruct H as (_ & _ & H & _).
    exact (H Hf eq_refl Hnone).
  - pose proof (protected_routes_resolve_credentials
                  (GET_user_status (credentials "alice" "hunter2")) w) as H.
    cbn [endpoint] in H. destruct H as (_ & _ & _ & H).
    exact (H _ Hf eq_refl Hsome).
Defined.

(** ** Settings *)

Lemma set_user_settings_same (d : database) : set_user_settings d (user_settings d) = d.
Proof. destruct d; reflexivity. Qed.

(** C9 does not hold of the code: the update of the emotion wheel never
    answers with its success message.  The handler passes the [dict] of the
    request as the argument of the statement, the driver has no encoder for
    it and raises [DataError] before the [UPDATE] is run, so every update
    that reaches the driver raises and leaves the database as it was,
    whether the user has a settings row or not. *)
Theorem update_emotion_wheel_raises (emotion_wheel : list (string * json))
    (u : CurrentUser.t) (w : world) :
  faults w = [] ->
  snd (update_emotion_wheel emotion_wheel u w) = Raise DataError
  /\ db (fst (update_emotion_wheel emotion_wheel u w)) = db w.
Proof.
  intros Hf. unfold update_emotion_wheel, bind, execute.
  rewrite (no_fault_send _ w Hf).
  unfold update_user_settings, encode_json_argument. cbn [fst snd db].
  split; reflexivity.
Qed.

(** A user whose registration lost its second statement has no settings
    row: the read answers 404, and the update raises [DataError]. *)
Lemma update_emotion_wheel_raises_witness :
  let w := fst (register (account "alice" "hunter2")
                  {| db := empty_database "{}" smallint integer; clock := 1000;
                     faults := [false; true] |}) in
  let wheel := [("joy", JArray [JString "proud"; JString "content"])] in
  map users.id (users (db w)) = [1]
  /\ user_settings (db w) = []
  /\ snd (get_emotion_wheel alice w) = Raise (HTTPException 404 "Settings not found" [])
  /\ snd (update_emotion_wheel wheel alice w) = Raise DataError
  /\ db (fst (update_emotion_wheel wheel alice w)) = db w.
Proof.
  intros w wheel.
  assert (Hf : faults w = []) by (vm_compute; reflexivity).
  split; [vm_compute; reflexivity|].
  split; [vm_compute; reflexivity|].
  split; [vm_compute; reflexivity|].
  exact (update_emotion_wheel_raises wheel alice w Hf).
Defined.

(** The same for a user who has a settings row: the stored document stays
    the default of the column. *)
Example update_emotion_wheel_keeps_default :
  let run := serve [(1000, POST_register (account "alice" "hunter2"));
                    (1001, PUT_emotion_wheel (credentials "alice" "hunter2")
                             [("joy", JArray [JString "proud"])]);
                    (1002, GET_emotion_wheel (credentials "alice" "hunter2"))]
               (fresh_world 1000) in
  snd run = [ Return (UserCreated "User created successfully" 1);
              Raise DataError;
              Return (Document "{}") ].
Proof. vm_compute. reflexivity. Qed.

(** ** Listing the daily entries *)

Section OrderBy.

Context {R : Type}.
Variable key : R -> Z.

Lemma insert_desc_perm (x : R) (l : list R) :
  Permutation (insert_desc key x l) (x :: l).
Proof.
  induction l as [|y l IH]; simpl; [apply Permutation_refl|].
  destruct (key y <=? key x); [apply Permutation_refl|].
  apply Permutation_trans with (y :: x :: l);
    [apply perm_skip; exact IH | apply perm_swap].
Qed.

Lemma order_by_desc_perm (l : list R) : Permutation (order_by_desc key l) l.
Proof.
  induction l as [|x l IH]; simpl; [apply perm_nil|].
  apply Permutation_trans with (x :: order_by_desc key l);
    [apply insert_desc_perm | apply perm_skip; exact IH].
Qed.

Lemma insert_desc_sorted (x : R) (l : list R) :
  StronglySorted (newer_by key) l ->
  (forall y, In y l -> key y <> key x) ->
  StronglySorted (newer_by key) (insert_desc key x l).
Proof.
  induction l as [|y l IH]; simpl; intros Hs Hne.
  - constructor; constructor.
  - apply StronglySorted_inv in Hs as [Hs Hy].
    destruct (key y <=? key x) eqn:E.
    + apply Z.leb_le in E.
      assert (Hlt : key y < key x) by (specialize (Hne y (or_introl eq_refl)); lia).
      constructor; [constructor; assumption|].
      constructor; [exact Hlt|].
      rewrite Forall_forall in *. intros z Hz. specialize (Hy z Hz).
      unfold newer_by in *. lia.
    + apply Z.leb_gt in E.
      constructor; [apply IH; [exact Hs | intros z Hz; apply Hne; right; exact Hz]|].
      rewrite Forall_forall in *. intros z Hz.
      apply (Permutation_in _ (insert_desc_perm x l)) in Hz.
      destruct Hz as [<- | Hz]; [exact E | apply Hy; exact Hz].
Qed.

(** On rows with distinct keys the order is strictly descending. *)
Lemma order_by_desc_sorted (l : list R) :
  NoDup (map key l) -> StronglySorted (newer_by key) (order_by_desc key l).
Proof.
  induction l as [|x l IH]; simpl; intros Hnd; [constructor|].
  inversion Hnd as [|k ks Hx Hl]; subst.
  apply insert_desc_sorted; [apply IH; exact Hl|].
  intros y Hy Heq. apply Hx. rewrite <- Heq. apply in_map.
  apply (Permutation_in _ (order_by_desc_perm l)). exact Hy.
Qed.

Lemma sorted_firstn (n : nat) (l : list R) :
  StronglySorted (newer_by key) l -> StronglySorted (newer_by key) (firstn n l).
Proof.
  revert n. induction l as [|x l IH]; intros [|n] Hs; simpl; try constructor.
  - apply IH. apply StronglySorted_inv in Hs. apply Hs.
  - apply StronglySorted_inv in Hs as [_ Hx].
    rewrite Forall_forall in *. intros y Hy. apply Hx.
    rewrite <- (firstn_skipn n l). apply in_or_app. left. exact Hy.
Qed.

(** What a sorted list keeps in front is (newer_by key) than what it leaves out. *)
Lemma sorted_firstn_newer (n : nat) (l : list R) (a b : R) :
  StronglySorted (newer_by key) l ->
  In a (firstn n l) -> In b (skipn n l) -> (newer_by key) a b.
Proof.
  revert n. induction l as [|x l IH]; intros [|n] Hs Ha Hb; simpl in *;
    try contradiction.
  apply StronglySorted_inv in Hs as [Hs Hx].
  destruct Ha as [<- | Ha].
  - rewrite Forall_forall in Hx. apply Hx.
    rewrite <- (firstn_skipn n l). apply in_or_app. right. exact Hb.
  - apply (IH n); assumption.
Qed.

Lemma insert_desc_keys (x : R) (l : list R) :
  map key (insert_desc key x l) = insert_desc (fun k => k) (key x) (map key l).
Proof.
  induction l as [|y l IH]; simpl; [reflexivity|].
  destruct (key y <=? key x); simpl; [reflexivity|]. rewrite IH. reflexivity.
Qed.

(** The keys of the ordered rows are the ordered keys. *)
Lemma order_by_desc_keys (l : list R) :
  map key (order_by_desc key l) = order_by_desc (fun k => k) (map key l).
Proof.
  induction l as [|x l IH]; simpl; [reflexivity|].
  rewrite insert_desc_keys, IH. reflexivity.
Qed.

End OrderBy.

Lemma distinct_NoDup {K : Type} (eqb : K -> K -> bool) (ks : list K) :
  (forall a b, eqb a b = true <-> a = b) ->
  distinct eqb ks = true -> NoDup ks.
Proof.
  intros Heq. induction ks as [|k ks IH]; simpl; intros H; [constructor|].
  apply andb_true_iff in H as [Hk H]. apply negb_true_iff in Hk.
  constructor; [|apply IH; exact H].
  intros Hin. assert (Hex : existsb (eqb k) ks = true).
  { apply existsb_exists. exists k. split; [exact Hin | apply Heq; reflexivity]. }
  rewrite Hex in Hk. discriminate.
Qed.

(** A selection of rows with distinct images has distinct images. *)
Lemma selection_distinct {Row Image : Type} (selected : Row -> bool)
    (image : Row -> Image) (rows : list Row) :
  NoDup (map image rows) -> NoDup (map image (filter selected rows)).
Proof.
  intros Hnd. induction rows as [|row rows IH]; simpl in *; [constructor|].
  inversion Hnd as [|k ks Hrow Hrows]; subst.
  destruct (selected row); simpl; [|apply IH; exact Hrows].
  constructor; [|apply IH; exact Hrows].
  intros Hin. apply Hrow. apply in_map_iff in Hin as (y & Hy & Hin).
  apply filter_In in Hin as [Hin _]. rewrite <- Hy. apply in_map. exact Hin.
Qed.

(** In a consistent database the entries of one user have distinct dates. *)
Lemma own_entries_distinct_dates (d : database) (user_id : Z) :
  consistent d = true ->
  NoDup (map daily_entries.entry_date
           (filter (fun r => daily_entries.user_id r =? user_id) (daily_entries d))).
Proof.
  intros H. apply consistent_spec in H.
  destruct H as (_ & _ & _ & _ & _ & _ & Hda & _).
  apply (distinct_NoDup pair_eqb _ pair_eqb_eq) in Hda.
  apply (selection_distinct (fun r => daily_entries.user_id r =? user_id)
           daily_key) in Hda.
  apply (NoDup_map_inv (fun date => (user_id, date))).
  rewrite map_map.
  erewrite map_ext_in; [exact Hda|].
  intros r Hr. apply filter_In in Hr as [_ Hr]. apply Z.eqb_eq in Hr.
  unfold daily_key. rewrite Hr. reflexivity.
Qed.

Lemma select_entries_in_range (user_id limit : Z) (now : timestamp) (d : database) :
  0 <= limit <= int64_max ->
  select_entries user_id limit now d
  = (d, Return
          (map summary_of
             (firstn (Z.to_nat limit)
                (order_by_desc daily_entries.entry_date
                   (filter (fun r => daily_entries.user_id r =? user_id)
                      (daily_entries d)))))).
Proof.
  intros [Hlo Hhi]. unfold select_entries.
  replace (limit <? - 2 ^ 63) with false by (symmetry; apply Z.ltb_ge; lia).
  replace (int64_max <? limit) with false by (symmetry; apply Z.ltb_ge; lia).
  replace (limit <? 0) with false by (symmetry; apply Z.ltb_ge; lia).
  reflexivity.
Qed.

(** C8: the list of daily entries of a user, for a limit that is a row
    count, holds for each of certain rows its [entry_date], its
    [selected_emotions] and its [created_at], and nothing else.  These rows
    all are entries of that user, in strictly descending order of date, as
    many as the limit allows, and such that every entry of the user that is
    left out is older than every entry listed.  The database is not
    changed, and a request without a limit is served with the limit 30. *)
Theorem list_entries_most_recent (limit : Z) (u : CurrentUser.t) (w : world) :
  faults w = [] ->
  consistent (db w) = true ->
  0 <= limit <= int64_max ->
  let mine := filter (fun r => daily_entries.user_id r =? CurrentUser.id u)
                (daily_entries (db w)) in
  (exists rows,
     snd (list_entries limit u w)
     = Return (map (fun r =>
                      {| EntrySummary.entry_date := daily_entries.entry_date r;
                         EntrySummary.selected_emotions :=
                           daily_entries.selected_emotions r;
                         EntrySummary.created_at := daily_entries.created_at r |})
                 rows)
     /\ (forall r, In r rows ->
           In r (daily_entries (db w))
           /\ daily_entries.user_id r = CurrentUser.id u)
     /\ StronglySorted (newer_by daily_entries.entry_date) rows
     /\ List.length rows = Nat.min (Z.to_nat limit) (List.length mine)
     /\ (forall r r', In r rows -> In r' mine -> ~ In r' rows ->
           daily_entries.entry_date r' < daily_entries.entry_date r))
  /\ db (fst (list_entries limit u w)) = db w
  /\ (forall c, app (GET_entries c None) = app (GET_entries c (Some 30))).
Proof.
  intros Hf Hc Hlimit mine.
  set (sorted := order_by_desc daily_entries.entry_date mine).
  assert (Hperm : Permutation sorted mine) by apply order_by_desc_perm.
  assert (Hsorted : StronglySorted (newer_by daily_entries.entry_date) sorted)
    by (apply order_by_desc_sorted, own_entries_distinct_dates; exact Hc).
  unfold list_entries, bind, fetch.
  rewrite (no_fault_send _ w Hf), select_entries_in_range by exact Hlimit.
  cbn [fst snd db]. fold mine. fold sorted.
  split; [|split; reflexivity].
  exists (firstn (Z.to_nat limit) sorted). split; [reflexivity|].
  split; [|split; [|split]].
  - intros r Hr.
    assert (Hin : In r mine).
    { apply (Permutation_in _ Hperm). rewrite <- (firstn_skipn (Z.to_nat limit) sorted).
      apply in_or_app. left. exact Hr. }
    apply filter_In in Hin as [Hin Hu]. apply Z.eqb_eq in Hu. auto.
  - apply sorted_firstn. exact Hsorted.
  - rewrite length_firstn, (Permutation_length Hperm). reflexivity.
  - intros r r' Hr Hr' Hout.
    apply (sorted_firstn_newer daily_entries.entry_date (Z.to_nat limit) sorted r r');
      [exact Hsorted | exact Hr |].
    apply (Permutation_in _ (Permutation_sym Hperm)) in Hr'.
    rewrite <- (firstn_skipn (Z.to_nat limit) sorted) in Hr'.
    apply in_app_or in Hr' as [Hr' | Hr']; [contradiction | exact Hr'].
Qed.

Lemma list_entries_most_recent_witness :
  let w := fst (serve [(1000, POST_register (account "alice" "hunter2"));
                       (1001, POST_entries (credentials "alice" "hunter2")
                                (feeling 738886 ["calm"]));
                       (1002, POST_entries (credentials "alice" "hunter2")
                                (day 738890 None));
                       (1003, POST_entries (credentials "alice" "hunter2")
                                (day 738887 None))]
                  (fresh_world 1000)) in
  consistent (db w) = true
  /\ exists rows,
       snd (list_entries 2 alice w)
       = Return (map (fun r =>
                        {| EntrySummary.entry_date := daily_entries.entry_date r;
                           EntrySummary.selected_emotions :=
                             daily_entries.selected_emotions r;
                           EntrySummary.created_at := daily_entries.created_at r |})
                   rows)
       /\ List.length rows = 2%nat
       /\ StronglySorted (newer_by daily_entries.entry_date) rows.
Proof.
  intros w.
  assert (Hc : consistent (db w) = true) by (vm_compute; reflexivity).
  assert (Hf : faults w = []) by (vm_compute; reflexivity).
  assert (Hmine : List.length
                    (filter (fun r => daily_entries.user_id r =? CurrentUser.id alice)
                       (daily_entries (db w))) = 3%nat)
    by (vm_compute; reflexivity).
  split; [exact Hc|].
  assert (H2 : 0 <= 2 <= int64_max) by (unfold int64_max; lia).
  destruct (list_entries_most_recent 2 alice w Hf Hc H2)
    as [(rows & Hrows & _ & Hsorted & Hlen & _) _].
  exists rows. split; [exact Hrows|]. split; [|exact Hsorted].
  rewrite Hlen, Hmine. reflexivity.
Defined.

(** What the list holds after three saves: the three columns of each row,
    the newest date first. *)
Example list_entries_columns :
  let run := serve [(1000, POST_register (account "alice" "hunter2"));
                    (1001, POST_entries (credentials "alice" "hunter2")
                             (feeling 738886 ["calm"]));
                    (1002, POST_entries (credentials "alice" "hunter2")
                             (day 738890 None));
                    (1003, POST_entries (credentials "alice" "hunter2")
                             (day 738887 None));
                    (1004, GET_entries (credentials "alice" "hunter2") None)]
               (fresh_world 1000) in
  nth 4 (snd run) (Raise DataError)
  = Return (EntryList
              [ {| EntrySummary.entry_date := 738890;
                   EntrySummary.selected_emotions := [];
                   EntrySummary.created_at := 1002 |};
                {| EntrySummary.entry_date := 738887;
                   EntrySummary.selected_emotions := [];
                   EntrySummary.created_at := 1003 |};
                {| EntrySummary.entry_date := 738886;
                   EntrySummary.selected_emotions := ["calm"];
                   EntrySummary.created_at := 1001 |} ]).
Proof. vm_compute. reflexivity. Qed.

(** The example of the specification: after saves for five distinct dates,
    the list with limit 2 is the two most recent dates, the newest first. *)
Example list_entries_two_of_five :
  let run := serve [(1000, POST_register (account "alice" "hunter2"));
                    (1001, POST_entries (credentials "alice" "hunter2")
                             (day 738886 None));
                    (1002, POST_entries (credentials "alice" "hunter2")
                             (day 738890 None));
                    (1003, POST_entries (credentials "alice" "hunter2")
                             (day 738887 None));
                    (1004, POST_entries (credentials "alice" "hunter2")
                             (day 738889 None));
                    (1005, POST_entries (credentials "alice" "hunter2")
                             (day 738888 None));
                    (1006, GET_entries (credentials "alice" "hunter2") (Some 2))]
               (fresh_world 1000) in
  nth 6 (snd run) (Raise DataError)
  = Return (EntryList
              [ {| EntrySummary.entry_date := 738890;
                   EntrySummary.selected_emotions := [];
                   EntrySummary.created_at := 1002 |};
                {| EntrySummary.entry_date := 738889;
                   EntrySummary.selected_emotions := [];
                   EntrySummary.created_at := 1004 |} ]).
Proof. vm_compute. reflexivity. Qed.

(** Saves for dates the user has no entry for add one row each, in the
    order of the saves. *)
Lemma save_daily_entries_new_dates (u : CurrentUser.t)
    (saves : list (timestamp * DailyEntry.t)) (w : world) :
  faults w = [] ->
  NoDup (map (fun s => DailyEntry.entry_date (snd s)) saves) ->
  Forall (fun s => storable_daily_entry (db w) (snd s) = true) saves ->
  let own (r : daily_entries.row) := daily_entries.user_id r =? CurrentUser.id u in
  (forall r s, In r (filter own (daily_entries (db w))) -> In s saves ->
     daily_entries.entry_date r <> DailyEntry.entry_date (snd s)) ->
  let w' := fst (save_daily_entries u saves w) in
  faults w' = []
  /\ map daily_entries.entry_date (filter own (daily_entries (db w')))
     = map daily_entries.entry_date (filter own (daily_entries (db w)))
       ++ map (fun s => DailyEntry.entry_date (snd s)) saves.
Proof.
  intros Hf Hnd Hok own. revert w Hf Hok.
  induction saves as [|[t e] saves IH]; intros w Hf Hok Hnew; simpl.
  - split; [exact Hf | rewrite app_nil_r; reflexivity].
  - set (w0 := {| db := db w; clock := t; faults := faults w |}).
    inversion Hnd as [|k ks He Hrest]; subst.
    pose proof (Forall_inv Hok) as Hfirst. cbn [snd] in Hfirst.
    pose proof (Forall_inv_tail Hok) as Hothers.
    assert (Hrun : save_daily_entry e u w0
                   = ({| db := fst (upsert_daily_entry (CurrentUser.id u) e t (db w));
                         clock := t; faults := [] |},
                      Return "Entry saved successfully"))
      by (unfold save_daily_entry;
          rewrite (no_fault_execute _ _ w0 Hf)
            by (apply upsert_daily_entry_returns; exact Hfirst);
          reflexivity).
    assert (Hty : energy_level_type
                    (fst (upsert_daily_entry (CurrentUser.id u) e t (db w)))
                  = energy_level_type (db w))
      by (unfold upsert_daily_entry;
          apply (with_arguments_keeps
                   (fun d => energy_level_type d = energy_level_type (db w)));
          reflexivity).
    assert (Habsent : existsb (is_daily_entry (CurrentUser.id u) (DailyEntry.entry_date e))
                        (daily_entries (db w)) = false).
    { destruct (existsb _ _) eqn:E; [|reflexivity].
      apply existsb_exists in E as (r & Hin & Hr).
      apply is_daily_entry_eq in Hr as [Hu Hd].
      exfalso. apply (Hnew r (t, e)); [|left; reflexivity|exact Hd].
      apply filter_In. split; [exact Hin|]. unfold own. rewrite Hu. apply Z.eqb_refl. }
    assert (Htable : exists row,
               daily_entries (fst (upsert_daily_entry (CurrentUser.id u) e t (db w)))
               = daily_entries (db w) ++ [row]
               /\ own row = true
               /\ daily_entries.entry_date row = DailyEntry.entry_date e).
    { pose proof Hfirst as Hfirst'. accepted.
      cbn [fst daily_entries set_daily_entries].
      eexists. split; [apply upsert_absent; exact Habsent|].
      split; [apply Z.eqb_refl | reflexivity]. }
    destruct Htable as (row & Htable & Hown & Hdate).
    destruct (save_daily_entries u saves (fst (save_daily_entry e u w0)))
      as [w' rs] eqn:Erest.
    specialize (IH Hrest (fst (save_daily_entry e u w0))).
    rewrite Erest in IH. rewrite Hrun in IH. cbn [fst db faults] in IH.
    rewrite Htable, filter_app in IH. simpl in IH. rewrite Hown in IH.
    destruct (IH eq_refl) as [Hf' Hdates].
    + eapply Forall_impl; [|exact Hothers]. intros s Hs. cbn beta in Hs.
      rewrite <- Hs. apply storable_daily_entry_same_type. exact Hty.
    + intros r s Hr Hs. apply in_app_or in Hr as [Hr | [<- | []]].
      * apply Hnew; [exact Hr | right; exact Hs].
      * rewrite Hdate. intros Heq. apply He. rewrite Heq.
        apply (in_map (fun s => DailyEntry.entry_date (snd s))). exact Hs.
    + cbn [fst] in *. split; [exact Hf'|].
      rewrite Hdates, map_app, <- app_assoc. simpl. rewrite Hdate. reflexivity.
Qed.

(** After saves for distinct dates by a user who had no entries, each with
    an energy level that fits the column and texts without U+0000, the list
    with a limit is the dates saved, newest first, cut at the limit: with
    five dates and the limit 2, the two most recent ones. *)
Corollary list_entries_after_saves (u : CurrentUser.t)
    (saves : list (timestamp * DailyEntry.t)) (limit : Z) (w : world) :
  faults w = [] ->
  consistent (db w) = true ->
  filter (fun r => daily_entries.user_id r =? CurrentUser.id u)
    (daily_entries (db w)) = [] ->
  NoDup (map (fun s => DailyEntry.entry_date (snd s)) saves) ->
  Forall (fun s => storable_daily_entry (db w) (snd s) = true) saves ->
  0 <= limit <= int64_max ->
  let w' := fst (save_daily_entries u saves w) in
  exists l,
    snd (list_entries limit u w') = Return l
    /\ map EntrySummary.entry_date l
       = firstn (Z.to_nat limit)
           (order_by_desc (fun date => date)
              (map (fun s => DailyEntry.entry_date (snd s)) saves)).
Proof.
  intros Hf Hc Hnone Hnd Hok Hlimit w'.
  destruct (save_daily_entries_new_dates u saves w Hf Hnd Hok) as [Hf' Hdates].
  { rewrite Hnone. intros r s []. }
  fold w' in Hf', Hdates. rewrite Hnone in Hdates. simpl in Hdates.
  unfold list_entries, bind, fetch.
  rewrite (no_fault_send _ w' Hf'), select_entries_in_range by exact Hlimit.
  cbn [fst snd db]. eexists. split; [reflexivity|].
  rewrite map_map. cbn [summary_of EntrySummary.entry_date].
  change (fun x : daily_entries.row => daily_entries.entry_date x)
    with daily_entries.entry_date.
  rewrite <- firstn_map, order_by_desc_keys. f_equal. f_equal. exact Hdates.
Qed.

(** * Further properties of the handlers *)

(** ** Saving, then reading *)

Lemma no_fault_fetchrow {R : Type} (table : database -> list R) (p : R -> bool)
    (w : world) :
  faults w = [] ->
  fetchrow (select_one table p) w
  = ({| db := db w; clock := clock w; faults := [] |}, Return (find p (table (db w)))).
Proof. intros Hf. unfold fetchrow. rewrite (no_fault_send _ w Hf). reflexivity. Qed.

(** A daily entry that was saved, with an energy level that fits the
    column and texts without U+0000, is what the read of its date returns:
    the row of the user with the date and the content of the request,
    whether the save inserted the row or overwrote one. *)
Theorem save_then_get_daily_entry (entry : DailyEntry.t) (u : CurrentUser.t) (w : world) :
  faults w = [] ->
  storable_daily_entry (db w) entry = true ->
  let w1 := fst (save_daily_entry entry u w) in
  exists row,
    snd (get_daily_entry (DailyEntry.entry_date entry) u w1) = Return (Some row)
    /\ entry_of_row row = entry
    /\ daily_entries.user_id row = CurrentUser.id u
    /\ daily_entries.updated_at row = clock w.
Proof.
  intros Hf Hok w1. subst w1. unfold save_daily_entry.
  rewrite (no_fault_execute _ _ w Hf)
    by (apply upsert_daily_entry_returns; exact Hok).
  cbn [fst].
  unfold get_daily_entry, bind. rewrite no_fault_fetchrow by reflexivity.
  cbn [db]. accepted. cbn [fst daily_entries set_daily_entries].
  match goal with
  | |- context [find ?p (insert_on_conflict_update ?p ?upd ?ex ?t)] =>
      rewrite (upsert_find p upd ex t (fun r Hr => Hr) (pair_key_refl _ _));
      destruct (find p t) as [old|] eqn:Hold
  end.
  - apply find_some in Hold as [_ Hold].
    apply (is_daily_entry_eq (CurrentUser.id u) (DailyEntry.entry_date entry)) in Hold.
    destruct Hold as [Hu Hd].
    eexists. split; [reflexivity|]. cbn. rewrite Hd, Hu.
    repeat split. apply entry_of_row_eta.
  - eexists. split; [reflexivity|]. cbn. repeat split. apply entry_of_row_eta.
Qed.

Lemma save_then_get_daily_entry_witness :
  let w := alice_registered 1001 in
  exists row,
    snd (get_daily_entry 738886 alice
           (fst (save_daily_entry (day 738886 (Some 4)) alice w)))
    = Return (Some row)
    /\ entry_of_row row = day 738886 (Some 4).
Proof.
  intros w.
  assert (Hf : faults w = []) by (vm_compute; reflexivity).
  assert (Hok : storable_daily_entry (db w) (day 738886 (Some 4)) = true)
    by (vm_compute; reflexivity).
  destruct (save_then_get_daily_entry (day 738886 (Some 4)) alice w Hf Hok)
    as (row & Hget & Hentry & _).
  exists row. split; [exact Hget | exact Hentry].
Defined.

Lemma save_intro_reflection_run (reflection : IntroReflection.t)
    (u : CurrentUser.t) (w : world) :
  faults w = [] ->
  no_nul (intro_texts reflection) = true ->
  save_intro_reflection reflection u w
  = ({| db := fst (mark_intro_completed (CurrentUser.id u) (clock w)
                     (fst (upsert_intro_reflection (CurrentUser.id u) reflection
                             (clock w) (db w))));
        clock := clock w; faults := [] |},
     Return "Intro reflection saved successfully").
Proof.
  intros Hf Hok. destruct w as [d c fs]. simpl in Hf. subst fs.
  unfold save_intro_reflection, bind, execute, send. cbn [faults db clock tl].
  pose proof (upsert_intro_reflection_returns (CurrentUser.id u) reflection c d Hok)
    as Hr.
  destruct (upsert_intro_reflection (CurrentUser.id u) reflection c d) as [d1 r1].
  cbn [snd] in Hr. subst r1. reflexivity.
Qed.

(** An intro reflection that was saved, with answers free of U+0000, is
    what the read returns, with the seven answers of the request, also when
    it replaces an earlier one: the upsert overwrites every answer. *)
Theorem save_then_get_intro_reflection (reflection : IntroReflection.t)
    (u : CurrentUser.t) (w : world) :
  faults w = [] ->
  no_nul (intro_texts reflection) = true ->
  let w1 := fst (save_intro_reflection reflection u w) in
  snd (get_intro_reflection u w1)
  = Return {| intro_reflection.user_id := CurrentUser.id u;
              intro_reflection.q1_important_events := IntroReflection.q1_important_events reflection;
              intro_reflection.q2_current_thoughts := IntroReflection.q2_current_thoughts reflection;
              intro_reflection.q3_physical_symptoms := IntroReflection.q3_physical_symptoms reflection;
              intro_reflection.q4_current_feelings := IntroReflection.q4_current_feelings reflection;
              intro_reflection.q5_brought_closer := IntroReflection.q5_brought_closer reflection;
              intro_reflection.q6_brought_further := IntroReflection.q6_brought_further reflection;
              intro_reflection.q7_change_in_10_weeks := IntroReflection.q7_change_in_10_weeks reflection |}.
Proof.
  intros Hf Hok w1. subst w1.
  rewrite (save_intro_reflection_run reflection u w Hf Hok). cbn [fst].
  unfold get_intro_reflection, bind. rewrite no_fault_fetchrow by reflexivity.
  cbn [db]. unfold mark_intro_completed. accepted.
  cbn [fst intro_reflection set_users set_intro_reflection].
  match goal with
  | |- context [find ?p (insert_on_conflict_update ?p ?upd ?ex ?t)] =>
      rewrite (upsert_find p upd ex t (fun r Hr => Hr) (Z.eqb_refl _));
      destruct (find p t) as [old|] eqn:Hold
  end; [|reflexivity].
  apply find_some in Hold as [_ Hold]. apply Z.eqb_eq in Hold.
  cbn. rewrite Hold. reflexivity.
Qed.

Lemma save_then_get_intro_reflection_witness :
  let w1 := later 2000 (save_intro_reflection (intro "tired") alice
                          (alice_registered 1001)) in
  let w2 := fst (save_intro_reflection (intro "rested") alice w1) in
  option_map intro_reflection.q4_current_feelings
    (match snd (get_intro_reflection alice w2) with
     | Return r => Some r
     | Raise _ => None
     end) = Some "rested".
Proof.
  intros w1 w2. unfold w2.
  assert (Hf : faults w1 = []) by (vm_compute; reflexivity).
  rewrite (save_then_get_intro_reflection (intro "rested") alice w1 Hf eq_refl).
  reflexivity.
Defined.

(** A final reflection that was saved, with answers free of U+0000, is
    what the read returns, with the eight answers of the request, also when
    it replaces an earlier one. *)
Theorem save_then_get_final_reflection (reflection : FinalReflection.t)
    (u : CurrentUser.t) (w : world) :
  faults w = [] ->
  no_nul (final_texts reflection) = true ->
  let w1 := fst (save_final_reflection reflection u w) in
  snd (get_final_reflection u w1)
  = Return (Some {| final_reflection.user_id := CurrentUser.id u;
              final_reflection.q1_starting_point := FinalReflection.q1_starting_point reflection;
              final_reflection.q2_feeling_and_goal := FinalReflection.q2_feeling_and_goal reflection;
              final_reflection.q3_journey_obstacles := FinalReflection.q3_journey_obstacles reflection;
              final_reflection.q4_arrival_changes := FinalReflection.q4_arrival_changes reflection;
              final_reflection.q5_self_learning := FinalReflection.q5_self_learning reflection;
              final_reflection.q6_future_path := FinalReflection.q6_future_path reflection;
              final_reflection.q7_journaling_impact := FinalReflection.q7_journaling_impact reflection;
              final_reflection.q8_celebration := FinalReflection.q8_celebration reflection |}).
Proof.
  intros Hf Hok w1. subst w1. unfold save_final_reflection.
  rewrite (no_fault_execute _ _ w Hf)
    by (apply upsert_final_reflection_returns; exact Hok).
  cbn [fst].
  unfold get_final_reflection, bind. rewrite no_fault_fetchrow by reflexivity.
  cbn [db]. accepted.
  cbn [fst final_reflection set_final_reflection].
  match goal with
  | |- context [find ?p (insert_on_conflict_update ?p ?upd ?ex ?t)] =>
      rewrite (upsert_find p upd ex t (fun r Hr => Hr) (Z.eqb_refl _));
      destruct (find p t) as [old|] eqn:Hold
  end; [|reflexivity].
  apply find_some in Hold as [_ Hold]. apply Z.eqb_eq in Hold.
  cbn. rewrite Hold. reflexivity.
Qed.

Lemma save_then_get_final_reflection_witness :
  let w1 := later 2000 (save_final_reflection (final "begun") alice
                          (alice_registered 1001)) in
  let w2 := fst (save_final_reflection (final "done") alice w1) in
  option_map (option_map final_reflection.q8_celebration)
    (match snd (get_final_reflection alice w2) with
     | Return r => Some r
     | Raise _ => None
     end) = Some (Some "done").
Proof.
  intros w1 w2. unfold w2.
  assert (Hf : faults w1 = []) by (vm_compute; reflexivity).
  rewrite (save_then_get_final_reflection (final "done") alice w1 Hf eq_refl).
  reflexivity.
Defined.

Lemma upsert_weekly_reflection_week_number_type (user_id : Z)
    (reflection : WeeklyReflection.t) (now : timestamp) (d : database) :
  week_number_type (fst (upsert_weekly_reflection user_id reflection now d))
  = week_number_type d.
Proof.
  unfold upsert_weekly_reflection.
  apply (with_arguments_keeps (fun d' => week_number_type d' = week_number_type d));
    reflexivity.
Qed.

(** The first save of a week, with a week number that fits the column and
    texts without U+0000, stores every field of the request, the two dates
    included, and the read of that week returns them. *)
Theorem first_save_then_get_weekly_reflection (reflection : WeeklyReflection.t)
    (u : CurrentUser.t) (w : world) :
  faults w = [] ->
  storable_weekly_reflection (db w) reflection = true ->
  find (is_weekly_reflection (CurrentUser.id u)
          (WeeklyReflection.week_number reflection))
    (weekly_reflections (db w)) = None ->
  let w1 := fst (save_weekly_reflection reflection u w) in
  snd (get_weekly_reflection (WeeklyReflection.week_number reflection) u w1)
  = Return (Some {| weekly_reflections.user_id := CurrentUser.id u;
              weekly_reflections.week_number := WeeklyReflection.week_number reflection;
              weekly_reflections.week_start_date := WeeklyReflection.week_start_date reflection;
              weekly_reflections.week_end_date := WeeklyReflection.week_end_date reflection;
              weekly_reflections.current_mood := WeeklyReflection.current_mood reflection;
              weekly_reflections.important_results := WeeklyReflection.important_results reflection;
              weekly_reflections.important_realizations := WeeklyReflection.important_realizations reflection;
              weekly_reflections.proud_1 := WeeklyReflection.proud_1 reflection;
              weekly_reflections.proud_2 := WeeklyReflection.proud_2 reflection;
              weekly_reflections.proud_3 := WeeklyReflection.proud_3 reflection;
              weekly_reflections.proud_4 := WeeklyReflection.proud_4 reflection;
              weekly_reflections.proud_5 := WeeklyReflection.proud_5 reflection;
              weekly_reflections.change_phase := WeeklyReflection.change_phase reflection;
              weekly_reflections.change_reflection := WeeklyReflection.change_reflection reflection;
              weekly_reflections.next_week_focus := WeeklyReflection.next_week_focus reflection;
              weekly_reflections.task_1 := WeeklyReflection.task_1 reflection;
              weekly_reflections.task_2 := WeeklyReflection.task_2 reflection;
              weekly_reflections.task_3 := WeeklyReflection.task_3 reflection;
              weekly_reflections.task_4 := WeeklyReflection.task_4 reflection;
              weekly_reflections.task_5 := WeeklyReflection.task_5 reflection |}).
Proof.
  intros Hf Hok Hnone w1. subst w1.
  pose proof (storable_weekly_reflection_spec _ _ Hok) as [Hrange _].
  unfold save_weekly_reflection.
  rewrite (no_fault_execute _ _ w Hf)
    by (apply upsert_weekly_reflection_returns; exact Hok).
  cbn [fst].
  unfold get_weekly_reflection, bind, fetchrow.
  rewrite no_fault_send by reflexivity.
  cbn [db clock]. unfold select_weekly_reflection.
  rewrite with_arguments_accepted
    by (reflexivity
        || (rewrite upsert_weekly_reflection_week_number_type; exact Hrange)).
  cbn [fst snd]. accepted.
  cbn [fst weekly_reflections set_weekly_reflections].
  change (fun r : weekly_reflections.row =>
            (weekly_reflections.user_id r =? CurrentUser.id u)
            && (weekly_reflections.week_number r
                =? WeeklyReflection.week_number reflection))
    with (is_weekly_reflection (CurrentUser.id u)
            (WeeklyReflection.week_number reflection)).
  match goal with
  | |- context [find ?p (insert_on_conflict_update ?p ?upd ?ex ?t)] =>
      rewrite (upsert_find p upd ex t (fun r Hr => Hr) (pair_key_refl _ _))
  end.
  rewrite Hnone. reflexivity.
Qed.

Lemma first_save_then_get_weekly_reflection_witness :
  let w1 := fst (save_weekly_reflection (week 1 738886 738892 (Some "calm")) alice
                   (alice_registered 1001)) in
  option_map (option_map weekly_reflections.week_end_date)
    (match snd (get_weekly_reflection 1 alice w1) with
     | Return r => Some r
     | Raise _ => None
     end) = Some (Some 738892).
Proof.
  intros w1. unfold w1.
  assert (Hf : faults (alice_registered 1001) = []) by (vm_compute; reflexivity).
  assert (Hok : storable_weekly_reflection (db (alice_registered 1001))
                  (week 1 738886 738892 (Some "calm")) = true)
    by (vm_compute; reflexivity).
  assert (Hnone : find (is_weekly_reflection (CurrentUser.id alice)
                          (WeeklyReflection.week_number
                             (week 1 738886 738892 (Some "calm"))))
                    (weekly_reflections (db (alice_registered 1001))) = None)
    by (vm_compute; reflexivity).
  change (get_weekly_reflection 1)
    with (get_weekly_reflection
            (WeeklyReflection.week_number (week 1 738886 738892 (Some "calm")))).
  rewrite (first_save_then_get_weekly_reflection
             (week 1 738886 738892 (Some "calm"))
             alice (alice_registered 1001) Hf Hok Hnone).
  reflexivity.
Defined.

(** ** Listing the weekly reflections *)

(** In a consistent database the reflections of one user have distinct
    week numbers. *)
Lemma own_reflections_distinct_weeks (d : database) (user_id : Z) :
  consistent d = true ->
  NoDup (map weekly_reflections.week_number
           (filter (fun r => weekly_reflections.user_id r =? user_id)
              (weekly_reflections d))).
Proof.
  intros H. apply consistent_spec in H.
  destruct H as (_ & _ & _ & _ & _ & _ & _ & Hwe & _).
  apply (distinct_NoDup pair_eqb _ pair_eqb_eq) in Hwe.
  apply (selection_distinct (fun r => weekly_reflections.user_id r =? user_id)
           weekly_key) in Hwe.
  apply (NoDup_map_inv (fun n => (user_id, n))).
  rewrite map_map.
  erewrite map_ext_in; [exact Hwe|].
  intros r Hr. apply filter_In in Hr as [_ Hr]. apply Z.eqb_eq in Hr.
  unfold weekly_key. rewrite Hr. reflexivity.
Qed.

(** The list of weekly reflections is all the reflections of the user and
    no others, each once, in strictly descending order of week number; the
    database is not changed. *)
Theorem list_weekly_reflections_complete (u : CurrentUser.t) (w : world) :
  faults w = [] ->
  consistent (db w) = true ->
  let mine := filter (fun r => weekly_reflections.user_id r =? CurrentUser.id u)
                (weekly_reflections (db w)) in
  exists rows,
    list_weekly_reflections u w
    = ({| db := db w; clock := clock w; faults := [] |}, Return rows)
    /\ Permutation rows mine
    /\ StronglySorted (newer_by weekly_reflections.week_number) rows.
Proof.
  intros Hf Hc mine. unfold list_weekly_reflections, bind, fetch.
  rewrite (no_fault_send _ w Hf). unfold select_weekly_reflections.
  cbn [fst snd]. eexists. split; [reflexivity|]. split.
  - apply order_by_desc_perm.
  - apply order_by_desc_sorted, own_reflections_distinct_weeks. exact Hc.
Qed.

Lemma list_weekly_reflections_complete_witness :
  let w := fst (serve [(1000, POST_register (account "alice" "hunter2"));
                       (1001, POST_weekly_reflection (credentials "alice" "hunter2")
                                (week 1 100 106 None));
                       (1002, POST_weekly_reflection (credentials "alice" "hunter2")
                                (week 3 114 120 None));
                       (1003, POST_weekly_reflection (credentials "alice" "hunter2")
                                (week 2 107 113 None))]
                  (fresh_world 1000)) in
  consistent (db w) = true
  /\ exists rows,
       snd (list_weekly_reflections alice w) = Return rows
       /\ List.length rows = 3%nat.
Proof.
  intros w.
  assert (Hc : consistent (db w) = true) by (vm_compute; reflexivity).
  assert (Hf : faults w = []) by (vm_compute; reflexivity).
  assert (Hn : List.length (filter (fun r => weekly_reflections.user_id r =? 1)
                              (weekly_reflections (db w))) = 3%nat)
    by (vm_compute; reflexivity).
  split; [exact Hc|].
  destruct (list_weekly_reflections_complete alice w Hf Hc) as (rows & Hrun & Hperm & _).
  exists rows. split; [rewrite Hrun; reflexivity|].
  rewrite (Permutation_length Hperm). exact Hn.
Defined.

(** ** Rows under an update *)

Lemma find_update_where {R : Type} (p q : R -> bool) (set : R -> R) (t : list R) :
  (forall r, p (set r) = p r) ->
  find p (update_where q set t)
  = option_map (fun r => if q r then set r else r) (find p t).
Proof.
  intros H. unfold update_where. induction t as [|r t IH]; simpl; [reflexivity|].
  destruct (q r) eqn:Eq.
  - rewrite H. destruct (p r); simpl; [rewrite Eq; reflexivity | exact IH].
  - destruct (p r); simpl; [rewrite Eq; reflexivity | exact IH].
Qed.

Lemma filter_update_where_other {R : Type} (p q : R -> bool) (set : R -> R) (t : list R) :
  (forall r, q r = true -> p r = false /\ p (set r) = false) ->
  filter p (update_where q set t) = filter p t.
Proof.
  intros H. unfold update_where. induction t as [|r t IH]; simpl; [reflexivity|].
  destruct (q r) eqn:Eq.
  - destruct (H r Eq) as [-> ->]. exact IH.
  - rewrite IH. reflexivity.
Qed.

(** ** A registration, and what can be done with it at once *)

Lemma existsb_false_find {R : Type} (p : R -> bool) (t : list R) :
  existsb p t = false -> find p t = None.
Proof.
  induction t as [|r t IH]; simpl; [reflexivity|].
  destruct (p r); simpl; [discriminate | exact IH].
Qed.

Lemma find_after {R : Type} (p : R -> bool) (t t' : list R) :
  find p t = None -> find p (t ++ t') = find p t'.
Proof.
  induction t as [|r t IH]; simpl; [reflexivity|].
  destruct (p r); [discriminate | exact IH].
Qed.

Lemma fresh_id_is_no_user (d : database) :
  consistent d = true ->
  existsb (fun r => users.id r =? users_id_seq d + 1) (users d) = false.
Proof.
  intros H. apply consistent_spec in H.
  destruct H as (_ & _ & Hseq & _).
  rewrite <- (existsb_key_map users.id Z.eqb Z.eqb_eq).
  apply below_fresh; exact Hseq.
Qed.

(** The world after a registration that goes through. *)
Lemma register_run (user : UserCreate.t) (w : world) :
  faults w = [] ->
  consistent (db w) = true ->
  has_nul (UserCreate.username user) = false ->
  username_taken (db w) (UserCreate.username user) = false ->
  register user w
  = ({| db :=
          set_user_settings
            (set_users (db w)
               (users (db w)
                ++ [ {| users.id := users_id_seq (db w) + 1;
                        users.username := UserCreate.username user;
                        users.password_hash := hash_password (UserCreate.password user);
                        users.intro_completed := false;
                        users.created_at := clock w |} ])
               (users_id_seq (db w) + 1))
            (user_settings (db w)
             ++ [ {| user_settings.user_id := users_id_seq (db w) + 1;
                     user_settings.emotion_wheel := emotion_wheel_default (db w);
                     user_settings.updated_at := clock w |} ]);
        clock := clock w; faults := [] |},
     Return ("User created successfully", users_id_seq (db w) + 1)).
Proof.
  intros Hf Hc Hn Hfree. pose proof (fresh_id_has_no_settings _ Hc) as Hfresh.
  destruct w as [d c fs]. simpl in *. subst fs.
  unfold username_taken in Hfree.
  unfold register, try_except, bind, fetchval, execute, send, insert_user,
    insert_user_settings, ret.
  cbn [faults db clock].
  rewrite with_arguments_accepted
    by (first [rewrite registration_texts; exact Hn | reflexivity]).
  rewrite Hfree. simpl. rewrite Hfresh. reflexivity.
Qed.

(** The credential check that finds a row. *)
Lemma get_current_user_found (c : HTTPBasicCredentials.t) (w : world) (row : users.row) :
  faults w = [] ->
  has_nul (HTTPBasicCredentials.username c) = false ->
  find (credentials_match (HTTPBasicCredentials.username c)
          (hash_password (HTTPBasicCredentials.password c))) (users (db w))
  = Some row ->
  get_current_user c w
  = ({| db := db w; clock := clock w; faults := [] |}, Return (identity_of row)).
Proof.
  intros Hf Hn Hfind.
  destruct (get_current_user_run c w) as (Hdb & Hclock & Hfs & _ & Hrun).
  specialize (Hrun Hf).
  rewrite Hn, Hfind in Hrun. rewrite Hf in Hfs. cbn [tl] in Hfs.
  destruct (get_current_user _ w) as [[d1 c1 f1] r].
  cbn [fst snd db clock faults] in *. subst. reflexivity.
Qed.

Lemma find_registered (t : list users.row) (row : users.row) :
  existsb (fun r => String.eqb (users.username r) (users.username row)) t = false ->
  find (credentials_match (users.username row) (users.password_hash row)) (t ++ [row])
  = Some row.
Proof.
  intros Hfree. rewrite find_after by (apply no_match_without_username; exact Hfree).
  simpl. unfold credentials_match. rewrite !String.eqb_refl. reflexivity.
Qed.

(** After the registration of a user name that is free and holds no
    U+0000, the same user name and password authenticate, as the user with
    the id that the registration returned and with the intro not
    completed. *)
Theorem register_then_authenticate (user : UserCreate.t) (w : world) :
  faults w = [] ->
  consistent (db w) = true ->
  has_nul (UserCreate.username user) = false ->
  username_taken (db w) (UserCreate.username user) = false ->
  let w1 := fst (register user w) in
  snd (register user w)
  = Return ("User created successfully", users_id_seq (db w) + 1)
  /\ snd (get_current_user
            (credentials (UserCreate.username user) (UserCreate.password user)) w1)
     = Return {| CurrentUser.id := users_id_seq (db w) + 1;
                 CurrentUser.username := UserCreate.username user;
                 CurrentUser.intro_completed := false |}.
Proof.
  intros Hf Hc Hn Hfree w1. subst w1.
  rewrite (register_run user w Hf Hc Hn Hfree). cbn [fst snd].
  split; [reflexivity|].
  match goal with
  | |- context [get_current_user _ ?w1] =>
      match w1 with
      | context [users (db w) ++ [?row]] =>
          rewrite (get_current_user_found
                     (credentials (UserCreate.username user)
                        (UserCreate.password user))
                     w1 row eq_refl Hn
                     (find_registered (users (db w)) row Hfree))
      end
  end.
  reflexivity.
Qed.

Lemma register_then_authenticate_witness :
  let w1 := fst (register (account "alice" "hunter2") (fresh_world 1000)) in
  snd (get_current_user (credentials "alice" "hunter2") w1) = Return alice.
Proof.
  intros w1.
  destruct (register_then_authenticate (account "alice" "hunter2") (fresh_world 1000)
              eq_refl eq_refl eq_refl eq_refl) as [_ H].
  exact H.
Defined.

(** After the registration of a user name that is free and holds no
    U+0000, the status of the new user shows the id returned, the name
    registered, the intro not completed and the time of the registration. *)
Theorem register_then_get_user_status (user : UserCreate.t) (w : world) :
  faults w = [] ->
  consistent (db w) = true ->
  has_nul (UserCreate.username user) = false ->
  username_taken (db w) (UserCreate.username user) = false ->
  let w1 := fst (register user w) in
  snd (app (GET_user_status
              (credentials (UserCreate.username user) (UserCreate.password user))) w1)
  = Return (Status {| UserStatus.user_id := users_id_seq (db w) + 1;
                      UserStatus.username := UserCreate.username user;
                      UserStatus.intro_completed := false;
                      UserStatus.created_at := clock w |}).
Proof.
  intros Hf Hc Hn Hfree w1. subst w1.
  rewrite (register_run user w Hf Hc Hn Hfree). cbn [fst snd app].
  unfold Depends, bind at 1.
  match goal with
  | |- context [get_current_user _ ?w1] =>
      match w1 with
      | context [users (db w) ++ [?row]] =>
          rewrite (get_current_user_found
                     (credentials (UserCreate.username user)
                        (UserCreate.password user))
                     w1 row eq_refl Hn
                     (find_registered (users (db w)) row Hfree))
      end
  end.
  unfold fmap, get_user_status, bind. rewrite no_fault_fetchrow by reflexivity.
  cbn [db users set_users set_user_settings identity_of CurrentUser.id users.id].
  rewrite find_after
    by (apply existsb_false_find, fresh_id_is_no_user; exact Hc).
  simpl. rewrite Z.eqb_refl. reflexivity.
Qed.

Lemma register_then_get_user_status_witness :
  let w1 := fst (register (account "alice" "hunter2") (fresh_world 1000)) in
  snd (app (GET_user_status (credentials "alice" "hunter2")) w1)
  = Return (Status {| UserStatus.user_id := 1;
                      UserStatus.username := "alice";
                      UserStatus.intro_completed := false;
                      UserStatus.created_at := 1000 |}).
Proof.
  intros w1.
  exact (register_then_get_user_status (account "alice" "hunter2") (fresh_world 1000)
           eq_refl eq_refl eq_refl eq_refl).
Defined.

(** After the registration of a user name that is free and holds no
    U+0000, the read of the emotion wheel of the new user answers with the
    default document and not with 404. *)
Theorem register_then_get_emotion_wheel (user : UserCreate.t) (w : world)
    (u : CurrentUser.t) :
  faults w = [] ->
  consistent (db w) = true ->
  has_nul (UserCreate.username user) = false ->
  username_taken (db w) (UserCreate.username user) = false ->
  CurrentUser.id u = users_id_seq (db w) + 1 ->
  snd (get_emotion_wheel u (fst (register user w)))
  = Return (emotion_wheel_default (db w)).
Proof.
  intros Hf Hc Hn Hfree Hid.
  rewrite (register_run user w Hf Hc Hn Hfree). cbn [fst].
  unfold get_emotion_wheel, bind. rewrite no_fault_fetchrow by reflexivity.
  cbn [db user_settings set_user_settings]. rewrite Hid.
  rewrite find_after
    by (apply existsb_false_find, fresh_id_has_no_settings; exact Hc).
  simpl. rewrite Z.eqb_refl. reflexivity.
Qed.

Lemma register_then_get_emotion_wheel_witness :
  snd (get_emotion_wheel alice
         (fst (register (account "alice" "hunter2") (fresh_world 1000))))
  = Return "{}".
Proof.
  exact (register_then_get_emotion_wheel (account "alice" "hunter2")
           (fresh_world 1000) alice eq_refl eq_refl eq_refl eq_refl eq_refl).
Defined.

(** ** What a request leaves alone *)

Section Frame.

Variable other : Z.
Variable d0 : database.

Let kept (d : database) : Prop := rows_of other d = rows_of other d0.

Lemma upsert_other_rows {R : Type} (owner : R -> Z) (user_id : Z)
    (conflicts : R -> bool) (do_update : R -> R) (excluded : R) (t : list R) :
  user_id <> other ->
  (forall r, conflicts r = true -> owner r = user_id /\ owner (do_update r) = user_id) ->
  owner excluded = user_id ->
  filter (fun r => owner r =? other)
    (insert_on_conflict_update conflicts do_update excluded t)
  = filter (fun r => owner r =? other) t.
Proof.
  intros Hne Hown Hex.
  assert (E : (user_id =? other) = false) by (apply Z.eqb_neq; exact Hne).
  apply upsert_filter_other.
  - intros r Hr. destruct (Hown r Hr) as [-> ->]. auto.
  - rewrite Hex. exact E.
Qed.

Lemma update_other_rows {R : Type} (owner : R -> Z) (user_id : Z)
    (set : R -> R) (t : list R) :
  user_id <> other ->
  (forall r, owner (set r) = owner r) ->
  filter (fun r => owner r =? other)
    (update_where (fun r => owner r =? user_id) set t)
  = filter (fun r => owner r =? other) t.
Proof.
  intros Hne Hown.
  assert (E : (user_id =? other) = false) by (apply Z.eqb_neq; exact Hne).
  apply filter_update_where_other.
  intros r Hr. apply Z.eqb_eq in Hr. rewrite Hown, Hr. auto.
Qed.

Lemma key_owner (a b x y : Z) : (a =? x) && (b =? y) = true -> a = x.
Proof. rewrite andb_true_iff, Z.eqb_eq. tauto. Qed.

Lemma upsert_intro_reflection_frame (user_id : Z) (b : IntroReflection.t)
    (now : timestamp) (d : database) :
  user_id <> other ->
  rows_of other (fst (upsert_intro_reflection user_id b now d)) = rows_of other d.
Proof.
  intros Hne. unfold upsert_intro_reflection.
  apply (with_arguments_keeps (fun d' => rows_of other d' = rows_of other d));
    [reflexivity|].
  unfold rows_of. simpl.
  rewrite (upsert_other_rows intro_reflection.user_id user_id); auto.
  intros r Hr. apply Z.eqb_eq in Hr. auto.
Qed.

Lemma mark_intro_completed_frame (user_id : Z) (now : timestamp) (d : database) :
  user_id <> other ->
  rows_of other (fst (mark_intro_completed user_id now d)) = rows_of other d.
Proof.
  intros Hne. unfold rows_of, mark_intro_completed. simpl.
  rewrite (update_other_rows users.id user_id); auto.
Qed.

Lemma upsert_daily_entry_frame (user_id : Z) (b : DailyEntry.t)
    (now : timestamp) (d : database) :
  user_id <> other ->
  rows_of other (fst (upsert_daily_entry user_id b now d)) = rows_of other d.
Proof.
  intros Hne. unfold upsert_daily_entry.
  apply (with_arguments_keeps (fun d' => rows_of other d' = rows_of other d));
    [reflexivity|].
  unfold rows_of. simpl.
  rewrite (upsert_other_rows daily_entries.user_id user_id); auto.
  intros r Hr. apply key_owner in Hr. auto.
Qed.

Lemma upsert_weekly_reflection_frame (user_id : Z) (b : WeeklyReflection.t)
    (now : timestamp) (d : database) :
  user_id <> other ->
  rows_of other (fst (upsert_weekly_reflection user_id b now d)) = rows_of other d.
Proof.
  intros Hne. unfold upsert_weekly_reflection.
  apply (with_arguments_keeps (fun d' => rows_of other d' = rows_of other d));
    [reflexivity|].
  unfold rows_of. simpl.
  rewrite (upsert_other_rows weekly_reflections.user_id user_id); auto.
  intros r Hr. apply key_owner in Hr. auto.
Qed.

Lemma upsert_final_reflection_frame (user_id : Z) (b : FinalReflection.t)
    (now : timestamp) (d : database) :
  user_id <> other ->
  rows_of other (fst (upsert_final_reflection user_id b now d)) = rows_of other d.
Proof.
  intros Hne. unfold upsert_final_reflection.
  apply (with_arguments_keeps (fun d' => rows_of other d' = rows_of other d));
    [reflexivity|].
  unfold rows_of. simpl.
  rewrite (upsert_other_rows final_reflection.user_id user_id); auto.
  intros r Hr. apply Z.eqb_eq in Hr. auto.
Qed.

Lemma update_user_settings_frame (j : json_argument) (user_id : Z)
    (now : timestamp) (d : database) :
  user_id <> other ->
  rows_of other (fst (update_user_settings j user_id now d)) = rows_of other d.
Proof.
  intros Hne. unfold update_user_settings.
  destruct (encode_json_argument j) as [text|e]; [|reflexivity].
  apply (with_arguments_keeps (fun d' => rows_of other d' = rows_of other d));
    [reflexivity|].
  unfold rows_of. simpl.
  rewrite (update_other_rows user_settings.user_id user_id); auto.
Qed.

Ltac frame_steps :=
  repeat first
    [ apply triple_ret
    | apply triple_raise
    | apply triple_send
    | eapply triple_bind with (I := fun _ => kept)
    | progress intros ];
  unfold kept, select_one, select_weekly_reflections in *;
  cbn [fst snd];
  rewrite ?select_entries_unchanged, ?select_weekly_reflection_unchanged,
    ?upsert_intro_reflection_frame, ?mark_intro_completed_frame,
    ?upsert_daily_entry_frame, ?upsert_weekly_reflection_frame,
    ?upsert_final_reflection_frame, ?update_user_settings_frame by assumption;
  auto.

(** A handler run for one user keeps the rows of any other user. *)
Lemma handlers_frame (r : request) (c : HTTPBasicCredentials.t)
    (h : CurrentUser.t -> M response) (u : CurrentUser.t) :
  endpoint r = Some (c, h) ->
  CurrentUser.id u <> other ->
  triple kept (h u) (fun _ => kept).
Proof.
  destruct r; simpl; intros E Hne; inversion E; subst; clear E;
    unfold fmap, get_user_status, save_intro_reflection, get_intro_reflection,
      save_daily_entry, get_daily_entry, list_entries, save_weekly_reflection,
      get_weekly_reflection, list_weekly_reflections, save_final_reflection,
      get_final_reflection, get_emotion_wheel, update_emotion_wheel,
      execute, fetchrow, fetch;
    (eapply triple_bind with (I := fun _ => kept); [ | frame_steps | frame_steps]);
    (eapply triple_bind with (I := fun _ => kept); [frame_steps | | frame_steps]);
    try (intros [x|]); frame_steps.
Qed.

End Frame.

(** Whatever a request to a protected route does, with or without faults,
    it does to the rows of the user it authenticates: the user row, the
    settings, the reflections and the entries of every other user are after
    the request what they were before. *)
Theorem requests_keep_other_users_rows (r : request) (c : HTTPBasicCredentials.t)
    (h : CurrentUser.t -> M response) (w : world) (other : Z) :
  endpoint r = Some (c, h) ->
  (forall u, snd (get_current_user c w) = Return u -> CurrentUser.id u <> other) ->
  rows_of other (db (fst (app r w))) = rows_of other (db w).
Proof.
  intros E Hne.
  assert (Happ : app r = Depends get_current_user h c)
    by (destruct r; simpl in E; inversion E; reflexivity).
  rewrite Happ. unfold Depends, bind.
  destruct (get_current_user_run c w) as (Hdb & _).
  destruct (get_current_user c w) as [w1 [u|e]]; cbn [fst snd] in *.
  - apply (handlers_frame other (db w) r c h u E (Hne u eq_refl) w1).
    rewrite Hdb. reflexivity.
  - rewrite Hdb. reflexivity.
Qed.

Lemma requests_keep_other_users_rows_witness :
  let w := at_time 2000
             (fst (serve [(1000, POST_register (account "alice" "hunter2"));
                          (1001, POST_register (account "bob" "swordfish"));
                          (1002, POST_entries (credentials "bob" "swordfish")
                                   (day 738886 (Some 5)))]
                     (fresh_world 1000))) in
  let r := POST_entries (credentials "alice" "hunter2") (day 738886 (Some 2)) in
  snd (get_current_user (credentials "alice" "hunter2") w) = Return alice
  /\ rows_of 2 (db (fst (app r w))) = rows_of 2 (db w).
Proof.
  intros w r.
  assert (Hrun : snd (get_current_user (credentials "alice" "hunter2") w)
                 = Return alice) by (vm_compute; reflexivity).
  split; [exact Hrun|].
  refine (requests_keep_other_users_rows r
            (credentials "alice" "hunter2")
            (fun u => fmap Message (save_daily_entry (day 738886 (Some 2)) u))
            w 2 eq_refl _).
  intros u Hu. rewrite Hrun in Hu.
  injection Hu as <-. discriminate.
Defined.

(** ** Reads *)

Lemma get_current_user_unchanged (c : HTTPBasicCredentials.t) :
  forall d0, triple (fun d => d = d0) (get_current_user c) (fun _ d => d = d0).
Proof.
  intros d0 w Hw. destruct (get_current_user_run c w) as (Hdb & _).
  rewrite Hdb. exact Hw.
Qed.

(** A GET request does not change the database, whoever sends it, whatever
    it answers and whatever faults strike. *)
Theorem get_requests_change_nothing (r : request) (w : world) :
  is_get r = true -> db (fst (app r w)) = db w.
Proof.
  intros Hget.
  assert (H : triple (fun d => d = db w) (app r) (fun _ d => d = db w)).
  { destruct r; try discriminate; simpl;
      unfold Depends, fmap, get_user_status, get_intro_reflection, get_daily_entry,
        list_entries, get_weekly_reflection, list_weekly_reflections,
        get_final_reflection, get_emotion_wheel, health_check, fetchrow, fetch;
      repeat first
        [ apply get_current_user_unchanged
        | apply triple_ret
        | apply triple_raise
        | apply triple_send
        | eapply triple_bind with (I := fun _ d => d = db w)
        | progress intros
        | match goal with |- triple _ (match ?x with _ => _ end) _ => destruct x end ];
      unfold select_one, select_weekly_reflections; cbn [fst snd];
      rewrite ?select_entries_unchanged, ?select_weekly_reflection_unchanged;
      auto. }
  apply (H w). reflexivity.
Qed.

Lemma get_requests_change_nothing_witness :
  let w := fst (serve [(1000, POST_register (account "alice" "hunter2"))]
                  (fresh_world 1000)) in
  db (fst (app (GET_entries (credentials "alice" "hunter2") (Some (-1))) w)) = db w.
Proof.
  intros w.
  exact (get_requests_change_nothing
           (GET_entries (credentials "alice" "hunter2") (Some (-1))) w eq_refl).
Defined.

(** What a read returns is a stored row of the user it is run for, under
    the key asked for; faults can make a read raise, not return another
    row. *)
Theorem reads_return_own_rows (u : CurrentUser.t) (w : world) :
  (forall r, snd (get_intro_reflection u w) = Return r ->
     In r (intro_reflection (db w)) /\ intro_reflection.user_id r = CurrentUser.id u)
  /\ (forall entry_date r,
        snd (get_daily_entry entry_date u w) = Return (Some r) ->
        In r (daily_entries (db w))
        /\ daily_entries.user_id r = CurrentUser.id u
        /\ daily_entries.entry_date r = entry_date)
  /\ (forall week_number r,
        snd (get_weekly_reflection week_number u w) = Return (Some r) ->
        In r (weekly_reflections (db w))
        /\ weekly_reflections.user_id r = CurrentUser.id u
        /\ weekly_reflections.week_number r = week_number)
  /\ (forall r, snd (get_final_reflection u w) = Return (Some r) ->
        In r (final_reflection (db w)) /\ final_reflection.user_id r = CurrentUser.id u)
  /\ (forall j, snd (get_emotion_wheel u w) = Return j ->
        exists r, In r (user_settings (db w))
                  /\ user_settings.user_id r = CurrentUser.id u
                  /\ user_settings.emotion_wheel r = j)
  /\ (forall s, snd (get_user_status u w) = Return s ->
        exists r, In r (users (db w))
                  /\ users.id r = CurrentUser.id u
                  /\ UserStatus.user_id s = users.id r
                  /\ UserStatus.username s = users.username r
                  /\ UserStatus.intro_completed s = users.intro_completed r
                  /\ UserStatus.created_at s = users.created_at r).
Proof.
  unfold get_intro_reflection, get_daily_entry, get_weekly_reflection,
    get_final_reflection, get_emotion_wheel, get_user_status,
    bind, fetchrow, send, select_one, select_weekly_reflection, with_arguments.
  destruct w as [d c fs]. simpl.
  repeat split; intros;
    destruct fs as [|[|] fs]; simpl in *; try discriminate;
    try match goal with
        | H : context [in_range ?t ?n] |- _ =>
            destruct (in_range t n); simpl in H; try discriminate
        end;
    match goal with
    | H : snd (match find ?p ?t with _ => _ end _) = _ |- _ =>
        destruct (find p t) as [row|] eqn:Hfind; simpl in H; try discriminate;
        inversion H; subst; clear H;
        apply find_some in Hfind as [Hin Hkey]
    end;
    try (apply andb_true_iff in Hkey as [Hk1 Hk2]; apply Z.eqb_eq in Hk1, Hk2);
    try (apply Z.eqb_eq in Hkey);
    eauto 10.
Qed.

(** ** The shape of a password hash *)

(** Whatever the password, empty or of any length, its hash is a string of
    64 characters, each a lower-case hexadecimal digit. *)
Theorem hash_password_shape (password : string) :
  String.length (hash_password password) = 64%nat
  /\ forallb is_lower_hex (list_ascii_of_string (hash_password password)) = true.
Proof.
  unfold hash_password, SHA256.hexdigest, SHA256.digest.
  match goal with
  | |- context [SHA256.hex ?bytes] =>
      destruct (hex_shape bytes) as [Hlen Hhex]
  end.
  - apply words_bytes_range.
  - split; [|exact Hhex].
    rewrite Hlen, words_bytes_length, hash_state_length; reflexivity.
Qed.

Lemma reads_return_own_rows_witness :
  let w := fst (serve [(1000, POST_register (account "alice" "hunter2"));
                       (1001, POST_entries (credentials "alice" "hunter2")
                                (day 738886 (Some 5)))]
                  (fresh_world 1000)) in
  exists r, snd (get_daily_entry 738886 alice w) = Return (Some r)
            /\ daily_entries.user_id r = 1.
Proof.
  intros w.
  assert (E : exists r, snd (get_daily_entry 738886 alice w) = Return (Some r))
    by (vm_compute; eexists; reflexivity).
  destruct E as [r E]. exists r. split; [exact E|].
  destruct (reads_return_own_rows alice w) as (_ & Hdaily & _).
  destruct (Hdaily 738886 r E) as (_ & Hu & _). exact Hu.
Defined.

(** ** Ids *)

Lemma reachable_consistent_witness :
  consistent
    (db (fst (app (POST_register (account "alice" "hunter2"))
                {| db := empty_database "{}" smallint integer; clock := 1000;
                   faults := [false; true] |}))) = true.
Proof.
  exact (reachable_consistent _
           (reachable_step _ (POST_register (account "alice" "hunter2")) 1000
              [false; true] (reachable_empty "{}" smallint integer))).
Defined.

(** ** The intro flag at the next authentication *)

(** After a user has saved an intro reflection with answers free of
    U+0000, the same credentials authenticate with [intro_completed] true,
    and the id and the name as before. *)
Theorem save_intro_reflection_then_authenticate (c : HTTPBasicCredentials.t)
    (u : CurrentUser.t) (reflection : IntroReflection.t) (w : world) :
  faults w = [] ->
  no_nul (intro_texts reflection) = true ->
  snd (get_current_user c w) = Return u ->
  let w1 := fst (save_intro_reflection reflection u w) in
  snd (get_current_user c w1)
  = Return {| CurrentUser.id := CurrentUser.id u;
              CurrentUser.username := CurrentUser.username u;
              CurrentUser.intro_completed := true |}.
Proof.
  intros Hf Hok Hauth w1. subst w1.
  destruct (get_current_user_run c w) as (_ & _ & _ & Hcases & _).
  rewrite Hauth in Hcases. destruct Hcases as (Hn & row & Hfind & ->).
  rewrite (save_intro_reflection_run reflection _ w Hf Hok). cbn [fst].
  match goal with
  | |- snd (get_current_user c ?w1) = _ =>
      assert (Hfind' :
                find (credentials_match (HTTPBasicCredentials.username c)
                        (hash_password (HTTPBasicCredentials.password c)))
                  (users (db w1))
                = Some {| users.id := users.id row;
                          users.username := users.username row;
                          users.password_hash := users.password_hash row;
                          users.intro_completed := true;
                          users.created_at := users.created_at row |});
      [ | rewrite (get_current_user_found c w1 _ eq_refl Hn Hfind'); reflexivity ]
  end.
  cbn [db]. unfold mark_intro_completed. accepted.
  cbn [fst users set_users set_intro_reflection].
  rewrite find_update_where by reflexivity.
  rewrite Hfind. cbn [option_map identity_of CurrentUser.id].
  rewrite Z.eqb_refl. reflexivity.
Qed.

Lemma save_intro_reflection_then_authenticate_witness :
  let w := fst (serve [(1000, POST_register (account "alice" "hunter2"))]
                  (fresh_world 1000)) in
  let w1 := fst (save_intro_reflection (intro "fine") alice w) in
  snd (get_current_user (credentials "alice" "hunter2") w1)
  = Return {| CurrentUser.id := 1; CurrentUser.username := "alice";
              CurrentUser.intro_completed := true |}.
Proof.
  intros w w1.
  assert (Hf : faults w = []) by (vm_compute; reflexivity).
  assert (Hauth : snd (get_current_user (credentials "alice" "hunter2") w)
                  = Return alice) by (vm_compute; reflexivity).
  exact (save_intro_reflection_then_authenticate
           (credentials "alice" "hunter2") alice (intro "fine") w Hf eq_refl Hauth).
Defined.

Lemma list_entries_after_saves_witness :
  let w := fst (save_daily_entries alice
                  [(1001, day 738886 None); (1002, day 738890 None);
                   (1003, day 738887 None); (1004, day 738889 None);
                   (1005, day 738888 None)]
                  (alice_registered 1001)) in
  exists l,
    snd (list_entries 2 alice w) = Return l
    /\ map EntrySummary.entry_date l = [738890; 738889].
Proof.
  intros w.
  assert (Hf : faults (alice_registered 1001) = []) by (vm_compute; reflexivity).
  assert (Hc : consistent (db (alice_registered 1001)) = true)
    by (vm_compute; reflexivity).
  assert (Hnone : filter (fun r => daily_entries.user_id r =? CurrentUser.id alice)
                    (daily_entries (db (alice_registered 1001))) = [])
    by (vm_compute; reflexivity).
  assert (Hty : energy_level_type (db (alice_registered 1001)) = smallint)
    by (vm_compute; reflexivity).
  destruct (list_entries_after_saves alice
              [(1001, day 738886 None); (1002, day 738890 None);
               (1003, day 738887 None); (1004, day 738889 None);
               (1005, day 738888 None)]
              2 (alice_registered 1001) Hf Hc Hnone)
    as (l & Hl & Hdates).
  - simpl. repeat constructor; simpl; intuition discriminate.
  - repeat constructor; unfold storable_daily_entry, energy_level_in_range;
      rewrite ?Hty; reflexivity.
  - unfold int64_max. lia.
  - exists l. split; [exact Hl | exact Hdates].
Defined.

(** ** Nothing is removed *)

Lemma grows_refl {K : Type} (ks : list K) : grows ks ks.
Proof. exists []. rewrite app_nil_r. reflexivity. Qed.

Lemma grows_trans {K : Type} (a b c : list K) : grows a b -> grows b c -> grows a c.
Proof.
  intros [x ->] [y ->]. exists (x ++ y). rewrite app_assoc. reflexivity.
Qed.

Lemma only_appended_refl (d : database) : only_appended d d.
Proof. repeat split; apply grows_refl. Qed.

Lemma only_appended_trans (a b c : database) :
  only_appended a b -> only_appended b c -> only_appended a c.
Proof.
  intros (H1 & H2 & H3 & H4 & H5 & H6) (G1 & G2 & G3 & G4 & G5 & G6).
  repeat split; eapply grows_trans; eassumption.
Qed.

Lemma upsert_grows {R K : Type} (key : R -> K) (conflicts : R -> bool)
    (do_update : R -> R) (excluded : R) (t : list R) :
  (forall r, key (do_update r) = key r) ->
  grows (map key t) (map key (insert_on_conflict_update conflicts do_update excluded t)).
Proof.
  intros Hk. rewrite (upsert_keys key conflicts do_update excluded t Hk).
  destruct (existsb conflicts t); [apply grows_refl | eexists; reflexivity].
Qed.

Lemma update_grows {R K : Type} (key : R -> K) (p : R -> bool) (set : R -> R)
    (t : list R) :
  (forall r, key (set r) = key r) ->
  grows (map key t) (map key (update_where p set t)).
Proof. intros Hk. rewrite update_where_keys by exact Hk. apply grows_refl. Qed.

Lemma statements_only_append (now : timestamp) (d : database) :
  (forall username password_hash,
     only_appended d (fst (insert_user username password_hash now d)))
  /\ (forall user_id, only_appended d (fst (insert_user_settings user_id now d)))
  /\ (forall user_id b, only_appended d (fst (upsert_intro_reflection user_id b now d)))
  /\ (forall user_id, only_appended d (fst (mark_intro_completed user_id now d)))
  /\ (forall user_id b, only_appended d (fst (upsert_daily_entry user_id b now d)))
  /\ (forall user_id b, only_appended d (fst (upsert_weekly_reflection user_id b now d)))
  /\ (forall user_id b, only_appended d (fst (upsert_final_reflection user_id b now d)))
  /\ (forall j user_id, only_appended d (fst (update_user_settings j user_id now d))).
Proof.
  repeat match goal with |- _ /\ _ => split end; intros;
    unfold insert_user, insert_user_settings, upsert_intro_reflection,
      mark_intro_completed, upsert_daily_entry, upsert_weekly_reflection,
      upsert_final_reflection, update_user_settings;
    try (destruct (encode_json_argument j) as [text|e];
         [|apply only_appended_refl]);
    try (apply (with_arguments_keeps (only_appended d));
         [apply only_appended_refl|]);
    repeat split;
    try match goal with
        | |- context [if ?b then _ else _] => destruct b
        end;
    simpl; rewrite ?map_app;
    first [ apply grows_refl
          | apply upsert_grows; reflexivity
          | apply update_grows; reflexivity
          | eexists; reflexivity ].
Qed.

Section Append.

Variable d0 : database.

Ltac append_steps :=
  repeat first
    [ apply triple_ret
    | apply triple_raise
    | apply triple_send
    | eapply triple_bind with (I := fun _ => only_appended d0)
    | progress intros
    | match goal with |- triple _ (match ?x with _ => _ end) _ => destruct x end ];
  unfold select_one, select_weekly_reflections in *;
  cbn [fst snd];
  rewrite ?select_entries_unchanged, ?select_user_unchanged,
    ?select_weekly_reflection_unchanged;
  try assumption;
  try (eapply only_appended_trans; [eassumption|];
       apply statements_only_append).

Lemma app_only_appends (r : request) :
  triple (only_appended d0) (app r) (fun _ => only_appended d0).
Proof.
  destruct r; simpl;
    unfold Depends, fmap, register, get_current_user, get_user_status,
      save_intro_reflection, get_intro_reflection, save_daily_entry,
      get_daily_entry, list_entries, save_weekly_reflection,
      get_weekly_reflection, list_weekly_reflections, save_final_reflection,
      get_final_reflection, get_emotion_wheel, update_emotion_wheel,
      health_check, execute, fetchrow, fetchval, fetch;
    try (eapply triple_bind with (I := fun _ => only_appended d0);
         [eapply triple_try_except with (I := fun _ => only_appended d0);
          [ | auto | intros e; destruct e; auto] | | ]);
    append_steps.
Qed.

End Append.

(** No request removes a row, moves one, or changes the id, name, password
    hash or creation time of a user, the owner of a settings row or of a
    reflection, the owner, date and creation time of a daily entry, or the
    owner, week and dates of a weekly reflection: whatever the request, its
    outcome and the faults, each table afterwards is the table before with
    those columns as they were, and possibly rows added at the end. *)
Theorem requests_only_append (r : request) (w : world) :
  only_appended (db w) (db (fst (app r w))).
Proof. apply (app_only_appends (db w) r w). apply only_appended_refl. Qed.
